(** * E-commerce analytics pipeline: generation, loading and orchestration

    A shallow embedding of [generate_data.py], [load_database.py] and the
    orchestration part of [main.py], with the properties of the specification
    stated and settled over it.

    The external collaborators of the scripts (Python's [float] arithmetic and
    [round], the [random] module, the [Faker] provider, the wall clock and the
    SQLite engine) are interfaces: the theorems hold for every implementation
    of them that meets the stated contract. *)

From stdpp Require Import base gmap list strings.
From Stdlib Require Import ZArith Lia Ascii.

Local Open Scope Z_scope.

(** ** Python runtime *)

Module Py.

(** Exceptions the scripts can meet. [SqliteError] stands for [sqlite3.Error]
    and its subclasses; every other constructor is a plain [Exception]. *)
Inductive exn :=
| IndexError
| KeyError
| TypeError
| OSError
| SqliteError.

Inductive outcome (A : Type) :=
| Ok (a : A)
| Raise (e : exn).
Arguments Ok {A} a.
Arguments Raise {A} e.

(** A computation over a state [S]: the state survives a raised exception,
    as the Python process does. *)
Definition M (S A : Type) : Type := S -> outcome A * S.

Definition ret {S A} (a : A) : M S A := fun s => (Ok a, s).

Definition raise {S A} (e : exn) : M S A := fun s => (Raise e, s).

Definition bind {S A B} (m : M S A) (k : A -> M S B) : M S B :=
  fun s => match m s with
           | (Ok a, s') => k a s'
           | (Raise e, s') => (Raise e, s')
           end.

Definition get {S} : M S S := fun s => (Ok s, s).

Definition modify {S} (f : S -> S) : M S unit := fun s => (Ok tt, f s).

(** [for x in xs: body], the loop-carried local variables passed as [acc]. *)
Fixpoint for_each {S A B} (xs : list A) (acc : B) (body : A -> B -> M S B)
  : M S B :=
  match xs with
  | [] => ret acc
  | x :: xs' => bind (body x acc) (fun acc' => for_each xs' acc' body)
  end.

(** [range(a, b)] *)
Definition range (a b : Z) : list Z := seqZ a (b - a).

(** [enumerate(xs, start=n)] *)
Definition enumerate {A} (start : Z) (xs : list A) : list (Z * A) :=
  zip (seqZ start (Z.of_nat (length xs))) xs.

End Py.

Import Py.

Declare Scope py_scope.
Delimit Scope py_scope with py.
Notation "x <- m ;; k" := (bind m (fun x => k))
  (at level 100, m at next level, right associativity) : py_scope.
Notation "m ;;; k" := (bind m (fun _ => k))
  (at level 100, right associativity) : py_scope.
Local Open Scope py_scope.

(** Python's [float] with the operations the generator uses. *)
Class PyFloat (F : Type) := {
  (** the decimal literal [m * 10^-e], e.g. [0.95] is [flit 95 2] *)
  flit : Z -> nat -> F;
  (** conversion of an [int] operand in mixed arithmetic *)
  of_int : Z -> F;
  fadd : F -> F -> F;
  fsub : F -> F -> F;
  fmul : F -> F -> F;
  flt : F -> F -> bool;
  fle : F -> F -> bool;
  (** the builtin [round(x, ndigits)] *)
  round_nd : F -> Z -> F;
}.

(** [0.0] *)
Definition fzero {F} `{PyFloat F} : F := flit 0 1.

Class PyFloatLaws (F : Type) `{PyFloat F} : Prop := {
  (** [round(0.0, 2) == 0.0] *)
  round_zero : round_nd fzero 2 = fzero;
  (** decimal literals of one scale are ordered as their digits *)
  flit_le : forall (m n : Z) (e : nat), m <= n -> fle (flit m e) (flit n e) = true;
}.

(** One [random.Random] instance with state [R]. *)
Class PyRandom (R F : Type) := {
  (** the state [seed(n)] leaves behind, whatever the state before *)
  seed : Z -> R;
  (** [_randbelow(n)], behind [random.choice] *)
  randbelow : nat -> R -> nat * R;
  randint : Z -> Z -> R -> Z * R;
  random : R -> F * R;
  uniform : F -> F -> R -> F * R;
  (** the position [random.choices(population, weights=ws)] selects for its
      single result *)
  choices_index : list F -> R -> nat * R;
}.

Class PyRandomLaws (R F : Type) `{PyFloat F} `{PyRandom R F} : Prop := {
  randbelow_lt : forall (n : nat) (r : R), (0 < n)%nat -> (fst (randbelow n r) < n)%nat;
  randint_range : forall (a b : Z) (r : R), a <= b -> a <= fst (randint a b r) <= b;
  uniform_range : forall (a b : F) (r : R), fle a b = true ->
    fle a (fst (uniform a b r)) = true /\ fle (fst (uniform a b r)) b = true;
  choices_index_lt : forall (ws : list F) (r : R), (0 < length ws)%nat ->
    (fst (choices_index ws r) < length ws)%nat;
}.

(** A naive [datetime] is its count of microseconds since the epoch. *)
Definition datetime := Z.

(** A timestamp rendered with ['%Y-%m-%d %H:%M:%S'] is represented by its
    count of whole seconds: the rendering is fixed-width, so it orders and
    compares as that count does. *)
Definition datestr := Z.

Definition timedelta_days (d : Z) : Z := d * 86400 * 1000000.
Definition timedelta_minutes (m : Z) : Z := m * 60 * 1000000.
Definition strftime (d : datetime) : datestr := d / 1000000.
Definition strptime (s : datestr) : datetime := s * 1000000.

(** The [Faker] provider, drawing from its own [random.Random] instance. *)
Class Faker (R : Type) := {
  fake_first_name : R -> string * R;
  fake_last_name : R -> string * R;
  fake_email : R -> string * R;
  fake_phone_number : R -> string * R;
  fake_street_address : R -> string * R;
  fake_city : R -> string * R;
  fake_state_abbr : R -> string * R;
  fake_zipcode : R -> string * R;
  fake_word : R -> string * R;
  fake_company : R -> string * R;
  fake_uuid4 : R -> string * R;
  (** [date_time_between(start_date, end_date)] resolved against the clock
      reading given as third argument *)
  fake_date_time_between : string -> string -> Z -> R -> datetime * R;
}.

(** ** The five record types of [generate_data.py]

    Each generated row is a [dict] with a fixed key set; a missing value is
    [None]. *)

Module Customer.
Record t := mk {
  customer_id : Z;
  first_name : string;
  last_name : string;
  email : string;
  phone : string;
  address : string;
  city : string;
  state : string;
  zip_code : string;
  country : string;
  created_at : datestr;
  customer_segment : string;
}.
End Customer.

Module Product.
Record t (F : Type) := mk {
  product_id : Z;
  product_name : string;
  category : string;
  price : F;
  cost : F;
  stock_quantity : Z;
  supplier : string;
  created_at : datestr;
  rating : F;
}.
Arguments mk {F}.
Arguments product_id {F}.
Arguments product_name {F}.
Arguments category {F}.
Arguments price {F}.
Arguments cost {F}.
Arguments stock_quantity {F}.
Arguments supplier {F}.
Arguments created_at {F}.
Arguments rating {F}.
End Product.

Module Order.
Record t (F : Type) := mk {
  order_id : Z;
  customer_id : Z;
  order_date : datestr;
  status : string;
  shipping_address : string;
  shipped_date : option datestr;
  delivery_date : option datestr;
  total_amount : F;
}.
Arguments mk {F}.
Arguments order_id {F}.
Arguments customer_id {F}.
Arguments order_date {F}.
Arguments status {F}.
Arguments shipping_address {F}.
Arguments shipped_date {F}.
Arguments delivery_date {F}.
Arguments total_amount {F}.

(** [order['total_amount'] = x] *)
Definition set_total_amount {F} (x : F) (o : t F) : t F :=
  mk (order_id o) (customer_id o) (order_date o) (status o)
     (shipping_address o) (shipped_date o) (delivery_date o) x.
End Order.

Module OrderItem.
Record t (F : Type) := mk {
  order_item_id : Z;
  order_id : Z;
  product_id : Z;
  quantity : Z;
  unit_price : F;
  discount : F;
  total : F;
}.
Arguments mk {F}.
Arguments order_item_id {F}.
Arguments order_id {F}.
Arguments product_id {F}.
Arguments quantity {F}.
Arguments unit_price {F}.
Arguments discount {F}.
Arguments total {F}.
End OrderItem.

Module Payment.
Record t (F : Type) := mk {
  payment_id : Z;
  order_id : Z;
  payment_date : datestr;
  payment_method : string;
  payment_amount : F;
  transaction_fee : F;
  status : string;
  transaction_id : string;
}.
Arguments mk {F}.
Arguments payment_id {F}.
Arguments order_id {F}.
Arguments payment_date {F}.
Arguments payment_method {F}.
Arguments payment_amount {F}.
Arguments transaction_fee {F}.
Arguments status {F}.
Arguments transaction_id {F}.
End Payment.

(** ** CSV files as [csv.DictWriter] lays them out *)

Inductive cell (F : Type) :=
| CInt (z : Z)
| CFloat (x : F)
| CStr (s : string)
| CDate (d : datestr)
| CNone.
Arguments CInt {F} z.
Arguments CFloat {F} x.
Arguments CStr {F} s.
Arguments CDate {F} d.
Arguments CNone {F}.

(** A written file: its rows in order, the header row first. A file opened
    for writing and not written to is [[]]. *)
Definition csv (F : Type) := list (list (cell F)).

Definition cell_of_date {F} (d : option datestr) : cell F :=
  match d with Some x => CDate x | None => CNone end.

Definition customer_keys : list string :=
  ["customer_id"; "first_name"; "last_name"; "email"; "phone"; "address";
   "city"; "state"; "zip_code"; "country"; "created_at"; "customer_segment"].

Definition customer_values {F} (c : Customer.t) : list (cell F) :=
  [CInt (Customer.customer_id c); CStr (Customer.first_name c);
   CStr (Customer.last_name c); CStr (Customer.email c);
   CStr (Customer.phone c); CStr (Customer.address c);
   CStr (Customer.city c); CStr (Customer.state c);
   CStr (Customer.zip_code c); CStr (Customer.country c);
   CDate (Customer.created_at c); CStr (Customer.customer_segment c)].

Definition product_keys : list string :=
  ["product_id"; "product_name"; "category"; "price"; "cost";
   "stock_quantity"; "supplier"; "created_at"; "rating"].

Definition product_values {F} (p : Product.t F) : list (cell F) :=
  [CInt (Product.product_id p); CStr (Product.product_name p);
   CStr (Product.category p); CFloat (Product.price p);
   CFloat (Product.cost p); CInt (Product.stock_quantity p);
   CStr (Product.supplier p); CDate (Product.created_at p);
   CFloat (Product.rating p)].

Definition order_keys : list string :=
  ["order_id"; "customer_id"; "order_date"; "status"; "shipping_address";
   "shipped_date"; "delivery_date"; "total_amount"].

Definition order_values {F} (o : Order.t F) : list (cell F) :=
  [CInt (Order.order_id o); CInt (Order.customer_id o);
   CDate (Order.order_date o); CStr (Order.status o);
   CStr (Order.shipping_address o); cell_of_date (Order.shipped_date o);
   cell_of_date (Order.delivery_date o); CFloat (Order.total_amount o)].

Definition order_item_keys : list string :=
  ["order_item_id"; "order_id"; "product_id"; "quantity"; "unit_price";
   "discount"; "total"].

Definition order_item_values {F} (i : OrderItem.t F) : list (cell F) :=
  [CInt (OrderItem.order_item_id i); CInt (OrderItem.order_id i);
   CInt (OrderItem.product_id i); CInt (OrderItem.quantity i);
   CFloat (OrderItem.unit_price i); CFloat (OrderItem.discount i);
   CFloat (OrderItem.total i)].

Definition payment_keys : list string :=
  ["payment_id"; "order_id"; "payment_date"; "payment_method";
   "payment_amount"; "transaction_fee"; "status"; "transaction_id"].

Definition payment_values {F} (p : Payment.t F) : list (cell F) :=
  [CInt (Payment.payment_id p); CInt (Payment.order_id p);
   CDate (Payment.payment_date p); CStr (Payment.payment_method p);
   CFloat (Payment.payment_amount p); CFloat (Payment.transaction_fee p);
   CStr (Payment.status p); CStr (Payment.transaction_id p)].

(** ** String helpers *)

Definition is_space (c : ascii) : bool :=
  let n := nat_of_ascii c in
  ((9 <=? n)%nat && (n <=? 13)%nat) || (n =? 32)%nat.

Definition upper_ascii (c : ascii) : ascii :=
  let n := nat_of_ascii c in
  if ((97 <=? n)%nat && (n <=? 122)%nat)%bool then ascii_of_nat (n - 32) else c.

Definition lower_ascii (c : ascii) : ascii :=
  let n := nat_of_ascii c in
  if ((65 <=? n)%nat && (n <=? 90)%nat)%bool then ascii_of_nat (n + 32) else c.

Fixpoint lower_string (s : string) : string :=
  match s with
  | EmptyString => EmptyString
  | String c s' => String (lower_ascii c) (lower_string s')
  end.

Fixpoint upper_string (s : string) : string :=
  match s with
  | EmptyString => EmptyString
  | String c s' => String (upper_ascii c) (upper_string s')
  end.

(** [str.capitalize()] on ASCII text *)
Definition capitalize (s : string) : string :=
  match s with
  | EmptyString => EmptyString
  | String c s' => String (upper_ascii c) (lower_string s')
  end.

Fixpoint drop_spaces (s : string) : string :=
  match s with
  | EmptyString => EmptyString
  | String c s' => if is_space c then drop_spaces s' else s
  end.

Fixpoint take_word (s : string) : string :=
  match s with
  | EmptyString => EmptyString
  | String c s' => if is_space c then EmptyString else String c (take_word s')
  end.

(** [s.split()[0]]: the first whitespace-separated word, if there is one *)
Definition first_word (s : string) : option string :=
  match drop_spaces s with
  | EmptyString => None
  | t => Some (take_word t)
  end.

(** ** [generate_data.py] *)

Module Gen.

(** The module globals fixed at import time. *)
Record Config := mkConfig {
  NUM_CUSTOMERS : Z;
  NUM_PRODUCTS : Z;
  NUM_ORDERS : Z;
  NUM_ORDER_ITEMS : Z;
}.

Definition DATA_DIR : string := "data".

Definition starts_with_sep (s : string) : bool :=
  match s with
  | String c _ => Ascii.eqb c "/"%char
  | EmptyString => false
  end.

Fixpoint ends_with_sep (s : string) : bool :=
  match s with
  | EmptyString => false
  | String c EmptyString => Ascii.eqb c "/"%char
  | String _ s' => ends_with_sep s'
  end.

(** [os.path.join(dir, name)] (POSIX): an absolute [name] stands alone, and
    no separator is put after an empty [dir] or one that ends in one. *)
Definition path_join (dir name : string) : string :=
  if starts_with_sep name then name
  else if bool_decide (dir = "") || ends_with_sep dir then dir +:+ name
  else dir +:+ "/" +:+ name.

Section Generator.
Context {F R : Type} `{!PyFloat F} `{!PyRandom R F} `{!Faker R}.

(** What a run of the script acts on: the global [random] instance, Faker's
    own instance, the wall clock (its successive readings and how many were
    taken), the files written so far, and the list objects allocated so far
    (the [orders] list is mutated in place after it is returned). *)
Record World := mkWorld {
  py_rng : R;
  fk_rng : R;
  clock : nat -> Z;
  ticks : nat;
  files : gmap string (csv F);
  heap : gmap nat (list (Order.t F));
}.

Definition with_py (r : R) (w : World) : World :=
  mkWorld r (fk_rng w) (clock w) (ticks w) (files w) (heap w).
Definition with_fk (r : R) (w : World) : World :=
  mkWorld (py_rng w) r (clock w) (ticks w) (files w) (heap w).
Definition with_ticks (n : nat) (w : World) : World :=
  mkWorld (py_rng w) (fk_rng w) (clock w) n (files w) (heap w).
Definition with_files (fs : gmap string (csv F)) (w : World) : World :=
  mkWorld (py_rng w) (fk_rng w) (clock w) (ticks w) fs (heap w).
Definition with_heap (h : gmap nat (list (Order.t F))) (w : World) : World :=
  mkWorld (py_rng w) (fk_rng w) (clock w) (ticks w) (files w) h.

(** A draw from the global [random] instance. *)
Definition py {A} (f : R -> A * R) : M World A :=
  fun w => (Ok (f (py_rng w)).1, with_py (f (py_rng w)).2 w).

(** A draw from the Faker instance. *)
Definition fk {A} (f : R -> A * R) : M World A :=
  fun w => (Ok (f (fk_rng w)).1, with_fk (f (fk_rng w)).2 w).

(** [datetime.now()] *)
Definition now : M World Z :=
  fun w => (Ok (clock w (ticks w)), with_ticks (S (ticks w)) w).

(** [random.choice(seq)] *)
Definition random_choice {A} (seq : list A) : M World A :=
  match seq with
  | [] => raise IndexError
  | _ =>
      i <- py (randbelow (length seq)) ;;
      match seq !! i with
      | Some x => ret x
      | None => raise IndexError
      end
  end.

(** [random.choices(population, weights=weights)[0]] *)
Definition random_choices0 {A} (population : list A) (weights : list F)
  : M World A :=
  i <- py (choices_index weights) ;;
  match population !! i with
  | Some x => ret x
  | None => raise IndexError
  end.

(** [fake.date_time_between(start_date=.., end_date=..)] *)
Definition date_time_between (start_date end_date : string) : M World datetime :=
  t <- now ;; fk (fake_date_time_between start_date end_date t).

(** [d[k]] on a dict given by its items in insertion order *)
Definition dict_get {V} (d : list (string * V)) (k : string) : M World V :=
  match list_find (fun kv => kv.1 = k) d with
  | Some (_, (_, v)) => ret v
  | None => raise KeyError
  end.

(** The [with open(filename, 'w') ...: DictWriter(f, rows[0].keys())]
    block: the file is truncated on opening, then the header and the rows
    are written. *)
Definition write_csv {A} (filename : string) (keys : list string)
    (values : A -> list (cell F)) (rows : list A) : M World unit :=
  modify (fun w => with_files (<[filename := []]> (files w)) w) ;;;
  match rows with
  | [] => raise IndexError
  | _ =>
      modify (fun w =>
        with_files (<[filename := (CStr <$> keys) :: (values <$> rows)]> (files w)) w)
  end.

(** A new list object. *)
Definition alloc (os : list (Order.t F)) : M World nat :=
  fun w => let l := fresh (dom (heap w)) in
           (Ok l, with_heap (<[l := os]> (heap w)) w).

Definition deref (l : nat) : M World (list (Order.t F)) :=
  fun w => match heap w !! l with
           | Some os => (Ok os, w)
           | None => (Raise KeyError, w)
           end.

(** In-place update of the dict at position [i] of the list object [l]. *)
Definition update_at (l : nat) (i : nat) (f : Order.t F -> Order.t F)
  : M World unit :=
  modify (fun w => with_heap (alter (alter f i) l (heap w)) w).

(** Module level: [Faker.seed(42)], [random.seed(42)] and the four record
    counts. *)
Definition module_init : M World Config :=
  modify (with_fk (seed 42)) ;;;
  modify (with_py (seed 42)) ;;;
  nc <- py (randint 100 300) ;;
  np <- py (randint 100 300) ;;
  no <- py (randint 100 300) ;;
  ni <- py (randint 150 300) ;;
  ret (mkConfig nc np no ni).

Definition generate_customers (cfg : Config) : M World (list Customer.t) :=
  customers <- for_each (range 1 (NUM_CUSTOMERS cfg + 1)) []
    (fun customer_id customers =>
       first_name <- fk fake_first_name ;;
       last_name <- fk fake_last_name ;;
       email <- fk fake_email ;;
       phone <- fk fake_phone_number ;;
       address <- fk fake_street_address ;;
       city <- fk fake_city ;;
       state <- fk fake_state_abbr ;;
       zip_code <- fk fake_zipcode ;;
       created_at <- date_time_between "-2y" "now" ;;
       customer_segment <- random_choice ["Regular"; "Premium"; "VIP"; "New"] ;;
       ret (customers ++
            [Customer.mk customer_id first_name last_name email phone address
               city state zip_code "USA" (strftime created_at)
               customer_segment])) ;;
  write_csv (path_join DATA_DIR "customers.csv") customer_keys
    customer_values customers ;;;
  ret customers.

Definition categories : list (string * (Z * Z)) :=
  [("Electronics", (50, 2000)); ("Clothing", (15, 200));
   ("Home & Kitchen", (10, 500)); ("Books", (5, 50));
   ("Sports & Outdoors", (20, 300)); ("Beauty & Personal Care", (8, 100));
   ("Toys & Games", (10, 150)); ("Automotive", (15, 500));
   ("Food & Grocery", (5, 100)); ("Health & Wellness", (10, 200))].

Definition product_prefixes : list (string * list string) :=
  [("Electronics", ["Smart"; "Pro"; "Ultra"; "Premium"; "Wireless"; "Digital"]);
   ("Clothing", ["Classic"; "Modern"; "Casual"; "Formal"; "Comfort"; "Style"]);
   ("Home & Kitchen", ["Essential"; "Deluxe"; "Professional"; "Premium"; "Eco"]);
   ("Books", ["The Art of"; "Guide to"; "Complete"; "Mastering"; "Introduction to"]);
   ("Sports & Outdoors", ["Pro"; "Adventure"; "Elite"; "Performance"; "Outdoor"]);
   ("Beauty & Personal Care", ["Natural"; "Organic"; "Premium"; "Luxury"; "Essential"]);
   ("Toys & Games", ["Fun"; "Educational"; "Creative"; "Action"; "Adventure"]);
   ("Automotive", ["Premium"; "Heavy Duty"; "Professional"; "Universal"; "High Performance"]);
   ("Food & Grocery", ["Organic"; "Fresh"; "Gourmet"; "Natural"; "Premium"]);
   ("Health & Wellness", ["Natural"; "Organic"; "Premium"; "Advanced"; "Essential"])].

Definition generate_products (cfg : Config) : M World (list (Product.t F)) :=
  products <- for_each (range 1 (NUM_PRODUCTS cfg + 1)) []
    (fun product_id products =>
       category <- random_choice (categories.*1) ;;
       bounds <- dict_get categories category ;;
       let price_min := bounds.1 in
       let price_max := bounds.2 in
       prefixes <- dict_get product_prefixes category ;;
       prefix <- random_choice prefixes ;;
       word <- fk fake_word ;;
       head_word <- match first_word category with
                    | Some h => ret h
                    | None => raise IndexError
                    end ;;
       price <- py (uniform (of_int price_min) (of_int price_max)) ;;
       cost <- py (uniform (fmul (of_int price_min) (flit 4 1))
                           (fmul (of_int price_min) (flit 7 1))) ;;
       stock_quantity <- py (randint 0 500) ;;
       supplier <- fk fake_company ;;
       created_at <- date_time_between "-3y" "-1y" ;;
       rating <- py (uniform (flit 30 1) (flit 50 1)) ;;
       ret (products ++
            [Product.mk product_id
               (prefix +:+ " " +:+ capitalize word +:+ " " +:+ head_word)
               category (round_nd price 2) (round_nd cost 2) stock_quantity
               supplier (strftime created_at) (round_nd rating 1)])) ;;
  write_csv (path_join DATA_DIR "products.csv") product_keys
    product_values products ;;;
  ret products.

Definition order_statuses : list string :=
  ["Pending"; "Processing"; "Shipped"; "Delivered"; "Cancelled"].

Definition order_status_weights : list F :=
  [flit 5 2; flit 10 2; flit 15 2; flit 65 2; flit 5 2].

(** Returns the list object holding the orders. *)
Definition generate_orders (cfg : Config) (customers : list Customer.t)
  : M World nat :=
  orders <- for_each (range 1 (NUM_ORDERS cfg + 1)) []
    (fun order_id orders =>
       customer <- random_choice customers ;;
       order_date <- date_time_between "-1y" "now" ;;
       d1 <- py (randint 1 7) ;;
       let shipped_date := order_date + timedelta_days d1 in
       d2 <- py (randint 2 10) ;;
       let delivery_date := shipped_date + timedelta_days d2 in
       status <- random_choices0 order_statuses order_status_weights ;;
       street <- fk fake_street_address ;;
       city <- fk fake_city ;;
       state <- fk fake_state_abbr ;;
       zip <- fk fake_zipcode ;;
       ret (orders ++
            [Order.mk order_id (Customer.customer_id customer)
               (strftime order_date) status
               (street +:+ ", " +:+ city +:+ ", " +:+ state +:+ " " +:+ zip)
               (if bool_decide (status ∈ ["Shipped"; "Delivered"])
                then Some (strftime shipped_date) else None)
               (if bool_decide (status = "Delivered")
                then Some (strftime delivery_date) else None)
               fzero])) ;;
  write_csv (path_join DATA_DIR "orders.csv") order_keys order_values orders ;;;
  alloc orders.

(** [{order['order_id']: 0.0 for order in orders}] *)
Definition zero_totals (orders : list (Order.t F)) : gmap Z F :=
  foldl (fun m o => <[Order.order_id o := fzero]> m) ∅ orders.

(** The loop-carried locals of [generate_order_items]. *)
Record ItemsAcc := mkItemsAcc {
  acc_items : list (OrderItem.t F);
  acc_totals : gmap Z F;
  acc_item_id : Z;
}.

Definition generate_order_items (cfg : Config) (orders_obj : nat)
    (products : list (Product.t F)) : M World (list (OrderItem.t F)) :=
  orders <- deref orders_obj ;;
  acc <- for_each (range 0 (NUM_ORDER_ITEMS cfg))
    (mkItemsAcc [] (zero_totals orders) 1)
    (fun _ acc =>
       order <- random_choice orders ;;
       product <- random_choice products ;;
       quantity <- py (randint 1 10) ;;
       price_variation <- py (uniform (flit 95 2) (flit 105 2)) ;;
       let unit_price := round_nd (fmul (Product.price product) price_variation) 2 in
       let subtotal := round_nd (fmul unit_price (of_int quantity)) 2 in
       r <- py random ;;
       discount <- (if flt r (flit 2 1)
                    then u <- py (uniform (flit 5 2) (flit 20 2)) ;;
                         ret (round_nd (fmul subtotal u) 2)
                    else ret fzero) ;;
       let total := round_nd (fsub subtotal discount) 2 in
       let order_item :=
         OrderItem.mk (acc_item_id acc) (Order.order_id order)
           (Product.product_id product) quantity unit_price discount total in
       match acc_totals acc !! Order.order_id order with
       | None => raise KeyError
       | Some t =>
           ret (mkItemsAcc (acc_items acc ++ [order_item])
                  (<[Order.order_id order := fadd t total]> (acc_totals acc))
                  (acc_item_id acc + 1))
       end) ;;
  let order_items := acc_items acc in
  let order_totals := acc_totals acc in
  write_csv (path_join DATA_DIR "order_items.csv") order_item_keys
    order_item_values order_items ;;;
  for_each (imap (fun i o => (i, o)) orders) tt
    (fun io _ =>
       match order_totals !! Order.order_id io.2 with
       | None => raise KeyError
       | Some t => update_at orders_obj io.1 (Order.set_total_amount (round_nd t 2))
       end) ;;;
  orders' <- deref orders_obj ;;
  write_csv (path_join DATA_DIR "orders.csv") order_keys order_values orders' ;;;
  ret order_items.

Definition payment_methods : list string :=
  ["Credit Card"; "Debit Card"; "PayPal"; "Apple Pay"; "Google Pay";
   "Bank Transfer"].

Definition payment_statuses : list string :=
  ["Completed"; "Pending"; "Failed"; "Refunded"].

Definition payment_status_weights : list F :=
  [flit 85 2; flit 5 2; flit 5 2; flit 5 2].

Definition generate_payments (orders_obj : nat) : M World (list (Payment.t F)) :=
  orders <- deref orders_obj ;;
  payments <- for_each (enumerate 1 orders) []
    (fun po payments =>
       let payment_id := po.1 in
       let order := po.2 in
       let order_date := strptime (Order.order_date order) in
       m <- py (randint 0 30) ;;
       let payment_date := order_date + timedelta_minutes m in
       status <- random_choices0 payment_statuses payment_status_weights ;;
       let payment_amount := Order.total_amount order in
       u <- py (uniform (flit 2 2) (flit 3 2)) ;;
       let transaction_fee := round_nd (fmul payment_amount u) 2 in
       payment_method <- random_choice payment_methods ;;
       uuid <- fk fake_uuid4 ;;
       ret (payments ++
            [Payment.mk payment_id (Order.order_id order)
               (strftime payment_date) payment_method payment_amount
               transaction_fee status
               (upper_string (String.substring 0 16 uuid))])) ;;
  write_csv (path_join DATA_DIR "payments.csv") payment_keys payment_values
    payments ;;;
  ret payments.

(** The locals of [main] when it returns, the [orders] list read in its
    final state. *)
Record Dataset := mkDataset {
  customers : list Customer.t;
  products : list (Product.t F);
  orders : list (Order.t F);
  order_items : list (OrderItem.t F);
  payments : list (Payment.t F);
}.

Definition main (cfg : Config) : M World Dataset :=
  customers <- generate_customers cfg ;;
  products <- generate_products cfg ;;
  orders <- generate_orders cfg customers ;;
  order_items <- generate_order_items cfg orders products ;;
  payments <- generate_payments orders ;;
  final_orders <- deref orders ;;
  ret (mkDataset customers products final_orders order_items payments).

(** One run of the script in a fresh interpreter: the import, then [main]. *)
Definition run : M World Dataset :=
  cfg <- module_init ;; main cfg.

(** The interpreter at start-up: both generators in whatever state the
    operating system's entropy left them, nothing written or allocated. *)
Definition process_start (e1 e2 : R) (clk : nat -> Z) : World :=
  mkWorld e1 e2 clk 0 ∅ ∅.

End Generator.
End Gen.

(** ** The SQLite engine as the loader uses it *)

(** A value bound to a [?] placeholder: text read from a CSV file, [None],
    or (for the surplus fields of an overlong line) a list. *)
Inductive pyval :=
| PStr (s : string)
| PNone
| PList (l : list string).

(** The column and table constraints [create_tables] declares. *)
Record column := mkColumn {
  col_name : string;
  col_type : string;
  col_primary_key : bool;
  col_not_null : bool;
  col_unique : bool;
  (** [CHECK(c >= lo AND c <= hi)] *)
  col_check_between : option (Z * Z);
}.

Record foreign_key := mkForeignKey {
  fk_column : string;
  fk_parent_table : string;
  fk_parent_column : string;
  fk_on_delete : string;
  fk_on_update : string;
}.

Inductive ddl :=
| CreateTableIfNotExists (name : string) (cols : list column)
    (fks : list foreign_key)
| CreateIndex (name table col : string).

(** The engine behind a [sqlite3] connection, over database contents [DB].
    [None] is a raised [sqlite3.Error]; a statement that raises leaves the
    contents as they were. *)
Class SqlEngine (DB : Type) := {
  (** the contents of a database file that was just created *)
  empty_db : DB;
  execute_ddl : ddl -> DB -> option DB;
  (** [INSERT INTO table (columns) VALUES (?, ..)] with its bindings, under
      the given setting of [PRAGMA foreign_keys] *)
  execute_insert : bool -> string -> list string -> list pyval -> DB -> option DB;
  (** [SELECT COUNT( * ) FROM table] *)
  count_rows : string -> DB -> option Z;
  (** the read-only queries of [verify_data] and of
      [generate_summary_stats] with the formatting of their results: either
      returns or raises *)
  verify_queries : DB -> outcome unit;
  summary_queries : DB -> outcome unit;
}.

(** ** [load_database.py] *)

Module Loader.

Definition DATA_DIR : string := "data".
Definition DB_NAME : string := "ecommerce.db".

Definition CSV_FILES : list (string * string) :=
  [("customers", "customers.csv"); ("products", "products.csv");
   ("orders", "orders.csv"); ("order_items", "order_items.csv");
   ("payments", "payments.csv")].

(** What the script prints, as far as the properties below need it. *)
Inductive event :=
| RemovedExistingDatabase (name : string)
| CreatedNewDatabase (name : string)
| ErrorConnecting
| FailedToCreateConnection
| CreatedTable (name : string)
| CreatedIndex (name : string)
| CsvFileNotFound (path : string)
| LoadedRows (n : Z) (table : string)
| ErrorLoading (table : string)
| UnexpectedErrorLoading (table : string)
| TotalRowsLoaded (n : Z)
| StatusSuccess
| ErrorDuringEtl
| ConnectionClosed.

(** A CSV file as [csv.reader] yields it: its lines, each a list of fields
    (a blank line is [[]]). *)
Definition csvtext := list (list string).

Section LoaderDefs.
Context {DB : Type} `{!SqlEngine DB}.

(** An open [sqlite3] connection: what it sees, whether a transaction is
    open, and the [foreign_keys] pragma. *)
Record Conn := mkConn {
  work : DB;
  in_txn : bool;
  foreign_keys : bool;
}.

(** The files of the working directory, the connection [conn] of [main], and
    the console. [db_removable] and [db_openable] say whether [os.remove] and
    [sqlite3.connect] succeed on the database path. *)
Record World := mkWorld {
  csv_files : gmap string csvtext;
  db_file : option DB;
  conn : option Conn;
  log : list event;
  db_removable : bool;
  db_openable : bool;
}.

Definition with_db_file (f : option DB) (w : World) : World :=
  mkWorld (csv_files w) f (conn w) (log w) (db_removable w) (db_openable w).
Definition with_conn (c : option Conn) (w : World) : World :=
  mkWorld (csv_files w) (db_file w) c (log w) (db_removable w) (db_openable w).
Definition with_log (l : list event) (w : World) : World :=
  mkWorld (csv_files w) (db_file w) (conn w) l (db_removable w) (db_openable w).

Definition print (e : event) : M World unit :=
  modify (fun w => with_log (log w ++ [e]) w).

(** [try: m except <any Exception> as e: h e] *)
Definition try_except {A} (m : M World A) (h : exn -> M World A) : M World A :=
  fun w => match m w with
           | (Raise e, w') => h e w'
           | r => r
           end.

(** [try: m finally: f] *)
Definition try_finally {A} (m : M World A) (f : M World unit) : M World A :=
  fun w => match m w with
           | (r, w') =>
               match f w' with
               | (Ok _, w'') => (r, w'')
               | (Raise e, w'') => (Raise e, w'')
               end
           end.

(** The connection [conn] refers to; using a closed one is an error. *)
Definition the_conn : M World Conn :=
  fun w => match conn w with
           | Some c => (Ok c, w)
           | None => (Raise SqliteError, w)
           end.

(** A statement outside a transaction takes effect on the file at once. *)
Definition store (c : Conn) (w : World) : World :=
  with_conn (Some c) (if in_txn c then w else with_db_file (Some (work c)) w).

Definition conn_execute_ddl (d : ddl) : M World unit :=
  c <- the_conn ;;
  match execute_ddl d (work c) with
  | None => raise SqliteError
  | Some db => modify (store (mkConn db (in_txn c) (foreign_keys c)))
  end.

(** [cursor.execute(insert_sql, values)]: opens a transaction if none is
    open. *)
Definition cursor_execute_insert (table : string) (columns : list string)
    (values : list pyval) : M World unit :=
  c <- the_conn ;;
  match execute_insert (foreign_keys c) table columns values (work c) with
  | None => raise SqliteError
  | Some db => modify (with_conn (Some (mkConn db true (foreign_keys c))))
  end.

(** [conn.commit()] *)
Definition commit : M World unit :=
  c <- the_conn ;;
  modify (fun w => with_conn (Some (mkConn (work c) false (foreign_keys c)))
                     (with_db_file (Some (work c)) w)).

(** [conn.rollback()]: back to what the file holds. *)
Definition rollback : M World unit :=
  c <- the_conn ;;
  if in_txn c then
    fun w => match db_file w with
             | Some db => (Ok tt, with_conn (Some (mkConn db false (foreign_keys c))) w)
             | None => (Raise SqliteError, w)
             end
  else ret tt.

(** [conn.close()] *)
Definition close : M World unit := modify (with_conn None).

Definition create_connection : M World bool :=
  try_except
    (w <- get ;;
     (if bool_decide (is_Some (db_file w)) then
        (if db_removable w then modify (with_db_file None)
         else raise OSError) ;;;
        print (RemovedExistingDatabase DB_NAME)
      else ret tt) ;;;
     (if db_openable w then
        (** [sqlite3.connect] opens what is at the path, and creates an empty
            database there when nothing is *)
        modify (fun w => let db := default empty_db (db_file w) in
                         with_conn (Some (mkConn db false false))
                           (with_db_file (Some db) w))
      else raise SqliteError) ;;;
     print (CreatedNewDatabase DB_NAME) ;;;
     c <- the_conn ;;
     modify (with_conn (Some (mkConn (work c) (in_txn c) true))) ;;;
     ret true)
    (fun e => match e with
              | SqliteError => print ErrorConnecting ;;; ret false
              | _ => raise e
              end).

Definition text (n : string) (pk nn uq : bool) : column :=
  mkColumn n "TEXT" pk nn uq None.
Definition integer (n : string) (pk nn uq : bool) : column :=
  mkColumn n "INTEGER" pk nn uq None.
Definition real (n : string) (nn : bool) (chk : option (Z * Z)) : column :=
  mkColumn n "REAL" false nn false chk.
Definition timestamp (n : string) (nn : bool) : column :=
  mkColumn n "TIMESTAMP" false nn false None.

Definition customers_ddl : ddl :=
  CreateTableIfNotExists "customers"
    [integer "customer_id" true false false;
     text "first_name" false true false;
     text "last_name" false true false;
     text "email" false true true;
     text "phone" false false false;
     text "address" false false false;
     text "city" false false false;
     text "state" false false false;
     text "zip_code" false false false;
     text "country" false false false;
     timestamp "created_at" false;
     text "customer_segment" false false false]
    [].

Definition products_ddl : ddl :=
  CreateTableIfNotExists "products"
    [integer "product_id" true false false;
     text "product_name" false true false;
     text "category" false true false;
     real "price" true None;
     real "cost" false None;
     integer "stock_quantity" false false false;
     text "supplier" false false false;
     timestamp "created_at" false;
     real "rating" false (Some (0, 5))]
    [].

Definition orders_ddl : ddl :=
  CreateTableIfNotExists "orders"
    [integer "order_id" true false false;
     integer "customer_id" false true false;
     timestamp "order_date" true;
     text "status" false true false;
     text "shipping_address" false false false;
     timestamp "shipped_date" false;
     timestamp "delivery_date" false;
     real "total_amount" false None]
    [mkForeignKey "customer_id" "customers" "customer_id" "CASCADE" "CASCADE"].

Definition order_items_ddl : ddl :=
  CreateTableIfNotExists "order_items"
    [integer "order_item_id" true false false;
     integer "order_id" false true false;
     integer "product_id" false true false;
     integer "quantity" false true false;
     real "unit_price" true None;
     real "discount" false None;
     real "total" true None]
    [mkForeignKey "order_id" "orders" "order_id" "CASCADE" "CASCADE";
     mkForeignKey "product_id" "products" "product_id" "RESTRICT" "CASCADE"].

Definition payments_ddl : ddl :=
  CreateTableIfNotExists "payments"
    [integer "payment_id" true false false;
     integer "order_id" false true true;
     timestamp "payment_date" true;
     text "payment_method" false true false;
     real "payment_amount" true None;
     real "transaction_fee" false None;
     text "status" false true false;
     text "transaction_id" false false true]
    [mkForeignKey "order_id" "orders" "order_id" "CASCADE" "CASCADE"].

Definition indexes : list ddl :=
  [CreateIndex "idx_orders_customer" "orders" "customer_id";
   CreateIndex "idx_orders_date" "orders" "order_date";
   CreateIndex "idx_order_items_order" "order_items" "order_id";
   CreateIndex "idx_order_items_product" "order_items" "product_id";
   CreateIndex "idx_products_category" "products" "category";
   CreateIndex "idx_payments_order" "payments" "order_id"].

Definition ddl_name (d : ddl) : string :=
  match d with
  | CreateTableIfNotExists n _ _ => n
  | CreateIndex n _ _ => n
  end.

Definition create_tables : M World unit :=
  for_each [customers_ddl; products_ddl; orders_ddl; order_items_ddl; payments_ddl]
    tt (fun d _ => conn_execute_ddl d ;;; print (CreatedTable (ddl_name d))) ;;;
  for_each indexes tt
    (fun d _ => conn_execute_ddl d ;;; print (CreatedIndex (ddl_name d))) ;;;
  commit.

(** [d[k] = v] on a dict given by its items in insertion order: an existing
    key keeps its place. *)
Fixpoint dict_set {K V} `{EqDecision K} (d : list (K * V)) (k : K) (v : V)
  : list (K * V) :=
  match d with
  | [] => [(k, v)]
  | (k', v') :: d' =>
      if decide (k' = k) then (k, v) :: d' else (k', v') :: dict_set d' k v
  end.

(** The row [csv.DictReader] builds from one line: [dict(zip(fieldnames,
    row))], then the surplus fields under the key [None], or [None] for the
    fields that are missing. *)
Definition row_dict (fieldnames row : list string) : list (option string * pyval) :=
  let d := foldl (fun d kv => dict_set d (Some kv.1) (PStr kv.2)) []
             (zip fieldnames row) in
  let lf := length fieldnames in
  let lr := length row in
  if (lf <? lr)%nat then dict_set d None (PList (drop lf row))
  else foldl (fun d k => dict_set d (Some k) PNone) d (drop lr fieldnames).

(** [[val if val != '' else None for val in row.values()]] *)
Definition normalize (v : pyval) : pyval :=
  match v with
  | PStr s => if decide (s = "") then PNone else PStr s
  | _ => v
  end.

(** The rows [csv.DictReader] iterates over: the lines after the header,
    blank ones skipped. *)
Definition data_lines (lines : csvtext) : list (list string) :=
  filter (fun l => l <> []) (tail lines).

Definition load_csv_to_table (table_name csv_file : string) : M World Z :=
  let csv_path := Gen.path_join DATA_DIR csv_file in
  w <- get ;;
  match csv_files w !! csv_path with
  | None => print (CsvFileNotFound csv_path) ;;; ret 0
  | Some lines =>
      try_except
        (match head lines with
         | None => raise TypeError
         | Some columns =>
             row_count <- for_each (data_lines lines) 0
               (fun row row_count =>
                  let values := normalize <$> (row_dict columns row).*2 in
                  cursor_execute_insert table_name columns values ;;;
                  ret (row_count + 1)) ;;
             commit ;;;
             print (LoadedRows row_count table_name) ;;;
             ret row_count
         end)
        (fun e =>
           match e with
           | SqliteError => print (ErrorLoading table_name) ;;; rollback ;;; ret 0
           | _ => print (UnexpectedErrorLoading table_name) ;;; rollback ;;; ret 0
           end)
  end.

Definition verify_data : M World unit :=
  c <- the_conn ;;
  match verify_queries (work c) with
  | Ok _ => ret tt
  | Raise e => raise e
  end.

Definition generate_summary_stats : M World unit :=
  c <- the_conn ;;
  match summary_queries (work c) with
  | Ok _ => ret tt
  | Raise e => raise e
  end.

Definition load_order : list string :=
  ["customers"; "products"; "orders"; "order_items"; "payments"].

(** The [for table_name in load_order] loop of [main], which leaves
    [total_loaded]. *)
Definition load_all_tables : M World Z :=
  for_each load_order 0
    (fun table_name total_loaded =>
       csv_file <- match list_find (fun kv => kv.1 = table_name) CSV_FILES with
                   | Some (_, (_, f)) => ret f
                   | None => raise KeyError
                   end ;;
       rows <- load_csv_to_table table_name csv_file ;;
       ret (total_loaded + rows)).

(** [main] returns [None] on every path; an exception of
    [create_connection] is the only one that can leave it. *)
Definition main : M World unit :=
  connected <- create_connection ;;
  if negb connected then print FailedToCreateConnection ;;; ret tt
  else
    try_finally
      (try_except
         (create_tables ;;;
          total_loaded <- load_all_tables ;;
          print (TotalRowsLoaded total_loaded) ;;;
          verify_data ;;;
          generate_summary_stats ;;;
          print StatusSuccess)
         (fun _ => print ErrorDuringEtl))
      (w <- get ;;
       if bool_decide (is_Some (conn w))
       then close ;;; print ConnectionClosed
       else ret tt).

End LoaderDefs.
End Loader.

(** ** [main.py]: the orchestration *)

Module Pipeline.

Record Args := mkArgs {
  skip_data : bool;
  skip_load : bool;
  skip_query : bool;
}.

Definition tables : list string :=
  ["customers"; "products"; "orders"; "order_items"; "payments"].

Section PipelineDefs.
Context {DB : Type} `{!SqlEngine DB}.

Local Abbreviation World := (@Loader.World DB).

(** The steps the properties below do not look into: data generation, the
    join query and the export. Each catches its own exceptions; the query
    returns its result or [False]. *)
Context {QueryResult : Type}.
Variable step_1_generate_data : M World bool.
Variable step_3_run_query : M World (option QueryResult).
Variable step_4_export_csv : QueryResult -> M World bool.

Definition step_2_load_database : M World bool :=
  Loader.try_except
    (Loader.main ;;;
     w <- get ;;
     match Loader.db_file w with
     | Some db =>
         (** a second connection, reading what the file holds *)
         for_each tables tt
           (fun table _ =>
              match count_rows table db with
              | Some _ => ret tt
              | None => raise SqliteError
              end) ;;;
         ret true
     | None => ret false
     end)
    (fun _ => ret false).

Definition run_pipeline (args : Args) : M World bool :=
  ok1 <- (if negb (skip_data args) then step_1_generate_data else ret true) ;;
  if negb ok1 then ret false else
  ok2 <- (if negb (skip_load args) then step_2_load_database else ret true) ;;
  if negb ok2 then ret false else
  if negb (skip_query args) then
    query_result <- step_3_run_query ;;
    match query_result with
    | None => ret false
    | Some r =>
        ok4 <- step_4_export_csv r ;;
        if negb ok4 then ret false else ret true
    end
  else ret true.

(** The exit code [main] hands to [sys.exit]. *)
Definition main (args : Args) (w : World) : Z * World :=
  match run_pipeline args w with
  | (Ok success, w') => (if success then 0 else 1, w')
  | (Raise _, w') => (1, w')
  end.

End PipelineDefs.
End Pipeline.

(** ** Reference implementations of the interfaces

    Small executable implementations, used to run the scripts on concrete
    inputs: decimal fixed-point numbers for [float], a linear congruential
    generator for [random.Random], a provider drawing from short pools for
    [Faker], and an engine that enforces what [create_tables] declares.
    They meet the contracts of the interfaces and are not CPython's, Faker's
    or SQLite's own: their values differ from those of a real run (halves
    round up, the pools repeat, keys are compared as text).  The runs below
    are used only where the property shown does not rest on such values. *)

Module Ref.

(** Numbers in millionths. *)
Definition fixed := Z.
Definition unit_of (ndigits : Z) : Z := 10 ^ (6 - ndigits).

#[export] Instance fixed_float : PyFloat fixed := {|
  flit m e := m * 1000000 / 10 ^ Z.of_nat e;
  of_int z := z * 1000000;
  fadd := Z.add;
  fsub := Z.sub;
  fmul a b := a * b / 1000000;
  flt := Z.ltb;
  fle := Z.leb;
  round_nd x n := (2 * x + unit_of n) / (2 * unit_of n) * unit_of n;
|}.

Definition lcg_next (r : Z) : Z := (r * 1103515245 + 12345) mod 2147483648.

#[export] Instance lcg_random : PyRandom Z fixed := {|
  seed n := n;
  randbelow n r := (Z.to_nat (r mod Z.of_nat n), lcg_next r);
  randint a b r := (a + r mod (b - a + 1), lcg_next r);
  random r := (r mod 1000 * 1000, lcg_next r);
  uniform a b r := (a + (b - a) * (r mod 1000) / 1000, lcg_next r);
  choices_index ws r := (Z.to_nat (r mod Z.of_nat (length ws)), lcg_next r);
|}.

Definition pick (pool : list string) (r : Z) : string * Z :=
  (default "" (pool !! Z.to_nat (r mod Z.of_nat (length pool))), lcg_next r).

(** [-Ny] is [N] years of 365 days back, [now] is no offset. *)
Definition offset_seconds (s : string) : Z :=
  if decide (s = "-1y") then - (365 * 86400)
  else if decide (s = "-2y") then - (2 * 365 * 86400)
  else if decide (s = "-3y") then - (3 * 365 * 86400)
  else 0.

#[export] Instance pool_faker : Faker Z := {|
  fake_first_name := pick ["Ada"; "Grace"; "Alan"; "Edsger"];
  fake_last_name := pick ["Lovelace"; "Hopper"; "Turing"];
  fake_email := pick ["ada@example.org"; "grace@example.com"; "alan@example.net"];
  fake_phone_number := pick ["555-0100"; "555-0101"];
  fake_street_address := pick ["1 Main Street"; "2 High Street"];
  fake_city := pick ["Springfield"; "Riverton"];
  fake_state_abbr := pick ["CA"; "NY"; "TX"];
  fake_zipcode := pick ["90001"; "10001"];
  fake_word := pick ["table"; "river"; "stone"];
  fake_company := pick ["Acme Inc"; "Globex LLC"];
  fake_uuid4 := pick ["0a1b2c3d-4e5f-6789-abcd-ef0123456789";
                      "fedcba98-7654-3210-0123-456789abcdef"];
  fake_date_time_between start_date end_date t r :=
    let lo := t + offset_seconds start_date in
    let hi := t + offset_seconds end_date in
    ((lo + r mod (hi - lo + 1)) * 1000000 + r mod 1000000, lcg_next r);
|}.

(** A clock started at the given second and advancing one second a
    reading. *)
Definition clock_from (t0 : Z) : nat -> Z := fun n => t0 + Z.of_nat n.

(** Two fresh interpreters, started at 2026-01-01 and at 2028-01-01 (UTC). *)
Definition sample_world : @Gen.World fixed Z :=
  Gen.process_start 0 0 (clock_from 1767225600).

Definition later_world : @Gen.World fixed Z :=
  Gen.process_start 0 0 (clock_from 1830297600).

(** *** A small engine *)

Record table := mkTable {
  t_columns : list column;
  t_foreign_keys : list foreign_key;
  t_rows : list (list (string * pyval));
}.

Record database := mkDatabase {
  db_tables : list (string * table);
  db_indexes : list string;
}.

Definition find_table (name : string) (db : database) : option table :=
  snd <$> (snd <$> list_find (fun kv => kv.1 = name) (db_tables db)).

Definition cell_of (row : list (string * pyval)) (c : string) : pyval :=
  match list_find (fun kv => kv.1 = c) row with
  | Some (_, (_, v)) => v
  | None => PNone
  end.

Definition pyval_eqb (a b : pyval) : bool :=
  match a, b with
  | PStr x, PStr y => bool_decide (x = y)
  | _, _ => false
  end.

Definition is_digit (c : ascii) : bool :=
  let n := nat_of_ascii c in ((48 <=? n)%nat && (n <=? 57)%nat)%bool.

Fixpoint all_chars (p : ascii -> bool) (s : string) : bool :=
  match s with
  | EmptyString => true
  | String c s' => p c && all_chars p s'
  end.

Fixpoint digits_value (acc : Z) (s : string) : Z :=
  match s with
  | EmptyString => acc
  | String c s' => digits_value (10 * acc + (Z.of_nat (nat_of_ascii c) - 48)) s'
  end.

Fixpoint split_dot (s : string) : string * option string :=
  match s with
  | EmptyString => (EmptyString, None)
  | String c s' =>
      if Ascii.eqb c "."%char then (EmptyString, Some s')
      else let r := split_dot s' in (String c r.1, r.2)
  end.

(** An unsigned decimal [ddd] or [ddd.ddd] between two integers; any other
    text fails the check. *)
Definition decimal_between (lo hi : Z) (s : string) : bool :=
  let p := split_dot s in
  let frac := default EmptyString p.2 in
  all_chars is_digit p.1 && all_chars is_digit frac
  && negb (bool_decide (p.1 = EmptyString))
  && (lo <=? digits_value 0 p.1)
  && ((digits_value 0 p.1 <? hi)
      || ((digits_value 0 p.1 =? hi) && (digits_value 0 frac =? 0))).

Definition column_ok (t : table) (row : list (string * pyval)) (c : column) : bool :=
  let v := cell_of row (col_name c) in
  match v with
  | PList _ => false
  | PNone => negb (col_not_null c || col_primary_key c)
  | PStr s =>
      (if col_primary_key c || col_unique c
       then forallb (fun r => negb (pyval_eqb (cell_of r (col_name c)) v)) (t_rows t)
       else true)
      && match col_check_between c with
         | Some (lo, hi) => decimal_between lo hi s
         | None => true
         end
  end.

Definition foreign_key_ok (db : database) (row : list (string * pyval))
    (k : foreign_key) : bool :=
  match cell_of row (fk_column k) with
  | PStr s =>
      match find_table (fk_parent_table k) db with
      | Some p => existsb (fun r => pyval_eqb (cell_of r (fk_parent_column k)) (PStr s))
                    (t_rows p)
      | None => false
      end
  | _ => true
  end.

Definition set_table (name : string) (t : table) (db : database) : database :=
  mkDatabase (Loader.dict_set (db_tables db) name t) (db_indexes db).

Definition insert_row (fk_on : bool) (name : string) (columns : list string)
    (values : list pyval) (db : database) : option database :=
  match find_table name db with
  | None => None
  | Some t =>
      let row := zip columns values in
      if bool_decide (length columns = length values)
         && negb (bool_decide (columns = []))
         && forallb (fun c => bool_decide (c ∈ col_name <$> t_columns t)) columns
         && forallb (column_ok t row) (t_columns t)
         && (negb fk_on || forallb (foreign_key_ok db row) (t_foreign_keys t))
      then Some (set_table name
                   (mkTable (t_columns t) (t_foreign_keys t) (t_rows t ++ [row])) db)
      else None
  end.

Definition run_ddl (d : ddl) (db : database) : option database :=
  match d with
  | CreateTableIfNotExists name cols fks =>
      match find_table name db with
      | Some _ => Some db
      | None => Some (set_table name (mkTable cols fks []) db)
      end
  | CreateIndex name tbl col =>
      match find_table tbl db with
      | Some t =>
          if bool_decide (name ∈ db_indexes db)
             || negb (bool_decide (col ∈ col_name <$> t_columns t))
          then None
          else Some (mkDatabase (db_tables db) (db_indexes db ++ [name]))
      | None => None
      end
  end.

Definition row_count (name : string) (db : database) : option Z :=
  (fun t => Z.of_nat (length (t_rows t))) <$> find_table name db.

#[export] Instance mini_engine : SqlEngine database := {|
  empty_db := mkDatabase [] [];
  execute_ddl := run_ddl;
  execute_insert := insert_row;
  count_rows := row_count;
  (** the checks need the five tables *)
  verify_queries db :=
    if forallb (fun t => bool_decide (is_Some (find_table t db))) Pipeline.tables
    then Ok tt else Raise SqliteError;
  (** [SUM(total_amount)] over no orders is [None], which the [:,.2f]
      format refuses *)
  summary_queries db :=
    match row_count "orders" db with
    | None => Raise SqliteError
    | Some n => if n =? 0 then Raise TypeError else Ok tt
    end;
|}.

(** *** Observations on a run *)

(** The [created_at] of the first customer a run returned. *)
Definition first_created_at (r : outcome (@Gen.Dataset fixed)) : option datestr :=
  match r with
  | Ok d => Customer.created_at <$> head (Gen.customers d)
  | Raise _ => None
  end.

(** The [created_at] cell of the first data row of a written file. *)
Definition first_created_cell (f : option (csv fixed)) : option (cell fixed) :=
  match f with
  | Some (_ :: row :: _) => row !! 10%nat
  | _ => None
  end.

(** *** A small data directory *)

(** Five files; the second order names a customer that does not exist. *)
Definition sample_files : gmap string Loader.csvtext :=
  list_to_map
    [("data/customers.csv",
      [["customer_id"; "first_name"; "last_name"; "email"];
       ["1"; "Ada"; "Lovelace"; "ada@example.org"];
       ["2"; "Alan"; "Turing"; "alan@example.net"]]);
     ("data/products.csv",
      [["product_id"; "product_name"; "category"; "price"; "rating"];
       ["1"; "Smart Table Electronics"; "Electronics"; "99.5"; "4.5"]]);
     ("data/orders.csv",
      [["order_id"; "customer_id"; "order_date"; "status"; "total_amount"];
       ["1"; "1"; "2026-01-01 10:00:00"; "Delivered"; "199.0"];
       ["2"; "9"; "2026-01-02 11:00:00"; "Pending"; "0.0"]]);
     ("data/order_items.csv",
      [["order_item_id"; "order_id"; "product_id"; "quantity"; "unit_price";
        "discount"; "total"];
       ["1"; "1"; "1"; "2"; "99.5"; "0.0"; "199.0"]]);
     ("data/payments.csv",
      [["payment_id"; "order_id"; "payment_date"; "payment_method";
        "payment_amount"; "status"; "transaction_id"];
       ["1"; "1"; "2026-01-01 10:05:00"; "Credit Card"; "199.0"; "Completed";
        "0A1B2C3D-4E5F-67"]])].

(** A working directory with the given CSV files and no database yet. *)
Definition disk (files : gmap string Loader.csvtext) : @Loader.World database :=
  Loader.mkWorld files None None [] true true.

Definition sample_disk : @Loader.World database := disk sample_files.

(** The same directory without [customers.csv]. *)
Definition disk_without_customers : @Loader.World database :=
  disk (delete "data/customers.csv" sample_files).

(** [main] of the loader stopped after the customers and the products. *)
Definition before_orders : @Loader.World database :=
  ((Loader.create_connection ;;;
    Loader.create_tables ;;;
    Loader.load_csv_to_table "customers" "customers.csv" ;;;
    Loader.load_csv_to_table "products" "products.csv") sample_disk).2.

Definition before_orders_conn : @Loader.Conn database :=
  default (Loader.mkConn empty_db false false) (Loader.conn before_orders).

(** The directory after a first complete load. *)
Definition loaded_once : @Loader.World database := (Loader.main sample_disk).2.

(** The pipeline with generation and query skipped. *)
Definition load_only : Pipeline.Args := Pipeline.mkArgs true false true.

Definition exit_code (args : Pipeline.Args) (w : @Loader.World database) : Z :=
  (Pipeline.main (QueryResult := unit) (ret true) (ret None) (fun _ => ret true)
     args w).1.

End Ref.

(** ** Reasoning about computations *)

(** [wp m s Q]: from [s], [m] returns (raises nothing) and [Q] holds of the
    result and the final state. *)
Definition wp {S A} (m : M S A) (s : S) (Q : A -> S -> Prop) : Prop :=
  match m s with
  | (Ok a, s') => Q a s'
  | (Raise _, _) => False
  end.

(** [wp2 m1 m2 s1 s2 Q]: from [s1] and [s2], [m1] and [m2] both return, with
    [Q] of the two results and final states, or both raise. *)
Definition wp2 {S A} (m1 m2 : M S A) (s1 s2 : S)
    (Q : A -> S -> A -> S -> Prop) : Prop :=
  match m1 s1, m2 s2 with
  | (Ok a1, s1'), (Ok a2, s2') => Q a1 s1' a2 s2'
  | (Raise _, _), (Raise _, _) => True
  | _, _ => False
  end.

(** ** Vocabulary of the properties *)

Section Vocabulary.
Context {F : Type} `{!PyFloat F}.

(** The order items that reference order [k], in generation order. *)
Definition items_of (k : Z) (items : list (OrderItem.t F)) : list (OrderItem.t F) :=
  filter (fun it => OrderItem.order_id it = k) items.

(** [sum(item['total'] for item in order_items if item['order_id'] == k)],
    a [float] sum taken left to right from zero. *)
Definition sum_totals (k : Z) (items : list (OrderItem.t F)) : F :=
  foldl fadd fzero (OrderItem.total <$> items_of k items).

(** The date rules of one order. *)
Definition dates_ok (o : Order.t F) : Prop :=
  (is_Some (Order.shipped_date o) <->
     Order.status o = "Shipped" \/ Order.status o = "Delivered") /\
  (is_Some (Order.delivery_date o) <-> Order.status o = "Delivered") /\
  (forall s, Order.shipped_date o = Some s -> Order.order_date o <= s) /\
  (forall s d, Order.shipped_date o = Some s -> Order.delivery_date o = Some d ->
     s <= d).

(** A payment made for an order: same order id, the order's total as its
    amount, and a fee of [u] times that amount rounded to cents, for some
    rate [u] between 2% and 3%. *)
Definition pays (o : Order.t F) (p : Payment.t F) : Prop :=
  Payment.order_id p = Order.order_id o /\
  Payment.payment_amount p = Order.total_amount o /\
  exists u : F,
    fle (flit 2 2) u = true /\ fle u (flit 3 2) = true /\
    Payment.transaction_fee p = round_nd (fmul (Order.total_amount o) u) 2.

(** What the second loop of [generate_order_items] does to one order. *)
Definition with_total (items : list (OrderItem.t F)) (o : Order.t F) : Order.t F :=
  Order.set_total_amount (round_nd (sum_totals (Order.order_id o) items) 2) o.

(** Where the foreign keys of an order item point. *)
Definition item_refs (os : list (Order.t F)) (ps : list (Product.t F))
    (it : OrderItem.t F) : Prop :=
  OrderItem.order_id it ∈ Order.order_id <$> os /\
  OrderItem.product_id it ∈ Product.product_id <$> ps.

(** What every run of the generator establishes. *)
Record generated (d : Gen.Dataset) : Prop := mkGenerated {
  gen_customer_ids :
    exists n, 100 <= n <= 300 /\ Customer.customer_id <$> Gen.customers d = range 1 (n + 1);
  gen_product_ids :
    exists n, 100 <= n <= 300 /\ Product.product_id <$> Gen.products d = range 1 (n + 1);
  gen_order_ids :
    exists n, 100 <= n <= 300 /\ Order.order_id <$> Gen.orders d = range 1 (n + 1);
  gen_order_customers :
    Forall (fun o => Order.customer_id o ∈ Customer.customer_id <$> Gen.customers d)
      (Gen.orders d);
  gen_order_dates : Forall dates_ok (Gen.orders d);
  gen_order_totals :
    Forall (fun o => Order.total_amount o =
                     round_nd (sum_totals (Order.order_id o) (Gen.order_items d)) 2)
      (Gen.orders d);
  gen_item_refs :
    Forall (item_refs (Gen.orders d) (Gen.products d)) (Gen.order_items d);
  gen_payments : Forall2 pays (Gen.orders d) (Gen.payments d);
}.

End Vocabulary.

Section LoaderVocabulary.
Context {DB : Type} `{!SqlEngine DB}.

Local Abbreviation World := (@Loader.World DB).

(** The bindings of the successive [INSERT]s of one file: one list of
    values per data line. *)
Definition batch (columns : list string) (lines : Loader.csvtext) : list (list pyval) :=
  (fun row => Loader.normalize <$> (Loader.row_dict columns row).*2)
    <$> Loader.data_lines lines.

(** The contents after the inserts of a batch, or [None] as soon as one of
    them raises. *)
Fixpoint insert_all (fk_on : bool) (table : string) (columns : list string)
    (values : list (list pyval)) (db : DB) : option DB :=
  match values with
  | [] => Some db
  | v :: rest =>
      match execute_insert fk_on table columns v db with
      | Some db' => insert_all fk_on table columns rest db'
      | None => None
      end
  end.

(** Between two table loads: the connection [c] is open, no transaction is
    pending, and the file holds what the connection sees. *)
Definition idle (w : World) (c : Loader.Conn) : Prop :=
  Loader.conn w = Some c /\ Loader.in_txn c = false /\
  Loader.db_file w = Some (Loader.work c).

(** The console line that closes the load of [table] from [file]. *)
Definition reports (table file : string) (e : Loader.event) : Prop :=
  e = Loader.CsvFileNotFound (Gen.path_join Loader.DATA_DIR file) \/
  (exists n, e = Loader.LoadedRows n table) \/
  e = Loader.ErrorLoading table \/
  e = Loader.UnexpectedErrorLoading table.

(** Some line of the console closes the load of [table]. *)
Definition attempted (l : list Loader.event) (table : string) : Prop :=
  exists file e, (table, file) ∈ Loader.CSV_FILES /\ e ∈ l /\ reports table file e.

(** Whether every table of the schema can be counted in the file. *)
Definition countable (w : World) : bool :=
  match Loader.db_file w with
  | Some db => forallb (fun t => bool_decide (is_Some (count_rows t db))) Pipeline.tables
  | None => false
  end.

End LoaderVocabulary.

(** ** Further vocabulary: what the generator puts into each record *)

Section RecordRules.
Context {F : Type} `{!PyFloat F}.

(** The file [csv.DictWriter] writes for a list of records. *)
Definition csv_of {A} (keys : list string) (values : A -> list (cell F))
    (rows : list A) : csv F :=
  (CStr <$> keys) :: (values <$> rows).

Definition customer_ok (c : Customer.t) : Prop :=
  Customer.country c = "USA" /\
  Customer.customer_segment c ∈ ["Regular"; "Premium"; "VIP"; "New"].

(** A product: its category is a key of the price table, its stock lies in
    0..500 and its rating is a draw between 3.0 and 5.0 rounded to one
    decimal. *)
Definition product_ok (p : Product.t F) : Prop :=
  Product.category p ∈ Gen.categories.*1 /\
  0 <= Product.stock_quantity p <= 500 /\
  exists u : F,
    fle (flit 30 1) u = true /\ fle u (flit 50 1) = true /\
    Product.rating p = round_nd u 1.

(** An order item: a quantity in 1..10; the price of its product times a
    draw between 0.95 and 1.05, rounded to cents; a discount that is either
    [0.0] or the rounded subtotal times a draw between 0.05 and 0.20,
    rounded to cents; and the rounded difference as total. *)
Definition item_priced (ps : list (Product.t F)) (it : OrderItem.t F) : Prop :=
  1 <= OrderItem.quantity it <= 10 /\
  (exists (p : Product.t F) (v : F),
     p ∈ ps /\ OrderItem.product_id it = Product.product_id p /\
     fle (flit 95 2) v = true /\ fle v (flit 105 2) = true /\
     OrderItem.unit_price it = round_nd (fmul (Product.price p) v) 2) /\
  let subtotal :=
    round_nd (fmul (OrderItem.unit_price it) (of_int (OrderItem.quantity it))) 2 in
  (OrderItem.discount it = fzero \/
   exists u : F,
     fle (flit 5 2) u = true /\ fle u (flit 20 2) = true /\
     OrderItem.discount it = round_nd (fmul subtotal u) 2) /\
  OrderItem.total it = round_nd (fsub subtotal (OrderItem.discount it)) 2.

(** A payment against its order: dated 0 to 30 whole minutes after the
    order, with a method and a status of the two fixed lists. *)
Definition payment_ok (o : Order.t F) (p : Payment.t F) : Prop :=
  (exists m : Z, 0 <= m <= 30 /\
     Payment.payment_date p = Order.order_date o + 60 * m) /\
  Payment.payment_method p ∈ Gen.payment_methods /\
  Payment.status p ∈ Gen.payment_statuses.

(** The five files of a run, written over the files [fs] that were there:
    each holds its header and one row per record, [orders.csv] the orders
    with their final totals. *)
Definition files_of (d : Gen.Dataset) (fs : gmap string (csv F))
  : gmap string (csv F) :=
  <[Gen.path_join Gen.DATA_DIR "payments.csv" :=
      csv_of payment_keys payment_values (Gen.payments d)]>
    (<[Gen.path_join Gen.DATA_DIR "orders.csv" :=
         csv_of order_keys order_values (Gen.orders d)]>
       (<[Gen.path_join Gen.DATA_DIR "order_items.csv" :=
            csv_of order_item_keys order_item_values (Gen.order_items d)]>
          (<[Gen.path_join Gen.DATA_DIR "products.csv" :=
               csv_of product_keys product_values (Gen.products d)]>
             (<[Gen.path_join Gen.DATA_DIR "customers.csv" :=
                  csv_of customer_keys customer_values (Gen.customers d)]> fs)))).

(** What every run of the generator establishes beyond [generated], from
    the files [fs] to the files [fs']. *)
Record generated_more (d : Gen.Dataset) (fs fs' : gmap string (csv F)) : Prop :=
  mkGeneratedMore {
  more_customers : Forall customer_ok (Gen.customers d);
  more_products : Forall product_ok (Gen.products d);
  more_statuses :
    Forall (fun o => Order.status o ∈ Gen.order_statuses) (Gen.orders d);
  more_item_ids :
    exists n, 150 <= n <= 300 /\
      OrderItem.order_item_id <$> Gen.order_items d = range 1 (n + 1);
  more_items : Forall (item_priced (Gen.products d)) (Gen.order_items d);
  more_payment_ids :
    Payment.payment_id <$> Gen.payments d
      = range 1 (Z.of_nat (length (Gen.orders d)) + 1);
  more_payments : Forall2 payment_ok (Gen.orders d) (Gen.payments d);
  more_files : fs' = files_of d fs;
}.

End RecordRules.

(** ** Vocabulary of determinism: what of a run does not come from the clock *)

Section ClockFree.
Context {F : Type}.

(** A value drawn from Faker, kept or blanked. *)
Definition keep (b : bool) (s : string) : string := if b then s else "".

(** A date as its distance from the date [t0]. *)
Definition since (t0 : datestr) (d : option datestr) : option datestr :=
  (fun s => s - t0) <$> d.

(** A record without what the clock put into it: dates drawn against the
    clock are zeroed and dates computed from one are kept as their distance
    from it.  With [b] false the values drawn from Faker are blanked too, so
    that what is left was drawn from [random] alone. *)
Definition customer_view (b : bool) (c : Customer.t) : Customer.t :=
  Customer.mk (Customer.customer_id c)
    (keep b (Customer.first_name c)) (keep b (Customer.last_name c))
    (keep b (Customer.email c)) (keep b (Customer.phone c))
    (keep b (Customer.address c)) (keep b (Customer.city c))
    (keep b (Customer.state c)) (keep b (Customer.zip_code c))
    (Customer.country c) 0 (Customer.customer_segment c).

Definition product_view (b : bool) (p : Product.t F) : Product.t F :=
  Product.mk (Product.product_id p) (keep b (Product.product_name p))
    (Product.category p) (Product.price p) (Product.cost p)
    (Product.stock_quantity p) (keep b (Product.supplier p)) 0
    (Product.rating p).

Definition order_view (b : bool) (o : Order.t F) : Order.t F :=
  Order.mk (Order.order_id o) (Order.customer_id o) 0 (Order.status o)
    (keep b (Order.shipping_address o))
    (since (Order.order_date o) (Order.shipped_date o))
    (since (Order.order_date o) (Order.delivery_date o))
    (Order.total_amount o).

Definition orders_view (b : bool) (os : list (Order.t F)) : list (Order.t F) :=
  order_view b <$> os.

(** The payment of the order [o]. *)
Definition payment_view (b : bool) (o : Order.t F) (p : Payment.t F)
  : Payment.t F :=
  Payment.mk (Payment.payment_id p) (Payment.order_id p)
    (Payment.payment_date p - Order.order_date o) (Payment.payment_method p)
    (Payment.payment_amount p) (Payment.transaction_fee p) (Payment.status p)
    (keep b (Payment.transaction_id p)).

Definition clock_free (b : bool) (d : @Gen.Dataset F) : @Gen.Dataset F :=
  Gen.mkDataset
    (customer_view b <$> Gen.customers d)
    (product_view b <$> Gen.products d)
    (orders_view b (Gen.orders d))
    (Gen.order_items d)
    (zip_with (payment_view b) (Gen.orders d) (Gen.payments d)).

(** A written file with the date cells blanked. *)
Definition undate_cell (c : cell F) : cell F :=
  match c with
  | CDate _ => CDate 0
  | _ => c
  end.

Definition undated (f : csv F) : csv F :=
  (fun row : list (cell F) => undate_cell <$> row) <$> (f : list (list (cell F))).

End ClockFree.

Section Alike.
Context {F R : Type} `{!PyFloat F} `{!PyRandom R F} `{!Faker R}.

(** The state in which a date draw leaves the provider's generator does not
    depend on the clock reading its bounds were resolved against. *)
Definition date_draw_steady : Prop :=
  forall (start_date end_date : string) (t t' : Z) (r : R),
    (fake_date_time_between start_date end_date t r).2
    = (fake_date_time_between start_date end_date t' r).2.

(** Two interpreters at the same point of two runs: the same state of
    [random], the same clock-free view of the order lists and, with [b], the
    same state of Faker's generator.  Clocks and files are free. *)
Definition alike (b : bool) (w1 w2 : @Gen.World F R) : Prop :=
  Gen.py_rng w1 = Gen.py_rng w2 /\
  (b = true -> Gen.fk_rng w1 = Gen.fk_rng w2) /\
  orders_view b <$> Gen.heap w1 = orders_view b <$> Gen.heap w2.

End Alike.

(** ** [main.py]: step 1 *)

Module Step1.

Definition DATA_DIR : string := "data".

Definition csv_files : list string :=
  ["customers.csv"; "products.csv"; "orders.csv"; "order_items.csv";
   "payments.csv"].

Section Step1Defs.
Context {F R : Type} `{!PyFloat F} `{!PyRandom R F} `{!Faker R}.

Local Abbreviation World := (@Gen.World F R).

(** [try: m except Exception: h] *)
Definition try_except {A} (m : M World A) (h : exn -> M World A) : M World A :=
  fun w => match m w with
           | (Raise e, w') => h e w'
           | r => r
           end.

(** The loop over [csv_files]: [False] at the first file that is not
    there, [True] after the last. *)
Fixpoint check_files (names : list string) : M World bool :=
  match names with
  | [] => ret true
  | csv_file :: rest =>
      w <- get ;;
      if bool_decide (is_Some (Gen.files w !! Gen.path_join DATA_DIR csv_file))
      then check_files rest
      else ret false
  end.

(** The generator is imported and run in the interpreter of the
    pipeline. *)
Definition step_1_generate_data : M World bool :=
  try_except (Gen.run ;;; check_files csv_files) (fun _ => ret false).

End Step1Defs.
End Step1.

(** ** Further vocabulary: the loader's console *)

(** The number of rows a closing line of the console announces. *)
Definition rows_reported (e : Loader.event) : Z :=
  match e with
  | Loader.LoadedRows n _ => n
  | _ => 0
  end.

(** ** Further concrete inputs *)

Module RefMore.
Import Ref.

(** An interpreter in which an empty order list has been allocated. *)
Definition world_without_orders : @Gen.World fixed Z :=
  Gen.with_heap {[0%nat := []]} sample_world.

(** An interpreter holding one order, before any item exists. *)
Definition lone_order : Order.t fixed :=
  Order.mk 1 1 1767225600 "Pending" "1 Main Street" None None 0.

Definition world_with_one_order : @Gen.World fixed Z :=
  Gen.with_heap {[0%nat := [lone_order]]} sample_world.

(** The sample directory once loaded, its database file write-protected. *)
Definition locked_disk : @Loader.World database :=
  Loader.mkWorld sample_files (Loader.db_file loaded_once) None [] false true.

(** The sample directory once loaded, in a place where no database can be
    opened any more. *)
Definition unopenable_disk : @Loader.World database :=
  Loader.mkWorld sample_files (Loader.db_file loaded_once) None [] true false.

(** [before_orders] with an [orders.csv] of zero bytes. *)
Definition before_empty_orders : @Loader.World database :=
  Loader.mkWorld (<["data/orders.csv" := []]> sample_files)
    (Loader.db_file before_orders) (Loader.conn before_orders)
    (Loader.log before_orders) true true.

(** Steps of the pipeline that fail, succeed, or return a result. *)
Definition failing_step : M (@Loader.World database) bool :=
  Loader.print Loader.ErrorDuringEtl ;;; ret false.
Definition passing_step : M (@Loader.World database) bool := ret true.
Definition query_step : M (@Loader.World database) (option unit) := ret (Some tt).
Definition export_step (_ : unit) : M (@Loader.World database) bool := ret true.

End RefMore.

(** * Properties *)

Lemma wp_elim {S A} (m : M S A) (s : S) (Q : A -> S -> Prop) :
  wp m s Q -> exists a s', m s = (Ok a, s') /\ Q a s'.
Proof.
  unfold wp. destruct (m s) as [[a|e] s']; [eauto | tauto].
Qed.

Lemma wp_intro {S A} (m : M S A) (s s' : S) (a : A) (Q : A -> S -> Prop) :
  m s = (Ok a, s') -> Q a s' -> wp m s Q.
Proof. unfold wp. intros ->. auto. Qed.

Lemma wp_ret {S A} (a : A) (s : S) (Q : A -> S -> Prop) :
  Q a s -> wp (ret a) s Q.
Proof. auto. Qed.

Lemma wp_bind {S A B} (m : M S A) (k : A -> M S B) (s : S) (Q : B -> S -> Prop) :
  wp m s (fun a s' => wp (k a) s' Q) -> wp (bind m k) s Q.
Proof.
  unfold wp, bind. destruct (m s) as [[a|e] s']; auto.
Qed.

Lemma wp_mono {S A} (m : M S A) (s : S) (Q Q' : A -> S -> Prop) :
  wp m s Q -> (forall a s', Q a s' -> Q' a s') -> wp m s Q'.
Proof.
  unfold wp. destruct (m s) as [[a|e] s']; auto.
Qed.

Lemma wp_modify {S} (f : S -> S) (s : S) (Q : unit -> S -> Prop) :
  Q tt (f s) -> wp (modify f) s Q.
Proof. auto. Qed.

Lemma wp_get {S} (s : S) (Q : S -> S -> Prop) : Q s s -> wp get s Q.
Proof. auto. Qed.

Lemma wp_for_each_from {S A B} (Inv : list A -> B -> S -> Prop)
    (body : A -> B -> M S B) (xs todo : list A) :
  (forall pre x post acc s, xs = pre ++ x :: post -> Inv pre acc s ->
     wp (body x acc) s (Inv (pre ++ [x]))) ->
  forall done acc s, xs = done ++ todo -> Inv done acc s ->
    wp (for_each todo acc body) s (Inv xs).
Proof.
  intros Hbody. induction todo as [|x todo IH]; intros done acc s Hxs Hinv.
  - rewrite app_nil_r in Hxs. subst. apply wp_ret. exact Hinv.
  - simpl. apply wp_bind.
    eapply wp_mono; [eapply Hbody; eauto|].
    intros acc' s' Hinv'. apply (IH (done ++ [x])); [|exact Hinv'].
    rewrite <- app_assoc. exact Hxs.
Qed.

Lemma wp_for_each {S A B} (Inv : list A -> B -> S -> Prop)
    (body : A -> B -> M S B) (xs : list A) (acc0 : B) (s : S)
    (Q : B -> S -> Prop) :
  Inv [] acc0 s ->
  (forall pre x post acc s, xs = pre ++ x :: post -> Inv pre acc s ->
     wp (body x acc) s (Inv (pre ++ [x]))) ->
  (forall acc s', Inv xs acc s' -> Q acc s') ->
  wp (for_each xs acc0 body) s Q.
Proof.
  intros H0 Hbody HQ. eapply wp_mono; [|exact HQ].
  eapply (wp_for_each_from Inv body xs xs Hbody []); auto.
Qed.

Section GenRules.
Context {F R : Type} `{!PyFloat F} `{!PyRandom R F} `{!Faker R}.
Context `{!PyFloatLaws F} `{!PyRandomLaws R F}.

Local Abbreviation World := (@Gen.World F R).

Lemma wp_py {A} (f : R -> A * R) (w : World) (Q : A -> World -> Prop) :
  Q (f (Gen.py_rng w)).1 (Gen.with_py (f (Gen.py_rng w)).2 w) -> wp (Gen.py f) w Q.
Proof. auto. Qed.

Lemma wp_fk {A} (f : R -> A * R) (w : World) (Q : A -> World -> Prop) :
  Q (f (Gen.fk_rng w)).1 (Gen.with_fk (f (Gen.fk_rng w)).2 w) -> wp (Gen.fk f) w Q.
Proof. auto. Qed.

Lemma wp_random_choice {A} (seq : list A) (w : World) (Q : A -> World -> Prop) :
  seq <> [] ->
  (forall x r, x ∈ seq -> Q x (Gen.with_py r w)) ->
  wp (Gen.random_choice seq) w Q.
Proof.
  intros Hne HQ. unfold Gen.random_choice.
  destruct seq as [|y seq']; [done|].
  apply wp_bind, wp_py.
  set (n := length (y :: seq')).
  pose proof (randbelow_lt n (Gen.py_rng w)) as Hlt.
  destruct (lookup_lt_is_Some_2 (y :: seq') (randbelow n (Gen.py_rng w)).1) as [x Hx].
  { apply Hlt. subst n. simpl. lia. }
  rewrite Hx. apply wp_ret. apply HQ. eapply list_elem_of_lookup_2; eauto.
Qed.
End GenRules.

Section GenFunctions.
Context {F R : Type} `{!PyFloat F} `{!PyRandom R F} `{!Faker R}.
Context `{!PyFloatLaws F} `{!PyRandomLaws R F}.

Local Abbreviation World := (@Gen.World F R).

Lemma wp_date_time_between (a b : string) (w : World) (Q : datetime -> World -> Prop) :
  (forall d r n, Q d (Gen.with_fk r (Gen.with_ticks n w))) ->
  wp (Gen.date_time_between a b) w Q.
Proof.
  intros HQ. unfold Gen.date_time_between. apply wp_bind. unfold wp. simpl.
  apply HQ.
Qed.

Lemma wp_write_csv {A} (filename : string) (keys : list string)
    (values : A -> list (cell F)) (rows : list A) (w : World)
    (Q : unit -> World -> Prop) :
  rows <> [] ->
  (forall fs, Q tt (Gen.with_files fs w)) ->
  wp (Gen.write_csv filename keys values rows) w Q.
Proof.
  intros Hne HQ. unfold Gen.write_csv. apply wp_bind, wp_modify.
  destruct rows; [done|]. apply wp_modify. apply HQ.
Qed.

Lemma wp_random_choices0 {A} (population : list A) (weights : list F)
    (w : World) (Q : A -> World -> Prop) :
  weights <> [] -> length population = length weights ->
  (forall x r, x ∈ population -> Q x (Gen.with_py r w)) ->
  wp (Gen.random_choices0 population weights) w Q.
Proof.
  intros Hne Hlen HQ. unfold Gen.random_choices0. apply wp_bind, wp_py.
  pose proof (choices_index_lt weights (Gen.py_rng w)) as Hlt.
  destruct (lookup_lt_is_Some_2 population (choices_index weights (Gen.py_rng w)).1)
    as [x Hx].
  { rewrite Hlen. apply Hlt. destruct weights; [done|simpl; lia]. }
  rewrite Hx. apply wp_ret, HQ. eapply list_elem_of_lookup_2; eauto.
Qed.

Lemma range_nonempty (a b : Z) : a < b -> range a b <> [].
Proof.
  intros Hlt Hnil. apply (f_equal length) in Hnil.
  unfold range in Hnil. rewrite length_seqZ in Hnil. simpl in Hnil. lia.
Qed.

Lemma range_NoDup (a b : Z) : NoDup (range a b).
Proof. apply NoDup_seqZ. Qed.

Lemma fmap_eq_nonempty {A B} (f : A -> B) (l : list A) (k : list B) :
  f <$> l = k -> k <> [] -> l <> [].
Proof. intros <- Hk ->. done. Qed.

Lemma wp_py_any {A} (f : R -> A * R) (w : World) (Q : A -> World -> Prop) :
  (forall a r, Q a (Gen.with_py r w)) -> wp (Gen.py f) w Q.
Proof. intros HQ. apply wp_py, HQ. Qed.

Lemma wp_fk_any {A} (f : R -> A * R) (w : World) (Q : A -> World -> Prop) :
  (forall a r, Q a (Gen.with_fk r w)) -> wp (Gen.fk f) w Q.
Proof. intros HQ. apply wp_fk, HQ. Qed.

Lemma wp_randint (a b : Z) (w : World) (Q : Z -> World -> Prop) :
  a <= b ->
  (forall x r, a <= x <= b -> Q x (Gen.with_py r w)) ->
  wp (Gen.py (randint a b)) w Q.
Proof. intros Hab HQ. apply wp_py, HQ, randint_range, Hab. Qed.

Lemma wp_uniform (a b : F) (w : World) (Q : F -> World -> Prop) :
  fle a b = true ->
  (forall x r, fle a x = true -> fle x b = true -> Q x (Gen.with_py r w)) ->
  wp (Gen.py (uniform a b)) w Q.
Proof.
  intros Hab HQ. apply wp_py.
  destruct (uniform_range a b (Gen.py_rng w) Hab). apply HQ; assumption.
Qed.

(** One step through a draw whose value is of no concern. *)
Ltac wp_draw :=
  lazymatch goal with
  | |- wp (bind _ _) _ _ => apply wp_bind
  | |- wp (Gen.fk _) _ _ => apply wp_fk_any; intros ? ?; cbv beta
  | |- wp (Gen.py _) _ _ => apply wp_py_any; intros ? ?; cbv beta
  | |- wp (Gen.date_time_between _ _) _ _ =>
      apply wp_date_time_between; intros ? ? ?; cbv beta
  end.

Lemma generate_customers_spec (cfg : Gen.Config) (w : World)
    (Q : list Customer.t -> World -> Prop) :
  1 <= Gen.NUM_CUSTOMERS cfg ->
  (forall cs w',
     Customer.customer_id <$> cs = range 1 (Gen.NUM_CUSTOMERS cfg + 1) ->
     Gen.heap w' = Gen.heap w ->
     Q cs w') ->
  wp (Gen.generate_customers cfg) w Q.
Proof.
  intros Hn HQ. unfold Gen.generate_customers. apply wp_bind.
  apply (wp_for_each
           (fun pre acc s => Customer.customer_id <$> acc = pre
                             /\ Gen.heap s = Gen.heap w)).
  - done.
  - intros pre x post acc s _ [Hids Hheap].
    repeat wp_draw.
    apply wp_random_choice; [done|]. intros seg rc _. apply wp_ret.
    split; [|exact Hheap].
    rewrite fmap_app, Hids. reflexivity.
  - intros cs s [Hids Hheap]. apply wp_bind.
    apply wp_write_csv.
    + eapply fmap_eq_nonempty; [exact Hids|]. apply range_nonempty. lia.
    + intros fs. apply wp_ret. apply HQ; [exact Hids | exact Hheap].
Qed.


Lemma category_tables (category : string) :
  category ∈ (@Gen.categories).*1 ->
  exists (bounds : Z * Z) (prefixes : list string) (h : string),
    (forall w : World, Gen.dict_get Gen.categories category w = (Ok bounds, w)) /\
    (forall w : World, Gen.dict_get Gen.product_prefixes category w = (Ok prefixes, w)) /\
    prefixes <> [] /\
    first_word category = Some h.
Proof.
  intros Hin. simpl in Hin.
  repeat (apply elem_of_cons in Hin as [->|Hin]);
    [..|by apply elem_of_nil in Hin];
    eexists _, _, _; (split; [|split; [|split]]);
    try (intros w; vm_compute; reflexivity);
    try (vm_compute; reflexivity); discriminate.
Qed.

Lemma generate_products_spec (cfg : Gen.Config) (w : World)
    (Q : list (Product.t F) -> World -> Prop) :
  1 <= Gen.NUM_PRODUCTS cfg ->
  (forall ps w',
     Product.product_id <$> ps = range 1 (Gen.NUM_PRODUCTS cfg + 1) ->
     Gen.heap w' = Gen.heap w ->
     Q ps w') ->
  wp (Gen.generate_products cfg) w Q.
Proof.
  intros Hn HQ. unfold Gen.generate_products. apply wp_bind.
  apply (wp_for_each
           (fun pre acc s => Product.product_id <$> acc = pre
                             /\ Gen.heap s = Gen.heap w)).
  - done.
  - intros pre x post acc s _ [Hids Hheap].
    apply wp_bind, wp_random_choice; [done|]. intros category rc Hcat.
    destruct (category_tables category Hcat)
      as (bounds & prefixes & h & Hb & Hp & Hne & Hh).
    apply wp_bind. unfold wp at 1. rewrite Hb.
    apply wp_bind. unfold wp at 1. rewrite Hp.
    apply wp_bind, wp_random_choice; [exact Hne|]. intros prefix rp _.
    apply wp_bind, wp_fk_any. intros word rw. cbv beta.
    rewrite Hh. apply wp_bind, wp_ret.
    repeat wp_draw. apply wp_ret.
    split; [|exact Hheap].
    rewrite fmap_app, Hids. reflexivity.
  - intros ps s [Hids Hheap]. apply wp_bind.
    apply wp_write_csv.
    + eapply fmap_eq_nonempty; [exact Hids|]. apply range_nonempty. lia.
    + intros fs. apply wp_ret. apply HQ; [exact Hids | exact Hheap].
Qed.

Lemma strftime_later (d delta : Z) :
  0 <= delta -> strftime d <= strftime (d + delta).
Proof.
  intros Hd. unfold strftime. apply Z.div_le_mono; lia.
Qed.

Lemma new_order_dates_ok (order_id customer_id : Z) (order_date : datetime)
    (d1 d2 : Z) (status address : string) (total : F) :
  1 <= d1 <= 7 -> 2 <= d2 <= 10 ->
  dates_ok
    (Order.mk order_id customer_id (strftime order_date) status address
       (if bool_decide (status ∈ ["Shipped"; "Delivered"])
        then Some (strftime (order_date + timedelta_days d1)) else None)
       (if bool_decide (status = "Delivered")
        then Some (strftime (order_date + timedelta_days d1 + timedelta_days d2))
        else None)
       total).
Proof.
  intros H1 H2. unfold dates_ok. simpl.
  repeat split.
  - case_bool_decide as Hs; intros Hsome.
    + apply elem_of_cons in Hs as [->|Hs]; [by left|].
      apply list_elem_of_singleton in Hs. by right.
    + by destruct Hsome.
  - intros [->| ->]; (rewrite bool_decide_eq_true_2; [eauto|]); repeat constructor.
  - case_bool_decide; [done|]. intros Hsome. by destruct Hsome.
  - intros ->. rewrite bool_decide_eq_true_2; eauto.
  - intros s. case_bool_decide; [|done]. intros [= <-].
    apply strftime_later. unfold timedelta_days. lia.
  - intros s d. case_bool_decide; [|done]. intros [= <-].
    case_bool_decide; [|done]. intros [= <-].
    apply strftime_later. unfold timedelta_days. lia.
Qed.

Lemma wp_alloc (os : list (Order.t F)) (w : World) (Q : nat -> World -> Prop) :
  (forall l, Q l (Gen.with_heap (<[l := os]> (Gen.heap w)) w)) ->
  wp (Gen.alloc os) w Q.
Proof. intros HQ. unfold wp, Gen.alloc. apply HQ. Qed.

Lemma wp_deref (l : nat) (os : list (Order.t F)) (w : World)
    (Q : list (Order.t F) -> World -> Prop) :
  Gen.heap w !! l = Some os -> Q os w -> wp (Gen.deref l) w Q.
Proof. intros Hl HQ. unfold wp, Gen.deref. rewrite Hl. exact HQ. Qed.

Lemma generate_orders_spec (cfg : Gen.Config) (cs : list Customer.t) (w : World)
    (Q : nat -> World -> Prop) :
  1 <= Gen.NUM_ORDERS cfg -> cs <> [] ->
  (forall l os w',
     Gen.heap w' !! l = Some os ->
     Order.order_id <$> os = range 1 (Gen.NUM_ORDERS cfg + 1) ->
     Forall (fun o => Order.customer_id o ∈ Customer.customer_id <$> cs) os ->
     Forall dates_ok os ->
     Q l w') ->
  wp (Gen.generate_orders cfg cs) w Q.
Proof.
  intros Hn Hcs HQ. unfold Gen.generate_orders. apply wp_bind.
  apply (wp_for_each
           (fun pre acc (s : World) =>
              Order.order_id <$> acc = pre
              /\ Forall (fun o => Order.customer_id o ∈ Customer.customer_id <$> cs) acc
              /\ Forall dates_ok acc)).
  - repeat split; constructor.
  - intros pre x post acc s _ (Hids & Hcust & Hdates).
    apply wp_bind, wp_random_choice; [exact Hcs|]. intros customer rc Hc.
    apply wp_bind, wp_date_time_between. intros order_date rd n. cbv beta.
    apply wp_bind, wp_randint; [lia|]. intros d1 r1 Hd1. cbv beta.
    apply wp_bind, wp_randint; [lia|]. intros d2 r2 Hd2. cbv beta.
    apply wp_bind, wp_random_choices0; [done|done|]. intros status rs _.
    repeat wp_draw. apply wp_ret.
    split; [|split].
    + rewrite fmap_app, Hids. reflexivity.
    + apply Forall_app. split; [exact Hcust|]. constructor; [|constructor].
      simpl. apply list_elem_of_fmap. eauto.
    + apply Forall_app. split; [exact Hdates|]. constructor; [|constructor].
      apply new_order_dates_ok; assumption.
  - intros os s (Hids & Hcust & Hdates). apply wp_bind.
    apply wp_write_csv.
    + eapply fmap_eq_nonempty; [exact Hids|]. apply range_nonempty. lia.
    + intros fs. apply wp_alloc. intros l.
      apply (HQ l os); try assumption.
      simpl. apply lookup_insert_eq.
Qed.


Lemma zero_totals_from (os : list (Order.t F)) (m : gmap Z F) (k : Z) :
  foldl (fun m o => <[Order.order_id o := fzero]> m) m os !! k =
  if decide (k ∈ Order.order_id <$> os) then Some fzero else m !! k.
Proof.
  revert m. induction os as [|o os IH]; intros m.
  - rewrite decide_False; [done|]. apply not_elem_of_nil.
  - rewrite fmap_cons.
    change (foldl (fun m o => <[Order.order_id o := fzero]> m) m (o :: os))
      with (foldl (fun m o => <[Order.order_id o := fzero]> m)
              (<[Order.order_id o := fzero]> m) os).
    rewrite IH. destruct (decide (k ∈ Order.order_id <$> os)) as [Hin|Hout].
    + rewrite decide_True; [done|]. by right.
    + destruct (decide (k = Order.order_id o)) as [->|Hne].
      * rewrite decide_True; [|by left]. apply lookup_insert_eq.
      * rewrite decide_False.
        -- by apply lookup_insert_ne.
        -- intros Hin. apply elem_of_cons in Hin as [?|?]; congruence.
Qed.

Lemma zero_totals_lookup (os : list (Order.t F)) (k : Z) :
  k ∈ Order.order_id <$> os -> Gen.zero_totals os !! k = Some fzero.
Proof.
  intros Hin. unfold Gen.zero_totals. rewrite zero_totals_from.
  by rewrite decide_True.
Qed.

Lemma sum_totals_nil (k : Z) : sum_totals (F:=F) k [] = fzero.
Proof. reflexivity. Qed.

Lemma sum_totals_snoc_same (items : list (OrderItem.t F)) (it : OrderItem.t F) :
  sum_totals (OrderItem.order_id it) (items ++ [it]) =
  fadd (sum_totals (OrderItem.order_id it) items) (OrderItem.total it).
Proof.
  unfold sum_totals, items_of. rewrite filter_app, fmap_app, foldl_app.
  rewrite (filter_cons_True _ it []); [|done]. reflexivity.
Qed.

Lemma sum_totals_snoc_other (k : Z) (items : list (OrderItem.t F))
    (it : OrderItem.t F) :
  OrderItem.order_id it <> k ->
  sum_totals k (items ++ [it]) = sum_totals k items.
Proof.
  intros Hne. unfold sum_totals, items_of. rewrite filter_app.
  rewrite (filter_cons_False _ it []); [|done].
  rewrite filter_nil, app_nil_r. reflexivity.
Qed.

Lemma imap_pair_split {A} (l : list A) (pre post : list (nat * A)) (x : nat * A) :
  imap (fun i o => (i, o)) l = pre ++ x :: post ->
  x.1 = length pre /\ l !! length pre = Some x.2 /\ pre.*2 = take (length pre) l.
Proof.
  intros Heq.
  assert (Hx : imap (fun i o => (i, o)) l !! length pre = Some x).
  { rewrite Heq. apply list_lookup_middle. reflexivity. }
  rewrite list_lookup_imap in Hx.
  destruct (l !! length pre) as [o|] eqn:Hl; [|done].
  simpl in Hx. injection Hx as <-. simpl. split; [done|]. split; [done|].
  assert (Hsnd : (imap (fun i o => (i, o)) l).*2 = l).
  { rewrite fmap_imap. rewrite (imap_ext _ (const id)); [|done].
    rewrite imap_const. apply list_fmap_id. }
  rewrite Heq, fmap_app in Hsnd. rewrite <- Hsnd at 1.
  rewrite take_app_length'; [done|]. by rewrite length_fmap.
Qed.


Lemma wp_update_at (l i : nat) (f : Order.t F -> Order.t F) (w : World)
    (Q : unit -> World -> Prop) :
  Q tt (Gen.with_heap (alter (alter f i) l (Gen.heap w)) w) ->
  wp (Gen.update_at l i f) w Q.
Proof. intros HQ. apply wp_modify, HQ. Qed.

Lemma generate_order_items_spec (cfg : Gen.Config) (l : nat)
    (os : list (Order.t F)) (ps : list (Product.t F)) (w : World)
    (Q : list (OrderItem.t F) -> World -> Prop) :
  1 <= Gen.NUM_ORDER_ITEMS cfg -> os <> [] -> ps <> [] ->
  Gen.heap w !! l = Some os ->
  (forall items w',
     Gen.heap w' !! l = Some (with_total items <$> os) ->
     Forall (item_refs os ps) items ->
     Q items w') ->
  wp (Gen.generate_order_items cfg l ps) w Q.
Proof.
  intros Hn Hos Hps Hl HQ. unfold Gen.generate_order_items.
  apply wp_bind, (wp_deref l os); [exact Hl|].
  apply wp_bind.
  apply (wp_for_each
           (fun pre acc (s : World) =>
              Gen.heap s = Gen.heap w
              /\ length (Gen.acc_items acc) = length pre
              /\ (forall k, k ∈ Order.order_id <$> os ->
                    Gen.acc_totals acc !! k = Some (sum_totals k (Gen.acc_items acc)))
              /\ Forall (item_refs os ps) (Gen.acc_items acc))).
  - simpl. repeat split; [|constructor].
    intros k Hk. by apply zero_totals_lookup.
  - intros pre x post acc s _ (Hheap & Hlen & Htot & Hrefs).
    apply wp_bind, wp_random_choice; [exact Hos|]. intros order ro Ho.
    apply wp_bind, wp_random_choice; [exact Hps|]. intros product rp Hp.
    repeat wp_draw.
    match goal with
    | |- wp (if ?b then _ else _) _ _ => destruct b
    end; repeat wp_draw; apply wp_ret;
      (assert (Hk : Order.order_id order ∈ Order.order_id <$> os)
         by (apply list_elem_of_fmap; eauto);
       rewrite (Htot _ Hk); apply wp_ret; simpl;
       split; [exact Hheap|]; split; [rewrite !length_app, Hlen; reflexivity|];
       split;
       [ intros k Hin;
         destruct (decide (Order.order_id order = k)) as [<-|Hne];
         [ rewrite lookup_insert_eq;
           match goal with
           | |- _ = Some (sum_totals _ (_ ++ [?it])) =>
               rewrite (sum_totals_snoc_same _ it)
           end; reflexivity
         | rewrite lookup_insert_ne by exact Hne;
           rewrite sum_totals_snoc_other by exact Hne; by apply Htot ]
       | apply Forall_app; split; [exact Hrefs|];
         constructor; [|constructor]; split; simpl;
         [exact Hk | apply list_elem_of_fmap; eauto] ]).
  - intros acc s (Hheap & Hlen & Htot & Hrefs).
    assert (Hitems : Gen.acc_items acc <> []).
    { intros Hnil. rewrite Hnil in Hlen. simpl in Hlen.
      symmetry in Hlen. apply nil_length_inv in Hlen.
      revert Hlen. apply range_nonempty. lia. }
    apply wp_bind, wp_write_csv; [exact Hitems|]. intros fs.
    apply wp_bind.
    apply (wp_for_each
             (fun pre (_ : unit) (s' : World) =>
                Gen.heap s' !! l =
                Some ((with_total (Gen.acc_items acc) <$> pre.*2)
                        ++ drop (length pre) os))).
    + simpl. rewrite drop_0, <- Hl. f_equal. exact Hheap.
    + intros pre x post [] s' Hsplit Hinv.
      apply imap_pair_split in Hsplit as (Hi & Hx & Htake).
      assert (Hk : Order.order_id x.2 ∈ Order.order_id <$> os).
      { apply list_elem_of_fmap. eexists; split; [done|].
        eapply list_elem_of_lookup_2; eauto. }
      rewrite (Htot _ Hk). apply wp_update_at. simpl.
      rewrite lookup_alter_eq, Hinv. simpl. f_equal.
      rewrite Hi.
      rewrite <- (Nat.add_0_r (length pre)) at 1.
      rewrite <- (length_fmap snd pre) at 1.
      rewrite <- (length_fmap (with_total (Gen.acc_items acc)) pre.*2) at 1.
      rewrite alter_app_r.
      rewrite (drop_S os x.2 (length pre) Hx). simpl.
      rewrite !fmap_app, <- app_assoc, length_app. simpl.
      rewrite Nat.add_1_r. reflexivity.
    + intros [] s' Hfin.
      assert (Hall : (imap (fun i o => (i, o)) os).*2 = os).
      { rewrite fmap_imap. rewrite (imap_ext _ (const id)); [|done].
        rewrite imap_const. apply list_fmap_id. }
      rewrite Hall, length_imap, drop_all, app_nil_r in Hfin.
      apply wp_bind, (wp_deref l _ _ _ Hfin).
      apply wp_bind, wp_write_csv.
      * intros Hnil. apply fmap_nil_inv in Hnil. done.
      * intros fs'. apply wp_ret. apply HQ; [exact Hfin | exact Hrefs].
Qed.

Lemma generate_payments_spec (l : nat) (os : list (Order.t F)) (w : World)
    (Q : list (Payment.t F) -> World -> Prop) :
  os <> [] ->
  Gen.heap w !! l = Some os ->
  (forall pays_ w',
     Forall2 pays os pays_ ->
     Gen.heap w' = Gen.heap w ->
     Q pays_ w') ->
  wp (Gen.generate_payments l) w Q.
Proof.
  intros Hos Hl HQ. unfold Gen.generate_payments.
  apply wp_bind, (wp_deref l os); [exact Hl|].
  apply wp_bind.
  apply (wp_for_each
           (fun pre acc (s : World) =>
              Gen.heap s = Gen.heap w /\ Forall2 pays pre.*2 acc)).
  - split; [done|constructor].
  - intros pre x post acc s _ (Hheap & Hpays).
    apply wp_bind, wp_randint; [lia|]. intros m rm Hm. cbv beta.
    apply wp_bind, wp_random_choices0; [done|done|]. intros status rs _.
    apply wp_bind, wp_uniform; [apply flit_le; lia|]. intros u ru Hlo Hhi.
    cbv beta.
    apply wp_bind, wp_random_choice; [done|]. intros method rc _.
    repeat wp_draw. apply wp_ret.
    split; [exact Hheap|].
    rewrite fmap_app. apply Forall2_app; [exact Hpays|].
    constructor; [|constructor].
    unfold pays. simpl. split; [done|]. split; [done|]. eauto.
  - intros pays_ s (Hheap & Hpays).
    assert (Hall : (enumerate 1 os).*2 = os).
    { unfold enumerate. apply snd_zip. rewrite length_seqZ. lia. }
    rewrite Hall in Hpays.
    apply wp_bind, wp_write_csv.
    + intros ->. apply Forall2_nil_inv_r in Hpays. done.
    + intros fs. apply wp_ret. apply HQ; [exact Hpays | exact Hheap].
Qed.


Lemma with_total_ids (items : list (OrderItem.t F)) (os : list (Order.t F)) :
  Order.order_id <$> (with_total items <$> os) = Order.order_id <$> os.
Proof. rewrite <- list_fmap_compose. reflexivity. Qed.

Lemma with_total_dates_ok (items : list (OrderItem.t F)) (o : Order.t F) :
  dates_ok o -> dates_ok (with_total items o).
Proof. intros H. exact H. Qed.

Lemma wp_module_init (w : World) (Q : Gen.Config -> World -> Prop) :
  (forall cfg w',
     100 <= Gen.NUM_CUSTOMERS cfg <= 300 ->
     100 <= Gen.NUM_PRODUCTS cfg <= 300 ->
     100 <= Gen.NUM_ORDERS cfg <= 300 ->
     150 <= Gen.NUM_ORDER_ITEMS cfg <= 300 ->
     Q cfg w') ->
  wp Gen.module_init w Q.
Proof.
  intros HQ. unfold Gen.module_init.
  apply wp_bind, wp_modify. apply wp_bind, wp_modify.
  apply wp_bind, wp_randint; [lia|]. intros nc r1 H1. cbv beta.
  apply wp_bind, wp_randint; [lia|]. intros np r2 H2. cbv beta.
  apply wp_bind, wp_randint; [lia|]. intros no r3 H3. cbv beta.
  apply wp_bind, wp_randint; [lia|]. intros ni r4 H4. cbv beta.
  apply wp_ret, HQ; assumption.
Qed.

Lemma run_spec (w : World) : wp Gen.run w (fun d _ => generated d).
Proof.
  unfold Gen.run. apply wp_bind, wp_module_init.
  intros cfg w1 Hnc Hnp Hno Hni. unfold Gen.main.
  apply wp_bind, generate_customers_spec; [lia|]. intros cs w2 Hcs _.
  apply wp_bind, generate_products_spec; [lia|]. intros ps w3 Hps _.
  assert (Hcs_ne : cs <> []).
  { eapply fmap_eq_nonempty; [exact Hcs|]. apply range_nonempty. lia. }
  assert (Hps_ne : ps <> []).
  { eapply fmap_eq_nonempty; [exact Hps|]. apply range_nonempty. lia. }
  apply wp_bind, generate_orders_spec; [lia|exact Hcs_ne|].
  intros l os w4 Hl Hos Hcust Hdates.
  assert (Hos_ne : os <> []).
  { eapply fmap_eq_nonempty; [exact Hos|]. apply range_nonempty. lia. }
  apply wp_bind, (generate_order_items_spec cfg l os); [lia|done|done|done|].
  intros items w5 Hl5 Hrefs.
  apply wp_bind, (generate_payments_spec l (with_total items <$> os)).
  { intros Hnil. apply fmap_nil_inv in Hnil. done. }
  { exact Hl5. }
  intros pays_ w6 Hpays Hheap.
  apply wp_bind, (wp_deref l (with_total items <$> os)).
  { rewrite Hheap. exact Hl5. }
  apply wp_ret. constructor; simpl.
  - eauto.
  - eauto.
  - exists (Gen.NUM_ORDERS cfg). split; [done|]. by rewrite with_total_ids.
  - apply Forall_fmap. exact Hcust.
  - apply Forall_fmap. eapply Forall_impl; [exact Hdates|].
    intros o Ho. by apply with_total_dates_ok.
  - apply Forall_fmap. apply Forall_forall. intros o _. reflexivity.
  - eapply Forall_impl; [exact Hrefs|]. intros it [Ho Hp]. split; [|exact Hp].
    by rewrite with_total_ids.
  - exact Hpays.
Qed.

Lemma run_returns (w : World) :
  exists d w', Gen.run w = (Ok d, w') /\ generated d.
Proof. apply wp_elim, run_spec. Qed.


Lemma pays_order_ids (os : list (Order.t F)) (ps : list (Payment.t F)) :
  Forall2 pays os ps -> Payment.order_id <$> ps = Order.order_id <$> os.
Proof.
  induction 1 as [|o p os ps Hp _ IH]; [done|].
  rewrite !fmap_cons, IH. f_equal. apply Hp.
Qed.

Lemma filter_key_absent {A} (f : A -> Z) (k : Z) (l : list A) :
  k ∉ f <$> l -> filter (fun y => f y = k) l = [].
Proof.
  induction l as [|x l IH]; intros Hk; [done|].
  rewrite fmap_cons in Hk. apply not_elem_of_cons in Hk as [Hne Hk].
  rewrite filter_cons_False by congruence. by apply IH.
Qed.

Lemma filter_key_once {A} (f : A -> Z) (k : Z) (l : list A) :
  NoDup (f <$> l) -> k ∈ f <$> l ->
  length (filter (fun y => f y = k) l) = 1%nat.
Proof.
  induction l as [|x l IH]; intros Hnd Hk.
  - by apply elem_of_nil in Hk.
  - rewrite fmap_cons in Hnd, Hk. apply NoDup_cons in Hnd as [Hx Hnd].
    destruct (decide (f x = k)) as [Heq|Hne].
    + rewrite filter_cons_True by exact Heq.
      rewrite filter_key_absent; [done|]. by rewrite <- Heq.
    + rewrite filter_cons_False by exact Hne.
      apply IH; [exact Hnd|].
      apply elem_of_cons in Hk as [Hk|Hk]; [congruence|exact Hk].
Qed.

Lemma generated_order_ids_NoDup (d : Gen.Dataset) :
  generated d -> NoDup (Order.order_id <$> Gen.orders d).
Proof.
  intros Hg. destruct (gen_order_ids d Hg) as (n & _ & ->). apply range_NoDup.
Qed.

(** C1: after a run, every order's [total_amount] is the sum of the [total]
    of the order items that reference it, rounded to two decimals, and it is
    [0.0] for an order no item references. *)
Theorem order_total_is_rounded_item_sum (w : World) :
  exists d w', Gen.run w = (Ok d, w') /\
    forall o, o ∈ Gen.orders d ->
      Order.total_amount o =
        round_nd (sum_totals (Order.order_id o) (Gen.order_items d)) 2 /\
      (items_of (Order.order_id o) (Gen.order_items d) = [] ->
       Order.total_amount o = fzero).
Proof.
  destruct (run_returns w) as (d & w' & Hrun & Hg).
  exists d, w'. split; [exact Hrun|]. intros o Ho.
  pose proof (proj1 (Forall_forall _ _) (gen_order_totals d Hg) o Ho) as Htot.
  split; [exact Htot|]. intros Hnone.
  rewrite Htot. unfold sum_totals. rewrite Hnone. simpl. apply round_zero.
Qed.

(** C2: after a run, the payments match the orders one for one; each
    payment carries its order's [total_amount] unchanged as
    [payment_amount], and its [transaction_fee] is that amount times a rate
    drawn between 2% and 3%, rounded to two decimals, kept apart from the
    amount. *)
Theorem one_payment_per_order (w : World) :
  exists d w', Gen.run w = (Ok d, w') /\
    Forall2 pays (Gen.orders d) (Gen.payments d) /\
    forall o, o ∈ Gen.orders d ->
      length (filter (fun p => Payment.order_id p = Order.order_id o)
                (Gen.payments d)) = 1%nat.
Proof.
  destruct (run_returns w) as (d & w' & Hrun & Hg).
  exists d, w'. split; [exact Hrun|].
  pose proof (gen_payments d Hg) as Hpays.
  split; [exact Hpays|]. intros o Ho.
  apply filter_key_once; rewrite (pays_order_ids _ _ Hpays).
  - by apply generated_order_ids_NoDup.
  - apply list_elem_of_fmap. eauto.
Qed.

(** C3: after a run, every order names a generated customer, every order
    item a generated order and a generated product, every payment a
    generated order, and no two payments name the same order. *)
Theorem references_resolve (w : World) :
  exists d w', Gen.run w = (Ok d, w') /\
    Forall (fun o => Order.customer_id o ∈ Customer.customer_id <$> Gen.customers d)
      (Gen.orders d) /\
    Forall (fun it =>
              OrderItem.order_id it ∈ Order.order_id <$> Gen.orders d /\
              OrderItem.product_id it ∈ Product.product_id <$> Gen.products d)
      (Gen.order_items d) /\
    Forall (fun p => Payment.order_id p ∈ Order.order_id <$> Gen.orders d)
      (Gen.payments d) /\
    NoDup (Payment.order_id <$> Gen.payments d).
Proof.
  destruct (run_returns w) as (d & w' & Hrun & Hg).
  exists d, w'. split; [exact Hrun|].
  pose proof (pays_order_ids _ _ (gen_payments d Hg)) as Hids.
  split; [exact (gen_order_customers d Hg)|].
  split; [exact (gen_item_refs d Hg)|].
  split.
  - apply Forall_forall. intros p Hp. rewrite <- Hids.
    apply list_elem_of_fmap. eauto.
  - rewrite Hids. by apply generated_order_ids_NoDup.
Qed.

(** C5: after a run, an order has a [shipped_date] exactly when its status
    is Shipped or Delivered and a [delivery_date] exactly when it is
    Delivered; a [shipped_date] is not before the [order_date] and a
    [delivery_date] not before the [shipped_date]. *)
Theorem order_dates_follow_status (w : World) :
  exists d w', Gen.run w = (Ok d, w') /\ Forall dates_ok (Gen.orders d).
Proof.
  destruct (run_returns w) as (d & w' & Hrun & Hg).
  exists d, w'. split; [exact Hrun|]. exact (gen_order_dates d Hg).
Qed.

(** X22: after a run, the customer ids are the numbers from 1 up to the
    number of customers, in list order, so no two customers share an id. *)
Theorem customer_ids_unique (w : World) :
  exists d w', Gen.run w = (Ok d, w') /\
    Customer.customer_id <$> Gen.customers d
      = range 1 (Z.of_nat (length (Gen.customers d)) + 1) /\
    NoDup (Customer.customer_id <$> Gen.customers d).
Proof.
  destruct (run_returns w) as (d & w' & Hrun & Hg).
  exists d, w'. split; [exact Hrun|].
  destruct (gen_customer_ids d Hg) as (n & Hn & Hids).
  split.
  - rewrite Hids. f_equal. f_equal.
    apply (f_equal length) in Hids.
    rewrite length_fmap in Hids. rewrite Hids.
    unfold range. rewrite length_seqZ. lia.
  - rewrite Hids. apply range_NoDup.
Qed.

End GenFunctions.

Section Determinism.
Context {F R : Type} `{!PyFloat F} `{!PyRandom R F} `{!Faker R}.

(** The import leaves both generators in the state of [seed(42)], whatever
    state they were started in. *)
Lemma module_init_reseeds (e1 e2 : R) (clk : nat -> Z) :
  Gen.module_init (Gen.process_start e1 e2 clk)
  = (bind (Gen.py (randint 100 300)) (fun nc =>
     bind (Gen.py (randint 100 300)) (fun np =>
     bind (Gen.py (randint 100 300)) (fun no =>
     bind (Gen.py (randint 150 300)) (fun ni =>
     ret (Gen.mkConfig nc np no ni))))))
      (Gen.mkWorld (seed 42) (seed 42) clk 0 ∅ ∅).
Proof. reflexivity. Qed.

End Determinism.

Section LoaderProps.
Context {DB : Type} `{!SqlEngine DB}.

Local Abbreviation World := (@Loader.World DB).
Local Abbreviation Conn := (@Loader.Conn DB).

Lemma with_conn_same (w : World) (c : Conn) :
  Loader.conn w = Some c -> Loader.with_conn (Some c) w = w.
Proof. destruct w. simpl. intros ->. reflexivity. Qed.

Lemma conn_eta (c : Conn) :
  Loader.in_txn c = false ->
  Loader.mkConn (Loader.work c) false (Loader.foreign_keys c) = c.
Proof. destruct c. simpl. intros ->. reflexivity. Qed.

(** The body of the insert loop of [load_csv_to_table]. *)
Local Abbreviation insert_body table columns :=
  (fun (row : list string) (row_count : Z) =>
     bind (Loader.cursor_execute_insert table columns
             (Loader.normalize <$> (Loader.row_dict columns row).*2))
          (fun _ => ret (row_count + 1))).

Lemma bind_ok {S A B} (m : M S A) (k : A -> M S B) (s s' : S) (a : A) :
  m s = (Ok a, s') -> bind m k s = k a s'.
Proof. intros Hm. unfold bind. rewrite Hm. reflexivity. Qed.

Lemma bind_raise {S A B} (m : M S A) (k : A -> M S B) (s s' : S) (e : exn) :
  m s = (Raise e, s') -> bind m k s = (Raise e, s').
Proof. intros Hm. unfold bind. rewrite Hm. reflexivity. Qed.

Lemma the_conn_open (w : World) (c : Conn) :
  Loader.conn w = Some c -> Loader.the_conn w = (Ok c, w).
Proof. intros Hc. unfold Loader.the_conn. rewrite Hc. reflexivity. Qed.

Lemma cursor_execute_insert_ok (table : string) (columns : list string)
    (values : list pyval) (w : World) (c : Conn) (db1 : DB) :
  Loader.conn w = Some c ->
  execute_insert (Loader.foreign_keys c) table columns values (Loader.work c)
    = Some db1 ->
  Loader.cursor_execute_insert table columns values w =
  (Ok tt, Loader.with_conn (Some (Loader.mkConn db1 true (Loader.foreign_keys c))) w).
Proof.
  intros Hc Hins. unfold Loader.cursor_execute_insert.
  rewrite (bind_ok _ _ _ _ _ (the_conn_open w c Hc)). rewrite Hins. reflexivity.
Qed.

Lemma cursor_execute_insert_fail (table : string) (columns : list string)
    (values : list pyval) (w : World) (c : Conn) :
  Loader.conn w = Some c ->
  execute_insert (Loader.foreign_keys c) table columns values (Loader.work c)
    = None ->
  Loader.cursor_execute_insert table columns values w = (Raise SqliteError, w).
Proof.
  intros Hc Hins. unfold Loader.cursor_execute_insert.
  rewrite (bind_ok _ _ _ _ _ (the_conn_open w c Hc)). rewrite Hins. reflexivity.
Qed.

Lemma insert_step_ok (table : string) (columns row : list string)
    (rows : list (list string)) (n : Z) (w : World) (c : Conn) (db1 : DB) :
  Loader.conn w = Some c ->
  execute_insert (Loader.foreign_keys c) table columns
    (Loader.normalize <$> (Loader.row_dict columns row).*2) (Loader.work c)
    = Some db1 ->
  for_each (row :: rows) n (insert_body table columns) w =
  for_each rows (n + 1) (insert_body table columns)
    (Loader.with_conn (Some (Loader.mkConn db1 true (Loader.foreign_keys c))) w).
Proof.
  intros Hc Hins. cbn [for_each].
  apply (bind_ok (insert_body table columns row n)
           (fun acc' => for_each rows acc' (insert_body table columns))
           w _ (n + 1)).
  rewrite (bind_ok _ _ _ _ _ (cursor_execute_insert_ok _ _ _ _ _ _ Hc Hins)).
  reflexivity.
Qed.

Lemma insert_step_fail (table : string) (columns row : list string)
    (rows : list (list string)) (n : Z) (w : World) (c : Conn) :
  Loader.conn w = Some c ->
  execute_insert (Loader.foreign_keys c) table columns
    (Loader.normalize <$> (Loader.row_dict columns row).*2) (Loader.work c)
    = None ->
  for_each (row :: rows) n (insert_body table columns) w = (Raise SqliteError, w).
Proof.
  intros Hc Hins. cbn [for_each].
  apply (bind_raise (insert_body table columns row n)
           (fun acc' => for_each rows acc' (insert_body table columns))).
  apply bind_raise.
  by apply (cursor_execute_insert_fail _ _ _ w c).
Qed.

Lemma insert_loop (table : string) (columns : list string)
    (rows : list (list string)) (n : Z) (w : World) (c : Conn) :
  Loader.conn w = Some c ->
  exists c',
    Loader.foreign_keys c' = Loader.foreign_keys c /\
    (Loader.in_txn c' = false -> c' = c) /\
    match insert_all (Loader.foreign_keys c) table columns
            ((fun row => Loader.normalize <$> (Loader.row_dict columns row).*2)
               <$> rows) (Loader.work c) with
    | Some db' =>
        for_each rows n (insert_body table columns) w
          = (Ok (n + Z.of_nat (length rows)), Loader.with_conn (Some c') w) /\
        Loader.work c' = db'
    | None =>
        for_each rows n (insert_body table columns) w
          = (Raise SqliteError, Loader.with_conn (Some c') w)
    end.
Proof.
  revert n w c. induction rows as [|row rows IH]; intros n w c Hc.
  - exists c. simpl. rewrite (with_conn_same w c Hc).
    repeat split; try done. unfold ret. do 2 f_equal. lia.
  - rewrite fmap_cons. cbn [insert_all].
    destruct (execute_insert (Loader.foreign_keys c) table columns
                (Loader.normalize <$> (Loader.row_dict columns row).*2)
                (Loader.work c)) as [db1|] eqn:Hins.
    + rewrite (insert_step_ok _ _ _ _ _ _ _ _ Hc Hins).
      set (c1 := Loader.mkConn db1 true (Loader.foreign_keys c)).
      destruct (IH (n + 1) (Loader.with_conn (Some c1) w) c1 eq_refl)
        as (c' & Hfk & Htx & Hres).
      exists c'. split; [exact Hfk|]. split.
      { intros Hfalse. specialize (Htx Hfalse). subst c'. discriminate Hfalse. }
      simpl in Hres.
      destruct (insert_all _ _ _ _ db1) as [db'|].
      * destruct Hres as [Hrun Hwork]. split; [|exact Hwork].
        rewrite Hrun. f_equal. f_equal. rewrite length_cons. lia.
      * exact Hres.
    + rewrite (insert_step_fail _ _ _ _ _ _ _ Hc Hins).
      exists c. rewrite (with_conn_same w c Hc). done.
Qed.


Lemma world_eta (w : World) (c : Conn) (l : list Loader.event) :
  Loader.conn w = Some c ->
  forall c' : option Conn,
    Loader.with_conn (Some c) (Loader.with_log l (Loader.with_conn c' w))
    = Loader.with_log l w.
Proof. destruct w. simpl. intros -> c'. reflexivity. Qed.

Lemma rollback_idle (w : World) (c c' : Conn) (l : list Loader.event) :
  idle w c ->
  Loader.foreign_keys c' = Loader.foreign_keys c ->
  (Loader.in_txn c' = false -> c' = c) ->
  Loader.rollback (Loader.with_log l (Loader.with_conn (Some c') w))
  = (Ok tt, Loader.with_log l w).
Proof.
  intros (Hc & Htx & Hfile) Hfk Hsame. unfold Loader.rollback.
  erewrite bind_ok; [|apply the_conn_open; reflexivity].
  destruct (Loader.in_txn c') eqn:Hin.
  - simpl. rewrite Hfile. rewrite Hfk, (conn_eta c Htx).
    by rewrite (world_eta w c l Hc).
  - rewrite (Hsame eq_refl).
    replace (Loader.with_log l (Loader.with_conn (Some c) w))
      with (Loader.with_log l w); [reflexivity|].
    by rewrite (with_conn_same w c Hc).
Qed.

(** What one table load does when its file is there and has a header. *)
Lemma load_csv_result (table file : string) (w : World) (c : Conn)
    (lines : Loader.csvtext) (columns : list string) :
  idle w c ->
  Loader.csv_files w !! Gen.path_join Loader.DATA_DIR file = Some lines ->
  head lines = Some columns ->
  Loader.load_csv_to_table table file w =
  match insert_all (Loader.foreign_keys c) table columns (batch columns lines)
          (Loader.work c) with
  | Some db' =>
      let n := Z.of_nat (length (Loader.data_lines lines)) in
      (Ok n,
       Loader.with_log (Loader.log w ++ [Loader.LoadedRows n table])
         (Loader.with_conn (Some (Loader.mkConn db' false (Loader.foreign_keys c)))
            (Loader.with_db_file (Some db') w)))
  | None =>
      (Ok 0, Loader.with_log (Loader.log w ++ [Loader.ErrorLoading table]) w)
  end.
Proof.
  intros Hidle Hcsv Hhead. pose proof Hidle as (Hc & Htx & Hfile).
  unfold Loader.load_csv_to_table. cbv zeta.
  rewrite (bind_ok get _ w w w eq_refl).
  unfold Loader.csvtext in *. rewrite Hcsv, Hhead.
  unfold Loader.try_except.
  destruct (insert_loop table columns (Loader.data_lines lines) 0 w c Hc)
    as (c' & Hfk & Hsame & Hloop).
  unfold batch.
  destruct (insert_all _ _ _ _ _) as [db'|].
  - destruct Hloop as [Hrun Hwork].
    rewrite (bind_ok _ _ _ _ _ Hrun).
    unfold Loader.commit, Loader.the_conn, bind, modify, Loader.print, ret.
    simpl. rewrite Hwork, Hfk. destruct w; reflexivity.
  - rewrite (bind_raise _ _ _ _ _ Hloop).
    unfold Loader.print at 1.
    rewrite (bind_ok (modify _) _ _ _ tt eq_refl).
    cbn [Loader.log Loader.with_conn].
    rewrite (bind_ok _ _ _ _ _ (rollback_idle w c c' _ Hidle Hfk Hsame)).
    reflexivity.
Qed.


Lemma load_csv_missing (table file : string) (w : World) :
  Loader.csv_files w !! Gen.path_join Loader.DATA_DIR file = None ->
  Loader.load_csv_to_table table file w =
  (Ok 0,
   Loader.with_log
     (Loader.log w ++ [Loader.CsvFileNotFound (Gen.path_join Loader.DATA_DIR file)])
     w).
Proof.
  intros Hcsv. unfold Loader.load_csv_to_table. cbv zeta.
  rewrite (bind_ok get _ w w w eq_refl).
  unfold Loader.csvtext in *. rewrite Hcsv. reflexivity.
Qed.

Lemma rollback_noop (w : World) (c : Conn) :
  idle w c -> Loader.rollback w = (Ok tt, w).
Proof.
  intros (Hc & Htx & _). unfold Loader.rollback.
  rewrite (bind_ok _ _ _ _ _ (the_conn_open w c Hc)), Htx. reflexivity.
Qed.

Lemma load_csv_no_header (table file : string) (w : World) (c : Conn)
    (lines : Loader.csvtext) :
  idle w c ->
  Loader.csv_files w !! Gen.path_join Loader.DATA_DIR file = Some lines ->
  head lines = None ->
  Loader.load_csv_to_table table file w =
  (Ok 0, Loader.with_log (Loader.log w ++ [Loader.UnexpectedErrorLoading table]) w).
Proof.
  intros Hidle Hcsv Hhead. pose proof Hidle as (Hc & Htx & Hfile).
  unfold Loader.load_csv_to_table. cbv zeta.
  rewrite (bind_ok get _ w w w eq_refl).
  unfold Loader.csvtext in *. rewrite Hcsv, Hhead.
  unfold Loader.try_except, raise.
  unfold Loader.print at 1.
  rewrite (bind_ok (modify _) _ _ _ tt eq_refl).
  rewrite (bind_ok _ _ _ _ _
             (rollback_noop (Loader.with_log _ w) c Hidle)).
  reflexivity.
Qed.

Lemma idle_with_log (w : World) (c : Conn) (l : list Loader.event) :
  idle w c -> idle (Loader.with_log l w) c.
Proof. intros H. exact H. Qed.

(** A table load never raises, leaves the connection idle, and adds one
    closing line to the console. *)
Lemma load_csv_total (table file : string) (w : World) (c : Conn) :
  idle w c ->
  exists n w' c' e,
    Loader.load_csv_to_table table file w = (Ok n, w') /\
    idle w' c' /\
    Loader.log w' = Loader.log w ++ [e] /\
    reports table file e.
Proof.
  intros Hidle.
  destruct (Loader.csv_files w !! Gen.path_join Loader.DATA_DIR file)
    as [lines|] eqn:Hcsv.
  - destruct (head lines) as [columns|] eqn:Hhead.
    + rewrite (load_csv_result table file w c lines columns Hidle Hcsv Hhead).
      destruct (insert_all _ _ _ _ _) as [db'|].
      * eexists _, _, _, _. split; [reflexivity|].
        split; [|split; [reflexivity|]].
        -- repeat split.
        -- right. left. eauto.
      * eexists _, _, c, _. split; [reflexivity|].
        split; [exact Hidle|]. split; [reflexivity|].
        right. right. by left.
    + rewrite (load_csv_no_header table file w c lines Hidle Hcsv Hhead).
      eexists _, _, c, _. split; [reflexivity|].
      split; [exact Hidle|]. split; [reflexivity|].
      right. right. by right.
  - rewrite (load_csv_missing table file w Hcsv).
    eexists _, _, c, _. split; [reflexivity|].
    split; [exact Hidle|]. split; [reflexivity|]. by left.
Qed.

Lemma attempted_later (l l' : list Loader.event) (table : string) :
  attempted l table -> attempted (l ++ l') table.
Proof.
  intros (file & e & Hf & He & Hr). exists file, e.
  split; [exact Hf|]. split; [|exact Hr]. apply elem_of_app. by left.
Qed.

Lemma load_all_tables_spec (w : World) (c : Conn) :
  idle w c ->
  wp Loader.load_all_tables w
    (fun _ w' => (exists c', idle w' c') /\
                 Forall (attempted (Loader.log w')) Loader.load_order).
Proof.
  intros Hidle. unfold Loader.load_all_tables.
  apply (wp_for_each
           (fun pre (_ : Z) (s : World) =>
              (exists c', idle s c') /\ Forall (attempted (Loader.log s)) pre)).
  - split; [eauto|constructor].
  - intros pre x post acc s Hsplit [[c' Hc'] Hdone].
    assert (Hx : x ∈ Loader.load_order).
    { rewrite Hsplit. apply elem_of_app. right. by left. }
    assert (Hfile : exists i file,
               (x, file) ∈ Loader.CSV_FILES /\
               list_find (fun kv : string * string => kv.1 = x) Loader.CSV_FILES
               = Some (i, (x, file))).
    { unfold Loader.load_order in Hx.
      repeat (apply elem_of_cons in Hx as [->|Hx]);
        [..|by apply elem_of_nil in Hx];
        eexists _, _; (split; [|vm_compute; reflexivity]);
        unfold Loader.CSV_FILES; repeat constructor. }
    destruct Hfile as (i & file & Hin & Hfind).
    rewrite Hfind. apply wp_bind, wp_ret.
    destruct (load_csv_total x file s c' Hc')
      as (n & s' & c'' & e & Hload & Hidle' & Hlog & Hrep).
    apply wp_bind. eapply wp_intro; [exact Hload|]. apply wp_ret.
    split; [eauto|]. rewrite Hlog. apply Forall_app. split.
    + eapply Forall_impl; [exact Hdone|]. intros t Ht.
      by apply attempted_later.
    + constructor; [|constructor].
      exists file, e. split; [exact Hin|]. split; [|exact Hrep].
      apply elem_of_app. right. by left.
  - intros acc s' H. exact H.
Qed.


Lemma insert_all_app (fk_on : bool) (table : string) (columns : list string)
    (done rest : list (list pyval)) (db : DB) :
  insert_all fk_on table columns (done ++ rest) db =
  match insert_all fk_on table columns done db with
  | Some db1 => insert_all fk_on table columns rest db1
  | None => None
  end.
Proof.
  revert db. induction done as [|v done IH]; intros db; [done|].
  simpl. destruct (execute_insert fk_on table columns v db); [apply IH|done].
Qed.

(** A batch fails exactly when one of its inserts raises after the ones
    before it went through. *)
Lemma insert_all_fails (fk_on : bool) (table : string) (columns : list string)
    (values : list (list pyval)) (db : DB) :
  insert_all fk_on table columns values db = None <->
  exists done bad rest db1,
    values = done ++ bad :: rest /\
    insert_all fk_on table columns done db = Some db1 /\
    execute_insert fk_on table columns bad db1 = None.
Proof.
  split.
  - revert db. induction values as [|v values IH]; intros db Hnone; [done|].
    simpl in Hnone.
    destruct (execute_insert fk_on table columns v db) as [db'|] eqn:Hv.
    + destruct (IH db' Hnone) as (done & bad & rest & db1 & -> & Hdone & Hbad).
      exists (v :: done), bad, rest, db1. simpl. rewrite Hv. done.
    + exists [], v, values, db. done.
  - intros (done & bad & rest & db1 & -> & Hdone & Hbad).
    rewrite insert_all_app, Hdone. simpl. by rewrite Hbad.
Qed.

(** C6: a table load whose file is there, started between two loads.  If an
    insert of the batch raises, the load returns 0, the connection and the
    file hold exactly what they held before the batch (so nothing of it is
    in the table, and the tables loaded before keep their rows), and the
    console names the failing table.  Otherwise it returns the number of
    rows of the file, all of them committed. *)
Theorem table_load_is_atomic (table file : string) (w : World) (c : Conn)
    (lines : Loader.csvtext) (columns : list string) :
  idle w c ->
  Loader.csv_files w !! Gen.path_join Loader.DATA_DIR file = Some lines ->
  head lines = Some columns ->
  exists n w',
    Loader.load_csv_to_table table file w = (Ok n, w') /\
    match insert_all (Loader.foreign_keys c) table columns (batch columns lines)
            (Loader.work c) with
    | None =>
        n = 0 /\ idle w' c /\ Loader.db_file w' = Loader.db_file w /\
        Loader.log w' = Loader.log w ++ [Loader.ErrorLoading table]
    | Some db' =>
        n = Z.of_nat (length (batch columns lines)) /\
        idle w' (Loader.mkConn db' false (Loader.foreign_keys c)) /\
        Loader.log w' = Loader.log w ++ [Loader.LoadedRows n table]
    end.
Proof.
  intros Hidle Hcsv Hhead.
  rewrite (load_csv_result table file w c lines columns Hidle Hcsv Hhead).
  destruct (insert_all _ _ _ _ _) as [db'|].
  - eexists _, _. split; [reflexivity|]. cbv zeta.
    split; [unfold batch; by rewrite length_fmap|].
    split; [|reflexivity]. split; [reflexivity|]. split; reflexivity.
  - eexists _, _. split; [reflexivity|]. split; [reflexivity|].
    split; [exact Hidle|]. split; reflexivity.
Qed.

Lemma create_connection_fresh (w w' : World) :
  Loader.create_connection w = (Ok true, w') ->
  Loader.db_file w' = Some empty_db /\
  Loader.conn w' = Some (Loader.mkConn empty_db false true).
Proof.
  unfold Loader.create_connection, Loader.try_except, bind, get, modify,
    Loader.print, Loader.the_conn, raise, ret.
  destruct (Loader.db_file w) as [db|] eqn:Hdb;
    [rewrite bool_decide_eq_true_2 by eauto
    |rewrite bool_decide_eq_false_2 by (by intros [? ?])];
    destruct (Loader.db_removable w); destruct (Loader.db_openable w);
    simpl; try rewrite Hdb; simpl; intros [= <-]; done.
Qed.

Lemma create_connection_returns (w : World) :
  Loader.db_file w = None \/ Loader.db_removable w = true ->
  exists b w', Loader.create_connection w = (Ok b, w').
Proof.
  intros Hw.
  unfold Loader.create_connection, Loader.try_except, bind, get, modify,
    Loader.print, Loader.the_conn, raise, ret.
  case_bool_decide as Hdb.
  - destruct Hw as [Hnone|Hrm].
    + rewrite Hnone in Hdb. by destruct Hdb.
    + rewrite Hrm. destruct (Loader.db_openable w); simpl; eauto.
  - destruct (Loader.db_openable w); simpl; eauto.
Qed.

(** C7: once [create_connection] has returned a connection, the store at
    the database path is that of a file just created, whatever was at the
    path before, and the connection sees nothing else. *)
Theorem connection_discards_prior_store (w w' : World) :
  Loader.create_connection w = (Ok true, w') ->
  Loader.db_file w' = Some empty_db /\
  exists c, Loader.conn w' = Some c /\ Loader.work c = empty_db /\ idle w' c.
Proof.
  intros Hcreate. destruct (create_connection_fresh w w' Hcreate) as [Hfile Hconn].
  split; [exact Hfile|]. eexists. split; [exact Hconn|]. split; [done|].
  by repeat split.
Qed.

(** The whole load is blind to what the database file held before. *)
Lemma main_ignores_prior_store (w : World) (d1 d2 : DB) :
  Loader.db_removable w = true ->
  Loader.main (Loader.with_db_file (Some d1) w)
  = Loader.main (Loader.with_db_file (Some d2) w).
Proof.
  intros Hrm. unfold Loader.main.
  assert (Hsame : Loader.create_connection (Loader.with_db_file (Some d1) w)
                  = Loader.create_connection (Loader.with_db_file (Some d2) w)).
  { unfold Loader.create_connection, Loader.try_except, bind, get, modify,
      Loader.print, Loader.the_conn, raise, ret.
    simpl. rewrite Hrm. destruct (Loader.db_openable w); reflexivity. }
  unfold bind at 1 3. rewrite Hsame. reflexivity.
Qed.

End LoaderProps.

Section LoadRun.
Context {DB : Type} `{!SqlEngine DB}.

Local Abbreviation World := (@Loader.World DB).
Local Abbreviation Conn := (@Loader.Conn DB).

Lemma for_each_ok_inv {S A B} (I : S -> Prop) (body : A -> B -> M S B)
    (xs : list A) :
  (forall x acc s r s', I s -> body x acc s = (Ok r, s') -> I s') ->
  forall acc s r s', I s -> for_each xs acc body s = (Ok r, s') -> I s'.
Proof.
  intros Hbody. induction xs as [|x xs IH]; intros acc s r s' Hs Hrun.
  - injection Hrun as _ <-. exact Hs.
  - cbn [for_each] in Hrun. unfold bind in Hrun.
    destruct (body x acc s) as [[a|e] s1] eqn:Hx; [|discriminate Hrun].
    eapply IH; [|exact Hrun]. eapply Hbody; eauto.
Qed.

Lemma conn_execute_ddl_idle (d : ddl) (w w' : World) :
  (exists c, idle w c) ->
  Loader.conn_execute_ddl d w = (Ok tt, w') ->
  exists c', idle w' c'.
Proof.
  intros [c (Hc & Htx & Hfile)]. unfold Loader.conn_execute_ddl.
  rewrite (bind_ok _ _ _ _ _ (the_conn_open w c Hc)).
  destruct (execute_ddl d (Loader.work c)) as [db|]; [|discriminate].
  unfold modify, Loader.store. simpl. rewrite Htx. intros [= <-].
  eexists. repeat split.
Qed.

Lemma ddl_loop_idle (ds : list ddl) (mk : string -> Loader.event)
    (w w' : World) :
  (exists c, idle w c) ->
  for_each ds tt
    (fun d _ => bind (Loader.conn_execute_ddl d)
                  (fun _ => Loader.print (mk (Loader.ddl_name d)))) w
  = (Ok tt, w') ->
  exists c', idle w' c'.
Proof.
  intros Hidle. apply (for_each_ok_inv (fun s => exists c, idle s c)); [|exact Hidle].
  intros d [] s [] s' Hs. unfold bind.
  destruct (Loader.conn_execute_ddl d s) as [[[]|e] s1] eqn:Hd; [|discriminate].
  intros [= <-]. destruct (conn_execute_ddl_idle d s s1 Hs Hd) as [c' Hc'].
  exists c'. exact Hc'.
Qed.

Lemma create_tables_idle (w w' : World) :
  (exists c, idle w c) ->
  Loader.create_tables w = (Ok tt, w') ->
  exists c', idle w' c'.
Proof.
  intros Hidle. unfold Loader.create_tables. unfold bind at 1.
  destruct (for_each _ tt _ w) as [[[]|e] w1] eqn:H1; [|discriminate].
  unfold bind at 1.
  destruct (for_each Loader.indexes tt _ w1) as [[[]|e] w2] eqn:H2; [|discriminate].
  apply ddl_loop_idle in H1; [|exact Hidle].
  apply ddl_loop_idle in H2; [|exact H1].
  destruct H2 as [c2 (Hc & Htx & Hfile)].
  unfold Loader.commit.
  rewrite (bind_ok _ _ _ _ _ (the_conn_open w2 c2 Hc)).
  unfold modify. intros [= <-]. eexists. repeat split.
Qed.

(** The [finally] block of [main]. *)
Local Abbreviation closing :=
  (bind get (fun w : World =>
     if bool_decide (is_Some (Loader.conn w))
     then bind Loader.close (fun _ => Loader.print Loader.ConnectionClosed)
     else ret tt)).

Lemma closing_returns (w : World) :
  exists l, closing w = (Ok tt, Loader.with_log (Loader.log w ++ l) (Loader.with_conn None w)).
Proof.
  unfold bind, get, Loader.close, modify, Loader.print, ret.
  case_bool_decide as Hc.
  - exists [Loader.ConnectionClosed]. reflexivity.
  - exists []. rewrite app_nil_r.
    assert (Hnone : Loader.conn w = None).
    { destruct (Loader.conn w); [|done]. destruct Hc. eauto. }
    destruct w. simpl in *. subst. reflexivity.
Qed.

(** Whatever the guarded part of [main] does, [main] comes back from it
    without an exception, the console only longer. *)
Lemma guarded_returns (m : M World unit) (w : World) :
  exists w',
    Loader.try_finally
      (Loader.try_except m (fun _ => Loader.print Loader.ErrorDuringEtl)) closing w
    = (Ok tt, w') /\
    forall w1 r, m w = (r, w1) -> exists l, Loader.log w' = Loader.log w1 ++ l.
Proof.
  unfold Loader.try_finally, Loader.try_except.
  destruct (m w) as [[[]|e] w1].
  - destruct (closing_returns w1) as [l Hl]. rewrite Hl. eexists. split; [reflexivity|].
    intros ? ? [= _ <-]. exists l. reflexivity.
  - unfold Loader.print at 1. unfold modify.
    destruct (closing_returns (Loader.with_log (Loader.log w1 ++ [Loader.ErrorDuringEtl]) w1))
      as [l Hl].
    rewrite Hl. eexists. split; [reflexivity|].
    intros ? ? [= _ <-]. exists ([Loader.ErrorDuringEtl] ++ l).
    simpl. by rewrite <- app_assoc.
Qed.

Lemma main_returns (w : World) :
  Loader.db_file w = None \/ Loader.db_removable w = true ->
  exists w', Loader.main w = (Ok tt, w').
Proof.
  intros Hw. destruct (create_connection_returns w Hw) as (b & w1 & Hcreate).
  unfold Loader.main. rewrite (bind_ok _ _ _ _ _ Hcreate).
  destruct b; simpl.
  - destruct (guarded_returns
                (bind Loader.create_tables (fun _ =>
                 bind Loader.load_all_tables (fun total_loaded =>
                 bind (Loader.print (Loader.TotalRowsLoaded total_loaded)) (fun _ =>
                 bind Loader.verify_data (fun _ =>
                 bind Loader.generate_summary_stats (fun _ =>
                 Loader.print Loader.StatusSuccess))))))
                w1) as (w' & Hrun & _).
    exists w'. exact Hrun.
  - eexists. reflexivity.
Qed.


(** What follows the load loop in [main] only prints. *)
Lemma after_loading (total_loaded : Z) (w : World) :
  exists r w1 l,
    bind (Loader.print (Loader.TotalRowsLoaded total_loaded)) (fun _ =>
    bind Loader.verify_data (fun _ =>
    bind Loader.generate_summary_stats (fun _ =>
    Loader.print Loader.StatusSuccess))) w = (r, w1) /\
    Loader.log w1 = Loader.log w ++ l.
Proof.
  assert (Hverify : forall l,
            Loader.verify_data (Loader.with_log l w) =
            match Loader.conn w with
            | Some c => match verify_queries (Loader.work c) with
                        | Ok _ => (Ok tt, Loader.with_log l w)
                        | Raise e => (Raise e, Loader.with_log l w)
                        end
            | None => (Raise SqliteError, Loader.with_log l w)
            end).
  { intros l. unfold Loader.verify_data, bind, Loader.the_conn. simpl.
    destruct (Loader.conn w) as [c|]; [|reflexivity].
    destruct (verify_queries (Loader.work c)); reflexivity. }
  assert (Hstats : forall l,
            Loader.generate_summary_stats (Loader.with_log l w) =
            match Loader.conn w with
            | Some c => match summary_queries (Loader.work c) with
                        | Ok _ => (Ok tt, Loader.with_log l w)
                        | Raise e => (Raise e, Loader.with_log l w)
                        end
            | None => (Raise SqliteError, Loader.with_log l w)
            end).
  { intros l. unfold Loader.generate_summary_stats, bind, Loader.the_conn. simpl.
    destruct (Loader.conn w) as [c|]; [|reflexivity].
    destruct (summary_queries (Loader.work c)); reflexivity. }
  unfold Loader.print at 1. rewrite (bind_ok (modify _) _ _ _ tt eq_refl).
  unfold bind at 1. rewrite Hverify.
  destruct (Loader.conn w) as [c|].
  - destruct (verify_queries (Loader.work c)) as [[]|e].
    + unfold bind at 1. rewrite Hstats.
      destruct (summary_queries (Loader.work c)) as [[]|e].
      * eexists _, _, [_; _]. split; [reflexivity|]. simpl.
        by rewrite <- app_assoc.
      * eexists _, _, [_]. split; reflexivity.
    + eexists _, _, [_]. split; reflexivity.
  - eexists _, _, [_]. split; reflexivity.
Qed.

Lemma main_attempts_every_table (w w1 w2 : World) :
  Loader.create_connection w = (Ok true, w1) ->
  Loader.create_tables w1 = (Ok tt, w2) ->
  exists w', Loader.main w = (Ok tt, w') /\
             Forall (attempted (Loader.log w')) Loader.load_order.
Proof.
  intros Hcreate Htables.
  unfold Loader.main. rewrite (bind_ok _ _ _ _ _ Hcreate). simpl.
  match goal with
  | |- exists w', Loader.try_finally (Loader.try_except ?m _) _ _ = _ /\ _ =>
      destruct (guarded_returns m w1) as (w' & Hrun & Hlog)
  end.
  exists w'. split; [exact Hrun|].
  destruct (create_connection_fresh w w1 Hcreate) as [Hfile Hconn].
  assert (Hidle1 : exists c, idle w1 c).
  { eexists. split; [exact Hconn|]. split; [reflexivity|exact Hfile]. }
  destruct (create_tables_idle w1 w2 Hidle1 Htables) as [c2 Hidle2].
  destruct (wp_elim _ _ _ (load_all_tables_spec w2 c2 Hidle2))
    as (total & w3 & Hload & _ & Hall).
  destruct (after_loading total w3) as (r & w4 & l & Hrest & Hl).
  destruct (Hlog w4 r) as [l' Hl'].
  { rewrite (bind_ok _ _ _ _ _ Htables), (bind_ok _ _ _ _ _ Hload). exact Hrest. }
  rewrite Hl', Hl. eapply Forall_impl; [exact Hall|].
  intros t Ht. by do 2 apply attempted_later.
Qed.

Lemma count_loop (db : DB) (ts : list string) (w : World) :
  for_each ts tt
    (fun table (_ : unit) =>
       match count_rows table db with
       | Some _ => ret tt
       | None => raise SqliteError
       end) w
  = if forallb (fun t => bool_decide (is_Some (count_rows t db))) ts
    then (Ok tt, w) else (Raise SqliteError, w).
Proof.
  induction ts as [|t ts IH]; [reflexivity|].
  cbn [for_each forallb]. unfold bind.
  destruct (count_rows t db) as [n|].
  - rewrite bool_decide_eq_true_2 by eauto. simpl. exact IH.
  - rewrite bool_decide_eq_false_2; [reflexivity|]. by intros [? ?].
Qed.

(** Step 2 succeeds or fails on the sole ground of whether the tables can
    be counted in the database file once [load_database.main] is back. *)
Lemma step_2_result (w w1 : World) :
  Loader.main w = (Ok tt, w1) ->
  Pipeline.step_2_load_database w = (Ok (countable w1), w1).
Proof.
  intros Hmain. unfold Pipeline.step_2_load_database, Loader.try_except.
  rewrite (bind_ok _ _ _ _ _ Hmain).
  rewrite (bind_ok get _ w1 w1 w1 eq_refl).
  unfold countable. destruct (Loader.db_file w1) as [db|]; [|reflexivity].
  unfold bind. rewrite count_loop.
  destruct (forallb _ _); reflexivity.
Qed.


(** The pipeline from step 2 on, once [load_database.main] has returned. *)
Lemma pipeline_after_load {QueryResult : Type}
    (step_1 : M World bool) (step_3 : M World (option QueryResult))
    (step_4 : QueryResult -> M World bool) (args : Pipeline.Args)
    (w w0 w1 : World) :
  Pipeline.skip_load args = false ->
  (if Pipeline.skip_data args then w0 = w else step_1 w = (Ok true, w0)) ->
  Loader.main w0 = (Ok tt, w1) ->
  Pipeline.main step_1 step_3 step_4 args w =
  if countable w1 then
    if Pipeline.skip_query args then (0, w1)
    else match step_3 w1 with
         | (Ok (Some r), w3) =>
             match step_4 r w3 with
             | (Ok true, w') => (0, w')
             | (_, w') => (1, w')
             end
         | (_, w3) => (1, w3)
         end
  else (1, w1).
Proof.
  intros Hload Hgen Hmain. unfold Pipeline.main, Pipeline.run_pipeline.
  rewrite Hload. simpl.
  assert (H1 : (if negb (Pipeline.skip_data args) then step_1 else ret true) w
               = (Ok true, w0)).
  { destruct (Pipeline.skip_data args); simpl; [by subst|exact Hgen]. }
  rewrite (bind_ok _ _ _ _ _ H1). simpl.
  rewrite (bind_ok _ _ _ _ _ (step_2_result w0 w1 Hmain)).
  destruct (countable w1); simpl; [|reflexivity].
  destruct (Pipeline.skip_query args); simpl; [reflexivity|].
  unfold bind. destruct (step_3 w1) as [[[r|]|e] w3]; try reflexivity.
  destruct (step_4 r w3) as [[[|]|e] w4]; reflexivity.
Qed.

(** C8, as far as it holds.  A missing CSV file is reported with its path
    and that table's load returns 0 with nothing else changed.  The load
    step does not stop there: once the schema is in place every table of the
    load order is attempted and [main] returns.  Step 2 then succeeds or
    fails on whether the tables can be counted, whatever files were
    missing; and for every choice of flags that runs the load and of the
    other steps, the exit code is 0 exactly when the tables can be counted
    and the query and the export succeed or are skipped. *)
Theorem missing_csv_does_not_abort :
  (forall (table file : string) (w : World),
     Loader.csv_files w !! Gen.path_join Loader.DATA_DIR file = None ->
     Loader.load_csv_to_table table file w =
     (Ok 0,
      Loader.with_log
        (Loader.log w ++
         [Loader.CsvFileNotFound (Gen.path_join Loader.DATA_DIR file)]) w)) /\
  (forall w w1 w2 : World,
     Loader.create_connection w = (Ok true, w1) ->
     Loader.create_tables w1 = (Ok tt, w2) ->
     exists w', Loader.main w = (Ok tt, w') /\
                Forall (attempted (Loader.log w')) Loader.load_order) /\
  (forall (QueryResult : Type) (step_1 : M World bool)
          (step_3 : M World (option QueryResult))
          (step_4 : QueryResult -> M World bool)
          (args : Pipeline.Args) (w w0 w1 : World),
     Pipeline.skip_load args = false ->
     (if Pipeline.skip_data args then w0 = w else step_1 w = (Ok true, w0)) ->
     Loader.main w0 = (Ok tt, w1) ->
     Pipeline.step_2_load_database w0 = (Ok (countable w1), w1) /\
     (Pipeline.skip_query args = true ->
      Pipeline.main step_1 step_3 step_4 args w
      = (if countable w1 then 0 else 1, w1)) /\
     (countable w1 = false ->
      Pipeline.main step_1 step_3 step_4 args w = (1, w1)) /\
     forall w',
       Pipeline.main step_1 step_3 step_4 args w = (0, w') <->
       countable w1 = true /\
       (if Pipeline.skip_query args then w' = w1
        else exists r w3, step_3 w1 = (Ok (Some r), w3) /\
                          step_4 r w3 = (Ok true, w'))).
Proof.
  split; [|split].
  - exact load_csv_missing.
  - exact main_attempts_every_table.
  - intros Q s1 s3 s4 args w w0 w1 Hload Hgen Hmain.
    pose proof (pipeline_after_load s1 s3 s4 args w w0 w1 Hload Hgen Hmain) as Hexit.
    split; [by apply step_2_result|].
    split; [|split].
    + intros Hq. rewrite Hexit, Hq. by destruct (countable w1).
    + intros Hc. by rewrite Hexit, Hc.
    + intros w'. rewrite Hexit.
      destruct (countable w1); [|split; [discriminate|by intros [? _]]].
      destruct (Pipeline.skip_query args).
      { split; [by intros [= <-]|by intros [_ ->]]. }
      split.
      * destruct (s3 w1) as [[[r|]|e] w3]; try discriminate.
        destruct (s4 r w3) as [[[|]|e] w4] eqn:H4; try discriminate.
        intros [= <-]. split; [reflexivity|]. eauto.
      * intros (_ & r & w3 & -> & ->). reflexivity.
Qed.

(** C10: a table load returns 0 without raising when its file is missing,
    when its batch fails and is rolled back, and when the file holds no row
    at all, so that 0 does not tell these apart; the loop over the tables
    then goes on to the end, and [main] returns to its caller without an
    exception. *)
Theorem zero_rows_hides_failures :
  (forall (table file : string) (w : World),
     Loader.csv_files w !! Gen.path_join Loader.DATA_DIR file = None ->
     exists w', Loader.load_csv_to_table table file w = (Ok 0, w')) /\
  (forall (table file : string) (w : World) (c : Conn)
          (lines : Loader.csvtext) (columns : list string),
     idle w c ->
     Loader.csv_files w !! Gen.path_join Loader.DATA_DIR file = Some lines ->
     head lines = Some columns ->
     insert_all (Loader.foreign_keys c) table columns (batch columns lines)
       (Loader.work c) = None ->
     exists w', Loader.load_csv_to_table table file w = (Ok 0, w')) /\
  (forall (table file : string) (w : World) (c : Conn)
          (lines : Loader.csvtext) (columns : list string),
     idle w c ->
     Loader.csv_files w !! Gen.path_join Loader.DATA_DIR file = Some lines ->
     head lines = Some columns ->
     Loader.data_lines lines = [] ->
     exists w', Loader.load_csv_to_table table file w = (Ok 0, w')) /\
  (forall (w : World) (c : Conn),
     idle w c ->
     exists total w',
       Loader.load_all_tables w = (Ok total, w') /\
       Forall (attempted (Loader.log w')) Loader.load_order) /\
  (forall w : World,
     Loader.db_file w = None \/ Loader.db_removable w = true ->
     exists w', Loader.main w = (Ok tt, w')).
Proof.
  split; [|split; [|split; [|split]]].
  - intros table file w Hcsv. rewrite (load_csv_missing table file w Hcsv). eauto.
  - intros table file w c lines columns Hidle Hcsv Hhead Hfail.
    rewrite (load_csv_result table file w c lines columns Hidle Hcsv Hhead), Hfail.
    eauto.
  - intros table file w c lines columns Hidle Hcsv Hhead Hrows.
    rewrite (load_csv_result table file w c lines columns Hidle Hcsv Hhead).
    unfold batch. rewrite Hrows. simpl. eauto.
  - intros w c Hidle.
    destruct (wp_elim _ _ _ (load_all_tables_spec w c Hidle))
      as (total & w' & Hrun & _ & Hall).
    eauto.
  - exact main_returns.
Qed.

End LoadRun.

(** ** The reference implementations meet the contracts *)

Module RefLaws.
Import Ref.

#[export] Instance fixed_float_laws : PyFloatLaws fixed.
Proof.
  split.
  - reflexivity.
  - intros m n e Hmn. simpl. apply Z.leb_le.
    apply Z.div_le_mono; [|lia].
    apply Z.pow_pos_nonneg; lia.
Qed.

Lemma mod_index_lt (r : Z) (n : nat) :
  (0 < n)%nat -> (Z.to_nat (r mod Z.of_nat n) < n)%nat.
Proof.
  intros Hn. pose proof (Z.mod_pos_bound r (Z.of_nat n)). lia.
Qed.

#[export] Instance lcg_random_laws : PyRandomLaws Z fixed.
Proof.
  split.
  - intros n r Hn. simpl. by apply mod_index_lt.
  - intros a b r Hab. simpl.
    pose proof (Z.mod_pos_bound r (b - a + 1)). lia.
  - intros a b r Hab. simpl in *. apply Z.leb_le in Hab.
    pose proof (Z.mod_pos_bound r 1000 eq_refl) as Hk.
    assert (0 <= (b - a) * (r mod 1000) / 1000 <= b - a) as Hq.
    { split.
      - apply Z.div_pos; nia.
      - apply Z.div_le_upper_bound; nia. }
    split; apply Z.leb_le; lia.
  - intros ws r Hn. simpl. by apply mod_index_lt.
Qed.

End RefLaws.

(** ** The properties on concrete runs *)

Module Runs.
Import Ref RefLaws.

Lemma order_total_is_rounded_item_sum_witness :
  exists d w', Gen.run sample_world = (Ok d, w') /\
    forall o, o ∈ Gen.orders d ->
      Order.total_amount o =
        round_nd (sum_totals (Order.order_id o) (Gen.order_items d)) 2 /\
      (items_of (Order.order_id o) (Gen.order_items d) = [] ->
       Order.total_amount o = fzero).
Proof. exact (order_total_is_rounded_item_sum sample_world). Defined.

Lemma one_payment_per_order_witness :
  exists d w', Gen.run sample_world = (Ok d, w') /\
    Forall2 pays (Gen.orders d) (Gen.payments d) /\
    forall o, o ∈ Gen.orders d ->
      length (filter (fun p => Payment.order_id p = Order.order_id o)
                (Gen.payments d)) = 1%nat.
Proof. exact (one_payment_per_order sample_world). Defined.

Lemma references_resolve_witness :
  exists d w', Gen.run sample_world = (Ok d, w') /\
    Forall (fun o => Order.customer_id o ∈ Customer.customer_id <$> Gen.customers d)
      (Gen.orders d) /\
    Forall (fun it =>
              OrderItem.order_id it ∈ Order.order_id <$> Gen.orders d /\
              OrderItem.product_id it ∈ Product.product_id <$> Gen.products d)
      (Gen.order_items d) /\
    Forall (fun p => Payment.order_id p ∈ Order.order_id <$> Gen.orders d)
      (Gen.payments d) /\
    NoDup (Payment.order_id <$> Gen.payments d).
Proof. exact (references_resolve sample_world). Defined.

Lemma order_dates_follow_status_witness :
  exists d w', Gen.run sample_world = (Ok d, w') /\ Forall dates_ok (Gen.orders d).
Proof. exact (order_dates_follow_status sample_world). Defined.

Lemma customer_ids_unique_witness :
  exists d w', Gen.run sample_world = (Ok d, w') /\
    Customer.customer_id <$> Gen.customers d
      = range 1 (Z.of_nat (length (Gen.customers d)) + 1) /\
    NoDup (Customer.customer_id <$> Gen.customers d).
Proof. exact (customer_ids_unique sample_world). Defined.

(** C4 fails as stated: started two years apart, two runs from the same
    seed return different records and write different files. *)
Lemma run_depends_on_clock :
  (Gen.run sample_world).1 <> (Gen.run later_world).1 /\
  Gen.files (Gen.run sample_world).2 !! "data/customers.csv"
    <> Gen.files (Gen.run later_world).2 !! "data/customers.csv".
Proof.
  split; intros Heq.
  - apply (f_equal first_created_at) in Heq.
    revert Heq. vm_compute. discriminate.
  - apply (f_equal first_created_cell) in Heq.
    revert Heq. vm_compute. discriminate.
Qed.

Lemma table_load_is_atomic_witness :
  exists w',
    Loader.load_csv_to_table "orders" "orders.csv" before_orders = (Ok 0, w') /\
    Loader.db_file w' = Loader.db_file before_orders /\
    Loader.log w' = Loader.log before_orders ++ [Loader.ErrorLoading "orders"].
Proof.
  edestruct (table_load_is_atomic "orders" "orders.csv" before_orders
               before_orders_conn) as (n & w' & Hrun & Hcase).
  - split; [|split]; vm_compute; reflexivity.
  - vm_compute. reflexivity.
  - reflexivity.
  - vm_compute in Hcase. destruct Hcase as (-> & _ & Hfile & Hlog).
    exists w'. split; [exact Hrun|]. split; [exact Hfile | exact Hlog].
Defined.

Lemma connection_discards_prior_store_witness :
  Loader.db_file loaded_once <> Some empty_db /\
  exists w', Loader.create_connection loaded_once = (Ok true, w') /\
             Loader.db_file w' = Some empty_db.
Proof.
  split; [vm_compute; discriminate|].
  assert (H : Loader.create_connection loaded_once
              = (Ok true, (Loader.create_connection loaded_once).2))
    by (vm_compute; reflexivity).
  eexists. split; [exact H|].
  exact (proj1 (connection_discards_prior_store _ _ H)).
Defined.

Lemma missing_csv_does_not_abort_witness :
  Loader.load_csv_to_table "customers" "customers.csv" disk_without_customers =
  (Ok 0,
   Loader.with_log [Loader.CsvFileNotFound "data/customers.csv"]
     disk_without_customers) /\
  Pipeline.step_2_load_database disk_without_customers =
  (Ok true, (Loader.main disk_without_customers).2) /\
  Pipeline.main RefMore.passing_step RefMore.query_step RefMore.export_step
    (Pipeline.mkArgs true false false) disk_without_customers
  = (0, (Loader.main disk_without_customers).2).
Proof.
  assert (Hmain : Loader.main disk_without_customers
                  = (Ok tt, (Loader.main disk_without_customers).2))
    by (vm_compute; reflexivity).
  assert (Hcount : countable (Loader.main disk_without_customers).2 = true)
    by (vm_compute; reflexivity).
  destruct (proj2 (proj2 missing_csv_does_not_abort) unit
              RefMore.passing_step RefMore.query_step RefMore.export_step
              (Pipeline.mkArgs true false false)
              disk_without_customers disk_without_customers _
              eq_refl eq_refl Hmain) as (Hstep & _ & _ & Hexit).
  split; [|split].
  - apply (proj1 missing_csv_does_not_abort "customers" "customers.csv"
             disk_without_customers).
    vm_compute. reflexivity.
  - rewrite Hstep, Hcount. reflexivity.
  - apply Hexit. split; [exact Hcount|].
    exists tt, (Loader.main disk_without_customers).2. split; reflexivity.
Defined.

(** C8 fails as stated: with [customers.csv] missing, the load goes on to
    the other tables and the pipeline exits with code 0. *)
Lemma missing_csv_exits_zero :
  Loader.csv_files disk_without_customers !! "data/customers.csv" = None /\
  exit_code load_only disk_without_customers = 0 /\
  drop 12 (Loader.log
             (Pipeline.main (QueryResult := unit) (ret true) (ret None)
                (fun _ => ret true) load_only disk_without_customers).2)
  = [Loader.CsvFileNotFound "data/customers.csv";
     Loader.LoadedRows 1 "products";
     Loader.ErrorLoading "orders";
     Loader.ErrorLoading "order_items";
     Loader.ErrorLoading "payments";
     Loader.TotalRowsLoaded 1;
     Loader.ErrorDuringEtl;
     Loader.ConnectionClosed].
Proof. repeat split; vm_compute; reflexivity. Qed.

Lemma zero_rows_hides_failures_witness :
  (exists w', Loader.load_csv_to_table "customers" "customers.csv"
                disk_without_customers = (Ok 0, w')) /\
  (exists w', Loader.load_csv_to_table "orders" "orders.csv" before_orders
              = (Ok 0, w')) /\
  (exists w', Loader.main sample_disk = (Ok tt, w')).
Proof.
  split; [|split].
  - apply (proj1 zero_rows_hides_failures). vm_compute. reflexivity.
  - eapply (proj1 (proj2 zero_rows_hides_failures) "orders" "orders.csv"
              before_orders before_orders_conn).
    + split; [|split]; vm_compute; reflexivity.
    + vm_compute. reflexivity.
    + reflexivity.
    + vm_compute. reflexivity.
  - apply (proj2 (proj2 (proj2 (proj2 zero_rows_hides_failures)))).
    left. reflexivity.
Defined.

End Runs.

(** * Further properties of the generator *)

(** One step through a draw whose value is of no concern. *)
Ltac wp_skip :=
  lazymatch goal with
  | |- wp (bind _ _) _ _ => apply wp_bind
  | |- wp (Gen.fk _) _ _ => apply wp_fk_any; intros ? ?; cbv beta
  | |- wp (Gen.py _) _ _ => apply wp_py_any; intros ? ?; cbv beta
  | |- wp (Gen.date_time_between _ _) _ _ =>
      apply wp_date_time_between; intros ? ? ?; cbv beta
  end.

Section GenMore.
Context {F R : Type} `{!PyFloat F} `{!PyRandom R F} `{!Faker R}.
Context `{!PyFloatLaws F} `{!PyRandomLaws R F}.

Local Abbreviation World := (@Gen.World F R).

Lemma wp_write_csv_content {A} (filename : string) (keys : list string)
    (values : A -> list (cell F)) (rows : list A) (w : World)
    (Q : unit -> World -> Prop) :
  rows <> [] ->
  Q tt (Gen.with_files (<[filename := csv_of keys values rows]> (Gen.files w)) w) ->
  wp (Gen.write_csv filename keys values rows) w Q.
Proof.
  intros Hne HQ. unfold Gen.write_csv. apply wp_bind, wp_modify.
  destruct rows as [|r rows]; [done|]. apply wp_modify. simpl.
  rewrite insert_insert_eq. exact HQ.
Qed.

Lemma generate_customers_full (cfg : Gen.Config) (w : World)
    (Q : list Customer.t -> World -> Prop) :
  1 <= Gen.NUM_CUSTOMERS cfg ->
  (forall cs w',
     Customer.customer_id <$> cs = range 1 (Gen.NUM_CUSTOMERS cfg + 1) ->
     Forall customer_ok cs ->
     Gen.heap w' = Gen.heap w ->
     Gen.files w' =
       <[Gen.path_join Gen.DATA_DIR "customers.csv" :=
           csv_of customer_keys customer_values cs]> (Gen.files w) ->
     Q cs w') ->
  wp (Gen.generate_customers cfg) w Q.
Proof.
  intros Hn HQ. unfold Gen.generate_customers. apply wp_bind.
  apply (wp_for_each
           (fun pre acc s => Customer.customer_id <$> acc = pre
                             /\ Forall customer_ok acc
                             /\ Gen.heap s = Gen.heap w
                             /\ Gen.files s = Gen.files w)).
  - repeat split; constructor.
  - intros pre x post acc s _ (Hids & Hok & Hheap & Hfiles).
    repeat wp_skip.
    apply wp_random_choice; [done|]. intros seg rc Hseg. apply wp_ret.
    split; [|split; [|split]]; [| |exact Hheap|exact Hfiles].
    + rewrite fmap_app, Hids. reflexivity.
    + apply Forall_app. split; [exact Hok|]. constructor; [|constructor].
      split; [reflexivity|exact Hseg].
  - intros cs s (Hids & Hok & Hheap & Hfiles). apply wp_bind.
    apply wp_write_csv_content.
    + eapply fmap_eq_nonempty; [exact Hids|]. apply range_nonempty. lia.
    + apply wp_ret. apply HQ; try assumption. simpl. by rewrite Hfiles.
Qed.

Lemma generate_products_full (cfg : Gen.Config) (w : World)
    (Q : list (Product.t F) -> World -> Prop) :
  1 <= Gen.NUM_PRODUCTS cfg ->
  (forall ps w',
     Product.product_id <$> ps = range 1 (Gen.NUM_PRODUCTS cfg + 1) ->
     Forall product_ok ps ->
     Gen.heap w' = Gen.heap w ->
     Gen.files w' =
       <[Gen.path_join Gen.DATA_DIR "products.csv" :=
           csv_of product_keys product_values ps]> (Gen.files w) ->
     Q ps w') ->
  wp (Gen.generate_products cfg) w Q.
Proof.
  intros Hn HQ. unfold Gen.generate_products. apply wp_bind.
  apply (wp_for_each
           (fun pre acc s => Product.product_id <$> acc = pre
                             /\ Forall product_ok acc
                             /\ Gen.heap s = Gen.heap w
                             /\ Gen.files s = Gen.files w)).
  - repeat split; constructor.
  - intros pre x post acc s _ (Hids & Hok & Hheap & Hfiles).
    apply wp_bind, wp_random_choice; [done|]. intros category rc Hcat.
    destruct (category_tables (F:=F) (R:=R) category Hcat)
      as (bounds & prefixes & h & Hb & Hp & Hne & Hh).
    apply wp_bind. unfold wp at 1. rewrite Hb.
    apply wp_bind. unfold wp at 1. rewrite Hp.
    apply wp_bind, wp_random_choice; [exact Hne|]. intros prefix rp _.
    apply wp_bind, wp_fk_any. intros word rw. cbv beta.
    rewrite Hh. apply wp_bind, wp_ret.
    apply wp_bind, wp_py_any. intros price r1. cbv beta.
    apply wp_bind, wp_py_any. intros cost r2. cbv beta.
    apply wp_bind, wp_randint; [lia|]. intros stock r3 Hstock. cbv beta.
    apply wp_bind, wp_fk_any. intros supplier r4. cbv beta.
    apply wp_bind, wp_date_time_between. intros created r5 n5. cbv beta.
    apply wp_bind, wp_uniform; [apply flit_le; lia|]. intros u r6 Hlo Hhi.
    cbv beta. apply wp_ret.
    split; [|split; [|split]]; [| |exact Hheap|exact Hfiles].
    + rewrite fmap_app, Hids. reflexivity.
    + apply Forall_app. split; [exact Hok|]. constructor; [|constructor].
      split; [exact Hcat|]. split; [exact Hstock|]. simpl. eauto.
  - intros ps s (Hids & Hok & Hheap & Hfiles). apply wp_bind.
    apply wp_write_csv_content.
    + eapply fmap_eq_nonempty; [exact Hids|]. apply range_nonempty. lia.
    + apply wp_ret. apply HQ; try assumption. simpl. by rewrite Hfiles.
Qed.


Lemma generate_orders_full (cfg : Gen.Config) (cs : list Customer.t) (w : World)
    (Q : nat -> World -> Prop) :
  1 <= Gen.NUM_ORDERS cfg -> cs <> [] ->
  (forall l os w',
     Gen.heap w' = <[l := os]> (Gen.heap w) ->
     Order.order_id <$> os = range 1 (Gen.NUM_ORDERS cfg + 1) ->
     Forall (fun o => Order.customer_id o ∈ Customer.customer_id <$> cs) os ->
     Forall dates_ok os ->
     Forall (fun o => Order.status o ∈ Gen.order_statuses
                      /\ Order.total_amount o = fzero) os ->
     Gen.files w' =
       <[Gen.path_join Gen.DATA_DIR "orders.csv" :=
           csv_of order_keys order_values os]> (Gen.files w) ->
     Q l w') ->
  wp (Gen.generate_orders cfg cs) w Q.
Proof.
  intros Hn Hcs HQ. unfold Gen.generate_orders. apply wp_bind.
  apply (wp_for_each
           (fun pre acc (s : World) =>
              Order.order_id <$> acc = pre
              /\ Forall (fun o => Order.customer_id o ∈ Customer.customer_id <$> cs) acc
              /\ Forall dates_ok acc
              /\ Forall (fun o => Order.status o ∈ Gen.order_statuses
                                  /\ Order.total_amount o = fzero) acc
              /\ Gen.heap s = Gen.heap w
              /\ Gen.files s = Gen.files w)).
  - repeat split; constructor.
  - intros pre x post acc s _ (Hids & Hcust & Hdates & Hst & Hheap & Hfiles).
    apply wp_bind, wp_random_choice; [exact Hcs|]. intros customer rc Hc.
    apply wp_bind, wp_date_time_between. intros order_date rd n. cbv beta.
    apply wp_bind, wp_randint; [lia|]. intros d1 r1 Hd1. cbv beta.
    apply wp_bind, wp_randint; [lia|]. intros d2 r2 Hd2. cbv beta.
    apply wp_bind, wp_random_choices0; [done|done|]. intros status rs Hstatus.
    repeat wp_skip. apply wp_ret.
    split; [|split; [|split; [|split; [|split]]]];
      [| | | |exact Hheap|exact Hfiles].
    + rewrite fmap_app, Hids. reflexivity.
    + apply Forall_app. split; [exact Hcust|]. constructor; [|constructor].
      simpl. apply list_elem_of_fmap. eauto.
    + apply Forall_app. split; [exact Hdates|]. constructor; [|constructor].
      apply new_order_dates_ok; assumption.
    + apply Forall_app. split; [exact Hst|]. constructor; [|constructor].
      split; [exact Hstatus|reflexivity].
  - intros os s (Hids & Hcust & Hdates & Hst & Hheap & Hfiles). apply wp_bind.
    apply wp_write_csv_content.
    + eapply fmap_eq_nonempty; [exact Hids|]. apply range_nonempty. lia.
    + apply wp_alloc. intros l.
      apply (HQ l os); try assumption; simpl.
      * by rewrite Hheap.
      * by rewrite Hfiles.
Qed.

Lemma generate_order_items_full (cfg : Gen.Config) (l : nat)
    (os : list (Order.t F)) (ps : list (Product.t F)) (w : World)
    (Q : list (OrderItem.t F) -> World -> Prop) :
  1 <= Gen.NUM_ORDER_ITEMS cfg -> os <> [] -> ps <> [] ->
  Gen.heap w !! l = Some os ->
  (forall items w',
     Gen.heap w' !! l = Some (with_total items <$> os) ->
     OrderItem.order_item_id <$> items = range 1 (Gen.NUM_ORDER_ITEMS cfg + 1) ->
     Forall (item_refs os ps) items ->
     Forall (item_priced ps) items ->
     Gen.files w' =
       <[Gen.path_join Gen.DATA_DIR "orders.csv" :=
           csv_of order_keys order_values (with_total items <$> os)]>
         (<[Gen.path_join Gen.DATA_DIR "order_items.csv" :=
              csv_of order_item_keys order_item_values items]> (Gen.files w)) ->
     Q items w') ->
  wp (Gen.generate_order_items cfg l ps) w Q.
Proof.
  intros Hn Hos Hps Hl HQ. unfold Gen.generate_order_items.
  apply wp_bind, (wp_deref l os); [exact Hl|].
  apply wp_bind.
  apply (wp_for_each
           (fun pre acc (s : World) =>
              Gen.heap s = Gen.heap w
              /\ Gen.files s = Gen.files w
              /\ OrderItem.order_item_id <$> Gen.acc_items acc
                  = seqZ 1 (Z.of_nat (length pre))
              /\ Gen.acc_item_id acc = 1 + Z.of_nat (length pre)
              /\ (forall k, k ∈ Order.order_id <$> os ->
                    Gen.acc_totals acc !! k = Some (sum_totals k (Gen.acc_items acc)))
              /\ Forall (item_refs os ps) (Gen.acc_items acc)
              /\ Forall (item_priced ps) (Gen.acc_items acc))).
  - simpl. repeat split; try constructor.
    intros k Hk. by apply zero_totals_lookup.
  - intros pre x post acc s _ (Hheap & Hfiles & Hids & Hnext & Htot & Hrefs & Hpr).
    apply wp_bind, wp_random_choice; [exact Hos|]. intros order ro Ho.
    apply wp_bind, wp_random_choice; [exact Hps|]. intros product rp Hp.
    apply wp_bind, wp_randint; [lia|]. intros quantity rq Hq. cbv beta.
    apply wp_bind, wp_uniform; [apply flit_le; lia|]. intros v rv Hv1 Hv2.
    cbv beta.
    apply wp_bind, wp_py_any. intros r rr. cbv beta.
    assert (Hk : Order.order_id order ∈ Order.order_id <$> os)
      by (apply list_elem_of_fmap; eauto).
    assert (Hend : forall (discount : F) (s' : World),
              Gen.heap s' = Gen.heap w -> Gen.files s' = Gen.files w ->
              (discount = fzero \/
               exists u : F,
                 fle (flit 5 2) u = true /\ fle u (flit 20 2) = true /\
                 discount =
                   round_nd
                     (fmul (round_nd (fmul (round_nd (fmul (Product.price product) v) 2)
                                        (of_int quantity)) 2) u) 2) ->
              wp (match Gen.acc_totals acc !! Order.order_id order with
                  | Some t =>
                      ret (Gen.mkItemsAcc
                             (Gen.acc_items acc ++
                              [OrderItem.mk (Gen.acc_item_id acc) (Order.order_id order)
                                 (Product.product_id product) quantity
                                 (round_nd (fmul (Product.price product) v) 2)
                                 discount
                                 (round_nd
                                    (fsub (round_nd
                                             (fmul (round_nd (fmul (Product.price product) v) 2)
                                                (of_int quantity)) 2) discount) 2)])
                             (<[Order.order_id order :=
                                  fadd t
                                    (round_nd
                                       (fsub (round_nd
                                                (fmul (round_nd (fmul (Product.price product) v) 2)
                                                   (of_int quantity)) 2) discount) 2)]>
                                (Gen.acc_totals acc))
                             (Gen.acc_item_id acc + 1))
                  | None => raise KeyError
                  end) s'
                (fun acc' s'' =>
                   Gen.heap s'' = Gen.heap w
                   /\ Gen.files s'' = Gen.files w
                   /\ OrderItem.order_item_id <$> Gen.acc_items acc'
                       = seqZ 1 (Z.of_nat (length (pre ++ [x])))
                   /\ Gen.acc_item_id acc' = 1 + Z.of_nat (length (pre ++ [x]))
                   /\ (forall k, k ∈ Order.order_id <$> os ->
                         Gen.acc_totals acc' !! k
                         = Some (sum_totals k (Gen.acc_items acc')))
                   /\ Forall (item_refs os ps) (Gen.acc_items acc')
                   /\ Forall (item_priced ps) (Gen.acc_items acc'))).
    { intros discount s' Hh Hf Hdisc. rewrite (Htot _ Hk). apply wp_ret. simpl.
      split; [exact Hh|]. split; [exact Hf|].
      rewrite length_app. simpl. rewrite Nat.add_1_r.
      split; [|split; [|split; [|split]]].
      - rewrite fmap_app, Hids, seqZ_S, Hnext. reflexivity.
      - rewrite Hnext. lia.
      - intros k Hin.
        destruct (decide (Order.order_id order = k)) as [<-|Hne].
        + rewrite lookup_insert_eq.
          match goal with
          | |- _ = Some (sum_totals _ (_ ++ [?it])) =>
              rewrite (sum_totals_snoc_same _ it)
          end. reflexivity.
        + rewrite lookup_insert_ne by exact Hne.
          rewrite sum_totals_snoc_other by exact Hne. by apply Htot.
      - apply Forall_app. split; [exact Hrefs|].
        constructor; [|constructor]. split; simpl;
          [exact Hk | apply list_elem_of_fmap; eauto].
      - apply Forall_app. split; [exact Hpr|].
        constructor; [|constructor]. unfold item_priced. simpl.
        split; [exact Hq|]. split; [|split; [exact Hdisc|reflexivity]].
        exists product, v. done. }
    apply wp_bind.
    destruct (flt r (flit 2 1)).
    + apply wp_bind, wp_uniform; [apply flit_le; lia|]. intros u ru Hu1 Hu2.
      cbv beta. apply wp_ret. apply Hend; [exact Hheap|exact Hfiles|].
      right. exists u. done.
    + apply wp_ret. apply Hend; [exact Hheap|exact Hfiles|]. by left.
  - intros acc s (Hheap & Hfiles & Hids & Hnext & Htot & Hrefs & Hpr).
    assert (Hcount : Z.of_nat (length (range 0 (Gen.NUM_ORDER_ITEMS cfg)))
                     = Gen.NUM_ORDER_ITEMS cfg).
    { unfold range. rewrite length_seqZ. lia. }
    assert (Hitems : Gen.acc_items acc <> []).
    { intros Hnil. rewrite Hnil, Hcount in Hids.
      apply (f_equal length) in Hids. rewrite length_seqZ in Hids.
      simpl in Hids. lia. }
    apply wp_bind, wp_write_csv_content; [exact Hitems|].
    apply wp_bind.
    apply (wp_for_each
             (fun pre (_ : unit) (s' : World) =>
                Gen.files s' =
                  <[Gen.path_join Gen.DATA_DIR "order_items.csv" :=
                      csv_of order_item_keys order_item_values (Gen.acc_items acc)]>
                    (Gen.files w)
                /\ Gen.heap s' !! l =
                   Some ((with_total (Gen.acc_items acc) <$> pre.*2)
                           ++ drop (length pre) os))).
    + simpl. split; [by rewrite Hfiles|].
      rewrite drop_0, <- Hl. f_equal. exact Hheap.
    + intros pre x post [] s' Hsplit [Hf Hinv].
      apply imap_pair_split in Hsplit as (Hi & Hx & Htake).
      assert (Hk : Order.order_id x.2 ∈ Order.order_id <$> os).
      { apply list_elem_of_fmap. eexists; split; [done|].
        eapply list_elem_of_lookup_2; eauto. }
      rewrite (Htot _ Hk). apply wp_update_at. simpl.
      split; [exact Hf|].
      rewrite lookup_alter_eq, Hinv. simpl. f_equal.
      rewrite Hi.
      rewrite <- (Nat.add_0_r (length pre)) at 1.
      rewrite <- (length_fmap snd pre) at 1.
      rewrite <- (length_fmap (with_total (Gen.acc_items acc)) pre.*2) at 1.
      rewrite alter_app_r.
      rewrite (drop_S os x.2 (length pre) Hx). simpl.
      rewrite !fmap_app, <- app_assoc, length_app. simpl.
      rewrite Nat.add_1_r. reflexivity.
    + intros [] s' [Hf Hfin].
      assert (Hall : (imap (fun i o => (i, o)) os).*2 = os).
      { rewrite fmap_imap. rewrite (imap_ext _ (const id)); [|done].
        rewrite imap_const. apply list_fmap_id. }
      rewrite Hall, length_imap, drop_all, app_nil_r in Hfin.
      apply wp_bind, (wp_deref l _ _ _ Hfin).
      apply wp_bind, wp_write_csv_content.
      * intros Hnil. apply fmap_nil_inv in Hnil. done.
      * apply wp_ret. apply HQ; try assumption.
        -- rewrite Hids, Hcount. unfold range. f_equal. lia.
        -- simpl. by rewrite Hf.
Qed.


Lemma payment_date_minutes (order_date m : Z) :
  strftime (strptime order_date + timedelta_minutes m) = order_date + 60 * m.
Proof.
  unfold strftime, strptime, timedelta_minutes.
  replace (order_date * 1000000 + m * 60 * 1000000)
    with ((order_date + 60 * m) * 1000000) by lia.
  apply Z.div_mul. lia.
Qed.

Lemma generate_payments_full (l : nat) (os : list (Order.t F)) (w : World)
    (Q : list (Payment.t F) -> World -> Prop) :
  os <> [] ->
  Gen.heap w !! l = Some os ->
  (forall pays_ w',
     Forall2 pays os pays_ ->
     Forall2 payment_ok os pays_ ->
     Payment.payment_id <$> pays_ = range 1 (Z.of_nat (length os) + 1) ->
     Gen.heap w' = Gen.heap w ->
     Gen.files w' =
       <[Gen.path_join Gen.DATA_DIR "payments.csv" :=
           csv_of payment_keys payment_values pays_]> (Gen.files w) ->
     Q pays_ w') ->
  wp (Gen.generate_payments l) w Q.
Proof.
  intros Hos Hl HQ. unfold Gen.generate_payments.
  apply wp_bind, (wp_deref l os); [exact Hl|].
  apply wp_bind.
  apply (wp_for_each
           (fun pre acc (s : World) =>
              Gen.heap s = Gen.heap w /\ Gen.files s = Gen.files w
              /\ Forall2 pays pre.*2 acc
              /\ Forall2 payment_ok pre.*2 acc
              /\ Payment.payment_id <$> acc = pre.*1)).
  - repeat split; constructor.
  - intros pre x post acc s _ (Hheap & Hfiles & Hpays & Hok & Hids).
    apply wp_bind, wp_randint; [lia|]. intros m rm Hm. cbv beta.
    apply wp_bind, wp_random_choices0; [done|done|]. intros status rs Hstatus.
    apply wp_bind, wp_uniform; [apply flit_le; lia|]. intros u ru Hlo Hhi.
    cbv beta.
    apply wp_bind, wp_random_choice; [done|]. intros method rc Hmethod.
    repeat wp_skip. apply wp_ret.
    split; [exact Hheap|]. split; [exact Hfiles|].
    rewrite !fmap_app. split; [|split].
    + apply Forall2_app; [exact Hpays|]. constructor; [|constructor].
      unfold pays. simpl. split; [done|]. split; [done|]. eauto.
    + apply Forall2_app; [exact Hok|]. constructor; [|constructor].
      unfold payment_ok. simpl. split; [|done].
      exists m. split; [exact Hm|]. apply payment_date_minutes.
    + rewrite Hids. reflexivity.
  - intros pays_ s (Hheap & Hfiles & Hpays & Hok & Hids).
    assert (Hsnd : (enumerate 1 os).*2 = os).
    { unfold enumerate. apply snd_zip. rewrite length_seqZ. lia. }
    assert (Hfst : (enumerate 1 os).*1 = range 1 (Z.of_nat (length os) + 1)).
    { unfold enumerate, range. rewrite fst_zip.
      - f_equal. lia.
      - rewrite length_seqZ. lia. }
    rewrite Hsnd in Hpays, Hok. rewrite Hfst in Hids.
    apply wp_bind, wp_write_csv_content.
    + intros ->. apply Forall2_nil_inv_r in Hpays. done.
    + apply wp_ret. apply HQ; try assumption. simpl. by rewrite Hfiles.
Qed.

Lemma wp_module_init_frame (w : World) (Q : Gen.Config -> World -> Prop) :
  (forall cfg w',
     100 <= Gen.NUM_CUSTOMERS cfg <= 300 ->
     100 <= Gen.NUM_PRODUCTS cfg <= 300 ->
     100 <= Gen.NUM_ORDERS cfg <= 300 ->
     150 <= Gen.NUM_ORDER_ITEMS cfg <= 300 ->
     Gen.files w' = Gen.files w ->
     Q cfg w') ->
  wp Gen.module_init w Q.
Proof.
  intros HQ. unfold Gen.module_init.
  apply wp_bind, wp_modify. apply wp_bind, wp_modify.
  apply wp_bind, wp_randint; [lia|]. intros nc r1 H1. cbv beta.
  apply wp_bind, wp_randint; [lia|]. intros np r2 H2. cbv beta.
  apply wp_bind, wp_randint; [lia|]. intros no r3 H3. cbv beta.
  apply wp_bind, wp_randint; [lia|]. intros ni r4 H4. cbv beta.
  apply wp_ret, HQ; try assumption. reflexivity.
Qed.

Lemma with_total_payment_ok (items : list (OrderItem.t F)) (o : Order.t F)
    (p : Payment.t F) :
  payment_ok (with_total items o) p <-> payment_ok o p.
Proof. reflexivity. Qed.

Lemma run_full (w : World) :
  wp Gen.run w
    (fun d w' => generated d /\ generated_more d (Gen.files w) (Gen.files w')).
Proof.
  unfold Gen.run. apply wp_bind, wp_module_init_frame.
  intros cfg w1 Hnc Hnp Hno Hni Hf1. unfold Gen.main.
  apply wp_bind, generate_customers_full; [lia|]. intros cs w2 Hcs Hcok _ Hf2.
  apply wp_bind, generate_products_full; [lia|]. intros ps w3 Hps Hpok _ Hf3.
  assert (Hcs_ne : cs <> []).
  { eapply fmap_eq_nonempty; [exact Hcs|]. apply range_nonempty. lia. }
  assert (Hps_ne : ps <> []).
  { eapply fmap_eq_nonempty; [exact Hps|]. apply range_nonempty. lia. }
  apply wp_bind, generate_orders_full; [lia|exact Hcs_ne|].
  intros l os w4 Hheap4 Hos Hcust Hdates Hst Hf4.
  assert (Hl : Gen.heap w4 !! l = Some os) by (rewrite Hheap4; apply lookup_insert_eq).
  assert (Hos_ne : os <> []).
  { eapply fmap_eq_nonempty; [exact Hos|]. apply range_nonempty. lia. }
  apply wp_bind, (generate_order_items_full cfg l os); [lia|done|done|done|].
  intros items w5 Hl5 Hiids Hrefs Hpriced Hf5.
  apply wp_bind, (generate_payments_full l (with_total items <$> os)).
  { intros Hnil. apply fmap_nil_inv in Hnil. done. }
  { exact Hl5. }
  intros pays_ w6 Hpays Hpok6 Hpids Hheap Hf6.
  apply wp_bind, (wp_deref l (with_total items <$> os)).
  { rewrite Hheap. exact Hl5. }
  apply wp_ret. split; constructor; simpl.
  - eauto.
  - eauto.
  - exists (Gen.NUM_ORDERS cfg). split; [done|]. by rewrite with_total_ids.
  - apply Forall_fmap. exact Hcust.
  - apply Forall_fmap. eapply Forall_impl; [exact Hdates|].
    intros o Ho. by apply with_total_dates_ok.
  - apply Forall_fmap. apply Forall_forall. intros o _. reflexivity.
  - eapply Forall_impl; [exact Hrefs|]. intros it [Ho Hp]. split; [|exact Hp].
    by rewrite with_total_ids.
  - exact Hpays.
  - exact Hcok.
  - exact Hpok.
  - apply Forall_fmap. eapply Forall_impl; [exact Hst|]. intros o [Ho _]. exact Ho.
  - eauto.
  - exact Hpriced.
  - exact Hpids.
  - exact Hpok6.
  - unfold files_of. simpl.
    rewrite Hf6, Hf5, Hf4, Hf3, Hf2, Hf1. f_equal.
    rewrite (insert_insert_ne _ (Gen.path_join Gen.DATA_DIR "order_items.csv")
               (Gen.path_join Gen.DATA_DIR "orders.csv")) by done.
    rewrite insert_insert_eq. reflexivity.
Qed.

Lemma run_returns_more (w : World) :
  exists d w', Gen.run w = (Ok d, w') /\ generated d /\
               generated_more d (Gen.files w) (Gen.files w').
Proof. apply wp_elim, run_full. Qed.


Lemma ids_length {A} (f : A -> Z) (l : list A) (n : Z) :
  0 <= n -> f <$> l = range 1 (n + 1) -> Z.of_nat (length l) = n.
Proof.
  intros Hn Hids. apply (f_equal length) in Hids.
  rewrite length_fmap in Hids. unfold range in Hids.
  rewrite length_seqZ in Hids. lia.
Qed.

(** X1: after a run the five CSV files hold exactly the returned records,
    a header and one row per record in order; [orders.csv], written a
    second time after the order items, holds the orders with their final
    totals; no other file is touched. *)
Theorem csv_files_hold_the_records (w : World) :
  exists d w', Gen.run w = (Ok d, w') /\
    Gen.files w' = files_of d (Gen.files w) /\
    Gen.files w' !! Gen.path_join Gen.DATA_DIR "orders.csv"
      = Some (csv_of order_keys order_values (Gen.orders d)) /\
    forall name,
      name ∉ (Gen.path_join Gen.DATA_DIR <$> Step1.csv_files) ->
      Gen.files w' !! name = Gen.files w !! name.
Proof.
  destruct (run_returns_more w) as (d & w' & Hrun & _ & Hmore).
  exists d, w'. split; [exact Hrun|].
  pose proof (more_files _ _ _ Hmore) as Hfiles.
  split; [exact Hfiles|]. rewrite Hfiles. unfold files_of. split.
  - rewrite lookup_insert_ne by done. apply lookup_insert_eq.
  - intros name Hname. unfold Step1.csv_files in Hname.
    rewrite !fmap_cons in Hname.
    repeat (apply not_elem_of_cons in Hname as [? Hname]).
    by rewrite !lookup_insert_ne.
Qed.

(** X2: after a run the order items are numbered 1..n with n between 150
    and 300, and each one is priced from its product: quantity in 1..10,
    unit price the product's price times a draw in 0.95..1.05 rounded to
    cents, discount either 0.0 or the rounded subtotal times a draw in
    0.05..0.20, total the rounded difference. *)
Theorem order_items_are_priced (w : World) :
  exists d w', Gen.run w = (Ok d, w') /\
    (exists n, 150 <= n <= 300 /\
       OrderItem.order_item_id <$> Gen.order_items d = range 1 (n + 1)) /\
    Forall (item_priced (Gen.products d)) (Gen.order_items d).
Proof.
  destruct (run_returns_more w) as (d & w' & Hrun & _ & Hmore).
  exists d, w'. split; [exact Hrun|].
  split; [exact (more_item_ids _ _ _ Hmore) | exact (more_items _ _ _ Hmore)].
Qed.

(** X3: after a run the payments are numbered 1..n in the order of the
    orders, each dated a whole number of minutes, 0 to 30, after its
    order's [order_date], with a method and a status of the fixed lists. *)
Theorem payments_follow_their_orders (w : World) :
  exists d w', Gen.run w = (Ok d, w') /\
    Payment.payment_id <$> Gen.payments d
      = range 1 (Z.of_nat (length (Gen.orders d)) + 1) /\
    Forall2 payment_ok (Gen.orders d) (Gen.payments d).
Proof.
  destruct (run_returns_more w) as (d & w' & Hrun & _ & Hmore).
  exists d, w'. split; [exact Hrun|].
  split; [exact (more_payment_ids _ _ _ Hmore) | exact (more_payments _ _ _ Hmore)].
Qed.

(** X4: after a run every customer has country USA and one of the four
    segments, every product a category of the price table, a stock in
    0..500 and a rating drawn in 3.0..5.0 and rounded to one decimal, and
    every order one of the five statuses. *)
Theorem enumerated_fields_in_range (w : World) :
  exists d w', Gen.run w = (Ok d, w') /\
    Forall customer_ok (Gen.customers d) /\
    Forall product_ok (Gen.products d) /\
    Forall (fun o => Order.status o ∈ Gen.order_statuses) (Gen.orders d).
Proof.
  destruct (run_returns_more w) as (d & w' & Hrun & _ & Hmore).
  exists d, w'. split; [exact Hrun|].
  split; [exact (more_customers _ _ _ Hmore)|].
  split; [exact (more_products _ _ _ Hmore) | exact (more_statuses _ _ _ Hmore)].
Qed.

(** X5: after a run there are between 100 and 300 customers, products and
    orders and between 150 and 300 order items, as many payments as orders,
    and the products and the orders are numbered from 1 in order. *)
Theorem record_counts (w : World) :
  exists d w', Gen.run w = (Ok d, w') /\
    100 <= Z.of_nat (length (Gen.customers d)) <= 300 /\
    100 <= Z.of_nat (length (Gen.products d)) <= 300 /\
    100 <= Z.of_nat (length (Gen.orders d)) <= 300 /\
    150 <= Z.of_nat (length (Gen.order_items d)) <= 300 /\
    length (Gen.payments d) = length (Gen.orders d) /\
    Product.product_id <$> Gen.products d
      = range 1 (Z.of_nat (length (Gen.products d)) + 1) /\
    Order.order_id <$> Gen.orders d
      = range 1 (Z.of_nat (length (Gen.orders d)) + 1).
Proof.
  destruct (run_returns_more w) as (d & w' & Hrun & Hg & Hmore).
  exists d, w'. split; [exact Hrun|].
  destruct (gen_customer_ids d Hg) as (nc & Hnc & Hc).
  destruct (gen_product_ids d Hg) as (np & Hnp & Hp).
  destruct (gen_order_ids d Hg) as (no & Hno & Ho).
  destruct (more_item_ids _ _ _ Hmore) as (ni & Hni & Hi).
  rewrite (ids_length _ _ nc ltac:(lia) Hc), (ids_length _ _ np ltac:(lia) Hp),
    (ids_length _ _ no ltac:(lia) Ho), (ids_length _ _ ni ltac:(lia) Hi).
  repeat split; try lia; try assumption.
  symmetry. eapply Forall2_length. exact (gen_payments d Hg).
Qed.

Lemma check_files_all_there (names : list string) (w : World) :
  Forall (fun n => is_Some (Gen.files w !! Gen.path_join Step1.DATA_DIR n)) names ->
  Step1.check_files names w = (Ok true, w).
Proof.
  induction 1 as [|n names Hn _ IH]; [reflexivity|].
  cbn [Step1.check_files].
  rewrite (bind_ok get _ w w w eq_refl).
  rewrite bool_decide_eq_true_2 by exact Hn. exact IH.
Qed.

(** X6: step 1 of the pipeline always succeeds: the generator returns and
    its five files are there when the step looks for them. *)
Theorem step_1_always_succeeds (w : World) :
  exists w', Step1.step_1_generate_data w = (Ok true, w').
Proof.
  destruct (run_returns_more w) as (d & w' & Hrun & _ & Hmore).
  exists w'. unfold Step1.step_1_generate_data, Step1.try_except.
  rewrite (bind_ok _ _ _ _ _ Hrun).
  rewrite check_files_all_there; [reflexivity|].
  rewrite (more_files _ _ _ Hmore). unfold files_of, Step1.csv_files.
  repeat constructor;
    rewrite ?lookup_insert_ne by done; rewrite lookup_insert_eq; eauto.
Qed.

End GenMore.

(** ** The generator's functions on inputs the run never gives them *)

Section GenEdges.
Context {F R : Type} `{!PyFloat F} `{!PyRandom R F} `{!Faker R}.

Local Abbreviation World := (@Gen.World F R).

Lemma write_csv_empty {A} (filename : string) (keys : list string)
    (values : A -> list (cell F)) (w : World) :
  Gen.write_csv filename keys values [] w
  = (Raise IndexError, Gen.with_files (<[filename := []]> (Gen.files w)) w).
Proof. reflexivity. Qed.

(** X7: called before any customer exists, [generate_orders] raises
    [IndexError] for every configuration and allocates no order list; when
    at least one order is asked for it fails at the first draw, before
    anything is written. *)
Theorem generate_orders_needs_customers (cfg : Gen.Config) (w : World) :
  exists w', Gen.generate_orders cfg [] w = (Raise IndexError, w') /\
             Gen.heap w' = Gen.heap w /\
             (1 <= Gen.NUM_ORDERS cfg -> w' = w).
Proof.
  unfold Gen.generate_orders.
  destruct (decide (1 <= Gen.NUM_ORDERS cfg)) as [Hn|Hn].
  - exists w. split; [|done]. apply bind_raise.
    unfold range. rewrite seqZ_cons by lia. cbn [for_each].
    apply bind_raise, bind_raise. reflexivity.
  - eexists. split; [|split; [|lia]].
    + erewrite bind_ok.
      * apply bind_raise. apply write_csv_empty.
      * unfold range. rewrite seqZ_nil by lia. reflexivity.
    + reflexivity.
Qed.

Lemma random_choice_outcome {A} (seq : list A) (w : World) :
  exists r, (Gen.random_choice seq w).2 = Gen.with_py r w \/
            (Gen.random_choice seq w).2 = w.
Proof.
  destruct seq as [|x seq]; [exists (Gen.py_rng w); by right|].
  unfold Gen.random_choice, bind, Gen.py. simpl.
  match goal with
  | |- context [match ?x with Some _ => _ | None => _ end] => destruct x
  end; eexists; left; reflexivity.
Qed.

(** X8: called with an empty product list, [generate_order_items] raises
    [IndexError] for every configuration and leaves the orders as they
    were: no total is recomputed. *)
Theorem generate_order_items_needs_products (cfg : Gen.Config) (l : nat)
    (os : list (Order.t F)) (w : World) :
  Gen.heap w !! l = Some os ->
  exists w', Gen.generate_order_items cfg l [] w = (Raise IndexError, w') /\
             Gen.heap w' = Gen.heap w.
Proof.
  intros Hl. unfold Gen.generate_order_items.
  assert (Hd : Gen.deref l w = (Ok os, w)).
  { unfold Gen.deref. by rewrite Hl. }
  rewrite (bind_ok _ _ _ _ _ Hd).
  destruct (decide (1 <= Gen.NUM_ORDER_ITEMS cfg)) as [Hn|Hn].
  - unfold range. rewrite seqZ_cons by lia. cbn [for_each].
    destruct (Gen.random_choice os w) as [[order|e] w1] eqn:Hc.
    + assert (Hw1 : Gen.heap w1 = Gen.heap w).
      { destruct (random_choice_outcome os w) as [r [Hr|Hr]];
          rewrite Hc in Hr; simpl in Hr; by subst. }
      exists w1. split; [|exact Hw1].
      apply bind_raise, bind_raise.
      rewrite (bind_ok _ _ _ _ _ Hc). apply bind_raise. reflexivity.
    + assert (Hw1 : Gen.heap w1 = Gen.heap w).
      { destruct (random_choice_outcome os w) as [r [Hr|Hr]];
          rewrite Hc in Hr; simpl in Hr; by subst. }
      assert (He : e = IndexError).
      { revert Hc. unfold Gen.random_choice, raise, ret, bind, Gen.py.
        destruct os; simpl; [by intros [= <- _]|].
        match goal with
        | |- context [match ?x with Some _ => _ | None => _ end] => destruct x
        end; [intros [=]|]. by intros [= <- _]. }
      subst e. exists w1. split; [|exact Hw1].
      apply bind_raise, bind_raise. by apply bind_raise.
  - match goal with
    | |- context [for_each (range 0 ?n) ?a ?b] =>
        assert (Hloop : for_each (range 0 n) a b w = (Ok a, w))
          by (unfold range; rewrite seqZ_nil by lia; reflexivity)
    end.
    rewrite (bind_ok _ _ _ _ _ Hloop). cbv beta zeta. simpl Gen.acc_items.
    eexists. split; [apply bind_raise, write_csv_empty | reflexivity].
Qed.

(** X9: called on an empty order list, [generate_payments] raises
    [IndexError] on the header of the file it has just opened: an empty
    [payments.csv] is left behind and nothing else changes. *)
Theorem generate_payments_needs_orders (l : nat) (w : World) :
  Gen.heap w !! l = Some [] ->
  Gen.generate_payments l w
  = (Raise IndexError,
     Gen.with_files
       (<[Gen.path_join Gen.DATA_DIR "payments.csv" := []]> (Gen.files w)) w).
Proof.
  intros Hl. unfold Gen.generate_payments.
  assert (Hd : Gen.deref l w = (Ok [], w)).
  { unfold Gen.deref. by rewrite Hl. }
  rewrite (bind_ok _ _ _ _ _ Hd). reflexivity.
Qed.

End GenEdges.

(** * Two runs side by side *)

Lemma wp2_ret {S A} (a1 a2 : A) (s1 s2 : S) (Q : A -> S -> A -> S -> Prop) :
  Q a1 s1 a2 s2 -> wp2 (ret a1) (ret a2) s1 s2 Q.
Proof. auto. Qed.

Lemma wp2_raise {S A} (e1 e2 : exn) (s1 s2 : S) (Q : A -> S -> A -> S -> Prop) :
  wp2 (raise e1) (raise e2) s1 s2 Q.
Proof. exact I. Qed.

Lemma wp2_bind {S A B} (m1 m2 : M S A) (k1 k2 : A -> M S B) (s1 s2 : S)
    (Q : B -> S -> B -> S -> Prop) :
  wp2 m1 m2 s1 s2 (fun a1 t1 a2 t2 => wp2 (k1 a1) (k2 a2) t1 t2 Q) ->
  wp2 (bind m1 k1) (bind m2 k2) s1 s2 Q.
Proof.
  unfold wp2, bind.
  destruct (m1 s1) as [[a1|e1] t1], (m2 s2) as [[a2|e2] t2];
    intros H; try exact H; destruct H.
Qed.

Lemma wp2_mono {S A} (m1 m2 : M S A) (s1 s2 : S)
    (Q Q' : A -> S -> A -> S -> Prop) :
  wp2 m1 m2 s1 s2 Q ->
  (forall a1 t1 a2 t2, Q a1 t1 a2 t2 -> Q' a1 t1 a2 t2) ->
  wp2 m1 m2 s1 s2 Q'.
Proof.
  unfold wp2.
  destruct (m1 s1) as [[a1|e1] t1], (m2 s2) as [[a2|e2] t2]; auto.
Qed.

Lemma wp2_modify {S} (f1 f2 : S -> S) (s1 s2 : S)
    (Q : unit -> S -> unit -> S -> Prop) :
  Q tt (f1 s1) tt (f2 s2) -> wp2 (modify f1) (modify f2) s1 s2 Q.
Proof. auto. Qed.

(** When both runs return, what [wp2] promises holds of their results. *)
Lemma wp2_elim {S A} (m1 m2 : M S A) (s1 s2 t1 t2 : S) (a1 a2 : A)
    (Q : A -> S -> A -> S -> Prop) :
  wp2 m1 m2 s1 s2 Q -> m1 s1 = (Ok a1, t1) -> m2 s2 = (Ok a2, t2) ->
  Q a1 t1 a2 t2.
Proof. unfold wp2. intros H H1 H2. rewrite H1, H2 in H. exact H. Qed.

(** Two loops in step: [Inv] relates what each has processed, its
    loop-carried locals and its state. *)
Lemma wp2_for_each_from {S A B} (RX : A -> A -> Prop)
    (Inv : list A -> B -> S -> list A -> B -> S -> Prop)
    (body1 body2 : A -> B -> M S B) (todo1 todo2 : list A) :
  Forall2 RX todo1 todo2 ->
  (forall pre1 x1 b1 t1 pre2 x2 b2 t2,
     RX x1 x2 -> Inv pre1 b1 t1 pre2 b2 t2 ->
     wp2 (body1 x1 b1) (body2 x2 b2) t1 t2
       (fun b1' t1' b2' t2' => Inv (pre1 ++ [x1]) b1' t1' (pre2 ++ [x2]) b2' t2')) ->
  forall done1 done2 b1 b2 s1 s2,
    Inv done1 b1 s1 done2 b2 s2 ->
    wp2 (for_each todo1 b1 body1) (for_each todo2 b2 body2) s1 s2
      (fun b1' t1 b2' t2 => Inv (done1 ++ todo1) b1' t1 (done2 ++ todo2) b2' t2).
Proof.
  intros Hxs Hbody. induction Hxs as [|x1 x2 todo1 todo2 Hx _ IH];
    intros done1 done2 b1 b2 s1 s2 Hinv.
  - rewrite !app_nil_r. apply wp2_ret. exact Hinv.
  - cbn [for_each]. apply wp2_bind.
    eapply wp2_mono; [apply (Hbody done1 x1 b1 s1 done2 x2 b2 s2 Hx Hinv)|].
    intros b1' t1 b2' t2 Hinv'. cbv beta.
    replace (done1 ++ x1 :: todo1) with ((done1 ++ [x1]) ++ todo1)
      by (by rewrite <- app_assoc).
    replace (done2 ++ x2 :: todo2) with ((done2 ++ [x2]) ++ todo2)
      by (by rewrite <- app_assoc).
    apply IH. exact Hinv'.
Qed.

Lemma wp2_for_each {S A B} (RX : A -> A -> Prop)
    (Inv : list A -> B -> S -> list A -> B -> S -> Prop)
    (body1 body2 : A -> B -> M S B) (xs1 xs2 : list A) (b1 b2 : B)
    (s1 s2 : S) (Q : B -> S -> B -> S -> Prop) :
  Forall2 RX xs1 xs2 ->
  Inv [] b1 s1 [] b2 s2 ->
  (forall pre1 x1 b1 t1 pre2 x2 b2 t2,
     RX x1 x2 -> Inv pre1 b1 t1 pre2 b2 t2 ->
     wp2 (body1 x1 b1) (body2 x2 b2) t1 t2
       (fun b1' t1' b2' t2' => Inv (pre1 ++ [x1]) b1' t1' (pre2 ++ [x2]) b2' t2')) ->
  (forall b1' t1 b2' t2, Inv xs1 b1' t1 xs2 b2' t2 -> Q b1' t1 b2' t2) ->
  wp2 (for_each xs1 b1 body1) (for_each xs2 b2 body2) s1 s2 Q.
Proof.
  intros Hxs H0 Hbody HQ. eapply wp2_mono; [|exact HQ].
  exact (wp2_for_each_from RX Inv body1 body2 xs1 xs2 Hxs Hbody [] [] b1 b2 s1 s2 H0).
Qed.

(** The same list walked by both. *)
Lemma wp2_for_each_same {S A B} (Inv : B -> S -> B -> S -> Prop)
    (body1 body2 : A -> B -> M S B) (xs : list A) (b1 b2 : B)
    (s1 s2 : S) (Q : B -> S -> B -> S -> Prop) :
  Inv b1 s1 b2 s2 ->
  (forall x b1 t1 b2 t2, Inv b1 t1 b2 t2 ->
     wp2 (body1 x b1) (body2 x b2) t1 t2 Inv) ->
  (forall b1' t1 b2' t2, Inv b1' t1 b2' t2 -> Q b1' t1 b2' t2) ->
  wp2 (for_each xs b1 body1) (for_each xs b2 body2) s1 s2 Q.
Proof.
  intros H0 Hbody HQ.
  apply (wp2_for_each eq (fun _ b1 t1 _ b2 t2 => Inv b1 t1 b2 t2)); auto.
  - by apply list_eq_Forall2.
  - intros _ x1 c1 t1 _ x2 c2 t2 <- Hinv. by apply Hbody.
Qed.

Lemma keep_eq (b : bool) (s1 s2 : string) :
  (b = true -> s1 = s2) -> keep b s1 = keep b s2.
Proof. destruct b; simpl; auto. Qed.

Section SideBySide.
Context {F R : Type} `{!PyFloat F} `{!PyRandom R F} `{!Faker R}.

Local Abbreviation World := (@Gen.World F R).

Variable b : bool.
Hypothesis steady : b = true -> date_draw_steady.

Lemma alike_with_py (r : R) (w1 w2 : World) :
  alike b w1 w2 -> alike b (Gen.with_py r w1) (Gen.with_py r w2).
Proof. intros (_ & Hfk & Hheap). by split. Qed.

Lemma alike_with_files (fs1 fs2 : gmap string (csv F)) (w1 w2 : World) :
  alike b w1 w2 -> alike b (Gen.with_files fs1 w1) (Gen.with_files fs2 w2).
Proof. intros (Hpy & Hfk & Hheap). by split. Qed.

Lemma wp2_py {A} (f : R -> A * R) (w1 w2 : World)
    (Q : A -> World -> A -> World -> Prop) :
  alike b w1 w2 ->
  (forall a r, alike b (Gen.with_py r w1) (Gen.with_py r w2) ->
     Q a (Gen.with_py r w1) a (Gen.with_py r w2)) ->
  wp2 (Gen.py f) (Gen.py f) w1 w2 Q.
Proof.
  intros Hw HQ. unfold wp2, Gen.py. destruct Hw as (Hpy & Hfk & Hheap).
  rewrite <- Hpy. apply HQ. by split.
Qed.

Lemma wp2_fk {A} (f : R -> A * R) (w1 w2 : World)
    (Q : A -> World -> A -> World -> Prop) :
  alike b w1 w2 ->
  (forall a1 a2 r1 r2, (b = true -> a1 = a2) ->
     alike b (Gen.with_fk r1 w1) (Gen.with_fk r2 w2) ->
     Q a1 (Gen.with_fk r1 w1) a2 (Gen.with_fk r2 w2)) ->
  wp2 (Gen.fk f) (Gen.fk f) w1 w2 Q.
Proof.
  intros (Hpy & Hfk & Hheap) HQ. unfold wp2, Gen.fk. apply HQ.
  - intros Hb. by rewrite (Hfk Hb).
  - split; [exact Hpy|]. split; [|exact Hheap].
    intros Hb. simpl. by rewrite (Hfk Hb).
Qed.

Lemma wp2_date_time_between (start_date end_date : string) (w1 w2 : World)
    (Q : datetime -> World -> datetime -> World -> Prop) :
  alike b w1 w2 ->
  (forall d1 d2 r1 r2 n1 n2,
     alike b (Gen.with_fk r1 (Gen.with_ticks n1 w1))
             (Gen.with_fk r2 (Gen.with_ticks n2 w2)) ->
     Q d1 (Gen.with_fk r1 (Gen.with_ticks n1 w1))
       d2 (Gen.with_fk r2 (Gen.with_ticks n2 w2))) ->
  wp2 (Gen.date_time_between start_date end_date)
      (Gen.date_time_between start_date end_date) w1 w2 Q.
Proof.
  intros (Hpy & Hfk & Hheap) HQ.
  unfold wp2, Gen.date_time_between, bind, Gen.now, Gen.fk. simpl.
  apply HQ. split; [exact Hpy|]. split; [|exact Hheap].
  intros Hb. simpl. rewrite (Hfk Hb). apply (steady Hb).
Qed.

Lemma wp2_random_choice {A V} (view : A -> V) (seq1 seq2 : list A)
    (w1 w2 : World) (Q : A -> World -> A -> World -> Prop) :
  alike b w1 w2 ->
  view <$> seq1 = view <$> seq2 ->
  (forall x1 x2 r, view x1 = view x2 ->
     alike b (Gen.with_py r w1) (Gen.with_py r w2) ->
     Q x1 (Gen.with_py r w1) x2 (Gen.with_py r w2)) ->
  wp2 (Gen.random_choice seq1) (Gen.random_choice seq2) w1 w2 Q.
Proof.
  intros Hw Hseq HQ.
  assert (Hlen : length seq1 = length seq2).
  { apply (f_equal length) in Hseq. by rewrite !length_fmap in Hseq. }
  assert (Hlk : forall i, view <$> seq1 !! i = view <$> seq2 !! i).
  { intros i. by rewrite <- !list_lookup_fmap, Hseq. }
  unfold Gen.random_choice.
  destruct seq1 as [|y1 seq1], seq2 as [|y2 seq2]; try discriminate Hlen;
    [exact I|].
  rewrite Hlen. apply wp2_bind, wp2_py; [exact Hw|]. intros i r Hw'.
  specialize (Hlk i).
  destruct ((y1 :: seq1) !! i) as [x1|], ((y2 :: seq2) !! i) as [x2|];
    try discriminate Hlk; [|exact I].
  apply wp2_ret. apply HQ; [|exact Hw']. by injection Hlk.
Qed.

Lemma wp2_random_choices0 {A} (population : list A) (weights : list F)
    (w1 w2 : World) (Q : A -> World -> A -> World -> Prop) :
  alike b w1 w2 ->
  (forall x r, alike b (Gen.with_py r w1) (Gen.with_py r w2) ->
     Q x (Gen.with_py r w1) x (Gen.with_py r w2)) ->
  wp2 (Gen.random_choices0 population weights)
      (Gen.random_choices0 population weights) w1 w2 Q.
Proof.
  intros Hw HQ. unfold Gen.random_choices0.
  apply wp2_bind, wp2_py; [exact Hw|]. intros i r Hw'.
  destruct (population !! i) as [x|]; [|exact I].
  apply wp2_ret, HQ, Hw'.
Qed.

Lemma wp2_dict_get {V} (d : list (string * V)) (k : string) (w1 w2 : World)
    (Q : V -> World -> V -> World -> Prop) :
  (forall v, Q v w1 v w2) ->
  wp2 (Gen.dict_get d k) (Gen.dict_get d k) w1 w2 Q.
Proof.
  intros HQ. unfold Gen.dict_get.
  destruct (list_find _ d) as [[? [? v]]|]; [apply wp2_ret, HQ|exact I].
Qed.

Lemma wp2_write_csv {A} (filename : string) (keys : list string)
    (values : A -> list (cell F)) (rows1 rows2 : list A) (w1 w2 : World)
    (Q : unit -> World -> unit -> World -> Prop) :
  alike b w1 w2 ->
  length rows1 = length rows2 ->
  (forall fs1 fs2, alike b (Gen.with_files fs1 w1) (Gen.with_files fs2 w2) ->
     Q tt (Gen.with_files fs1 w1) tt (Gen.with_files fs2 w2)) ->
  wp2 (Gen.write_csv filename keys values rows1)
      (Gen.write_csv filename keys values rows2) w1 w2 Q.
Proof.
  intros Hw Hlen HQ. unfold Gen.write_csv. apply wp2_bind, wp2_modify.
  destruct rows1, rows2; try discriminate Hlen; [exact I|].
  apply wp2_modify. apply HQ. by apply alike_with_files.
Qed.

Lemma alike_dom (w1 w2 : World) :
  alike b w1 w2 -> dom (Gen.heap w1) = dom (Gen.heap w2).
Proof.
  intros (_ & _ & Hheap). apply (f_equal dom) in Hheap.
  by rewrite !dom_fmap_L in Hheap.
Qed.

Lemma wp2_alloc (os1 os2 : list (Order.t F)) (w1 w2 : World)
    (Q : nat -> World -> nat -> World -> Prop) :
  alike b w1 w2 ->
  order_view b <$> os1 = order_view b <$> os2 ->
  (forall l,
     alike b (Gen.with_heap (<[l := os1]> (Gen.heap w1)) w1)
             (Gen.with_heap (<[l := os2]> (Gen.heap w2)) w2) ->
     Q l (Gen.with_heap (<[l := os1]> (Gen.heap w1)) w1)
       l (Gen.with_heap (<[l := os2]> (Gen.heap w2)) w2)) ->
  wp2 (Gen.alloc os1) (Gen.alloc os2) w1 w2 Q.
Proof.
  intros Hw Hos HQ. unfold wp2, Gen.alloc. rewrite <- (alike_dom w1 w2 Hw).
  apply HQ. destruct Hw as (Hpy & Hfk & Hheap).
  split; [exact Hpy|]. split; [exact Hfk|]. simpl.
  rewrite !fmap_insert, Hheap. unfold orders_view. by rewrite Hos.
Qed.

Lemma wp2_deref (l : nat) (w1 w2 : World)
    (Q : list (Order.t F) -> World -> list (Order.t F) -> World -> Prop) :
  alike b w1 w2 ->
  (forall os1 os2,
     Gen.heap w1 !! l = Some os1 -> Gen.heap w2 !! l = Some os2 ->
     order_view b <$> os1 = order_view b <$> os2 ->
     Q os1 w1 os2 w2) ->
  wp2 (Gen.deref l) (Gen.deref l) w1 w2 Q.
Proof.
  intros (_ & _ & Hheap) HQ. unfold wp2, Gen.deref.
  pose proof (f_equal (fun h => h !! l) Hheap) as Hl. simpl in Hl.
  rewrite !lookup_fmap in Hl.
  destruct (Gen.heap w1 !! l) as [os1|], (Gen.heap w2 !! l) as [os2|];
    try discriminate Hl; [|exact I].
  apply HQ; try reflexivity. by injection Hl.
Qed.

Lemma wp2_update_at (l i : nat) (f g : Order.t F -> Order.t F) (w1 w2 : World)
    (Q : unit -> World -> unit -> World -> Prop) :
  alike b w1 w2 ->
  (forall o, order_view b (f o) = g (order_view b o)) ->
  (alike b (Gen.with_heap (alter (alter f i) l (Gen.heap w1)) w1)
           (Gen.with_heap (alter (alter f i) l (Gen.heap w2)) w2) ->
   Q tt (Gen.with_heap (alter (alter f i) l (Gen.heap w1)) w1)
     tt (Gen.with_heap (alter (alter f i) l (Gen.heap w2)) w2)) ->
  wp2 (Gen.update_at l i f) (Gen.update_at l i f) w1 w2 Q.
Proof.
  intros (Hpy & Hfk & Hheap) Hfg HQ. unfold Gen.update_at.
  apply wp2_modify, HQ. split; [exact Hpy|]. split; [exact Hfk|]. simpl.
  apply map_eq. intros k. rewrite !lookup_fmap.
  pose proof (f_equal (fun h => h !! k) Hheap) as Hk. simpl in Hk.
  rewrite !lookup_fmap in Hk.
  destruct (decide (k = l)) as [->|Hne].
  - rewrite !lookup_alter_eq.
    destruct (Gen.heap w1 !! l) as [os1|], (Gen.heap w2 !! l) as [os2|];
      try discriminate Hk; [|reflexivity].
    simpl in *. f_equal. injection Hk as Hk. unfold orders_view in *.
    rewrite !(list_fmap_alter (order_view b) f g) by (apply Forall_true, Hfg).
    by rewrite Hk.
  - by rewrite !lookup_alter_ne.
Qed.

(** One step through a draw. *)
Ltac wp2_draw :=
  lazymatch goal with
  | |- wp2 (bind _ _) (bind _ _) _ _ _ => apply wp2_bind
  | |- wp2 (Gen.fk _) (Gen.fk _) _ _ _ =>
      apply wp2_fk; [assumption|]; intros ? ? ? ? ? ?; cbv beta
  | |- wp2 (Gen.py _) (Gen.py _) _ _ _ =>
      apply wp2_py; [assumption|]; intros ? ? ?; cbv beta
  | |- wp2 (Gen.date_time_between _ _) (Gen.date_time_between _ _) _ _ _ =>
      apply wp2_date_time_between; [assumption|]; intros ? ? ? ? ? ? ?; cbv beta
  end.

Lemma views_length {A V} (view : A -> V) (l1 l2 : list A) :
  view <$> l1 = view <$> l2 -> length l1 = length l2.
Proof. intros H. apply (f_equal length) in H. by rewrite !length_fmap in H. Qed.

Lemma generate_customers_alike (cfg : Gen.Config) (w1 w2 : World)
    (Q : list Customer.t -> World -> list Customer.t -> World -> Prop) :
  alike b w1 w2 ->
  (forall cs1 t1 cs2 t2,
     customer_view b <$> cs1 = customer_view b <$> cs2 -> alike b t1 t2 ->
     Q cs1 t1 cs2 t2) ->
  wp2 (Gen.generate_customers cfg) (Gen.generate_customers cfg) w1 w2 Q.
Proof.
  intros Hw HQ. unfold Gen.generate_customers. apply wp2_bind.
  apply (wp2_for_each_same
           (fun cs1 t1 cs2 t2 =>
              customer_view b <$> cs1 = customer_view b <$> cs2 /\ alike b t1 t2)).
  - done.
  - intros customer_id cs1 t1 cs2 t2 [Hcs Ht]. repeat wp2_draw.
    apply (wp2_random_choice (fun s : string => s)); [assumption|done|].
    intros seg1 seg2 r Hseg Hw'. apply wp2_ret. split; [|exact Hw'].
    rewrite !fmap_app, Hcs. f_equal. simpl. unfold customer_view. simpl.
    do 2 f_equal; try (apply keep_eq; assumption). exact Hseg.
  - intros cs1 t1 cs2 t2 [Hcs Ht]. apply wp2_bind.
    apply wp2_write_csv; [exact Ht|by eapply views_length|].
    intros fs1 fs2 Ht'. apply wp2_ret. by apply HQ.
Qed.

Lemma generate_products_alike (cfg : Gen.Config) (w1 w2 : World)
    (Q : list (Product.t F) -> World -> list (Product.t F) -> World -> Prop) :
  alike b w1 w2 ->
  (forall ps1 t1 ps2 t2,
     product_view b <$> ps1 = product_view b <$> ps2 -> alike b t1 t2 ->
     Q ps1 t1 ps2 t2) ->
  wp2 (Gen.generate_products cfg) (Gen.generate_products cfg) w1 w2 Q.
Proof.
  intros Hw HQ. unfold Gen.generate_products. apply wp2_bind.
  apply (wp2_for_each_same
           (fun ps1 t1 ps2 t2 =>
              product_view b <$> ps1 = product_view b <$> ps2 /\ alike b t1 t2)).
  - done.
  - intros product_id ps1 t1 ps2 t2 [Hps Ht].
    apply wp2_bind, (wp2_random_choice (fun s : string => s)); [assumption|done|].
    intros category ? r <- Hw1.
    apply wp2_bind, wp2_dict_get. intros bounds.
    apply wp2_bind, wp2_dict_get. intros prefixes.
    apply wp2_bind, (wp2_random_choice (fun s : string => s)); [assumption|done|].
    intros prefix ? r' <- Hw2.
    apply wp2_bind, wp2_fk; [assumption|]. intros word1 word2 ? ? Hword Hw3.
    cbv beta. apply wp2_bind.
    destruct (first_word category) as [head_word|]; [|exact I].
    apply wp2_ret. repeat wp2_draw. apply wp2_ret. split; [|assumption].
    rewrite !fmap_app, Hps. f_equal. simpl. unfold product_view. simpl.
    do 2 f_equal; try (apply keep_eq; assumption).
    apply keep_eq. intros Hb. by rewrite (Hword Hb).
  - intros ps1 t1 ps2 t2 [Hps Ht]. apply wp2_bind.
    apply wp2_write_csv; [exact Ht|by eapply views_length|].
    intros fs1 fs2 Ht'. apply wp2_ret. by apply HQ.
Qed.

Lemma strftime_days (d x : Z) :
  strftime (d + timedelta_days x) = strftime d + x * 86400.
Proof.
  unfold strftime, timedelta_days.
  rewrite Z.div_add by lia. reflexivity.
Qed.

Lemma generate_orders_alike (cfg : Gen.Config) (cs1 cs2 : list Customer.t)
    (w1 w2 : World) (Q : nat -> World -> nat -> World -> Prop) :
  alike b w1 w2 ->
  customer_view b <$> cs1 = customer_view b <$> cs2 ->
  (forall l t1 t2 os1 os2,
     alike b t1 t2 ->
     Gen.heap t1 !! l = Some os1 -> Gen.heap t2 !! l = Some os2 ->
     Q l t1 l t2) ->
  wp2 (Gen.generate_orders cfg cs1) (Gen.generate_orders cfg cs2) w1 w2 Q.
Proof.
  intros Hw Hcs HQ. unfold Gen.generate_orders. apply wp2_bind.
  apply (wp2_for_each_same
           (fun os1 t1 os2 t2 =>
              orders_view b os1 = orders_view b os2 /\ alike b t1 t2)).
  - done.
  - intros order_id os1 t1 os2 t2 [Hos Ht].
    apply wp2_bind, (wp2_random_choice (customer_view b)); [assumption|done|].
    intros c1 c2 r Hc Hw1.
    apply (f_equal Customer.customer_id) in Hc. simpl in Hc.
    apply wp2_bind, wp2_date_time_between; [assumption|].
    intros od1 od2 ? ? ? ? Hw2. cbv beta.
    apply wp2_bind, wp2_py; [assumption|]. intros d1 ? Hw3. cbv beta.
    apply wp2_bind, wp2_py; [assumption|]. intros d2 ? Hw4. cbv beta.
    apply wp2_bind, wp2_random_choices0; [assumption|]. intros status ? Hw5.
    repeat wp2_draw. apply wp2_ret. split; [|assumption].
    unfold orders_view in *. rewrite !fmap_app, Hos. f_equal. simpl.
    unfold order_view. simpl. rewrite Hc.
    do 2 f_equal.
    + apply keep_eq. intros Hb.
      repeat match goal with
             | H : b = true -> _ = _ |- _ => rewrite (H Hb); clear H
             end.
      reflexivity.
    + destruct (bool_decide _); simpl; [|reflexivity].
      rewrite !strftime_days. f_equal. lia.
    + destruct (bool_decide (status = _)); simpl; [|reflexivity].
      rewrite !strftime_days. f_equal. lia.
  - intros os1 t1 os2 t2 [Hos Ht]. apply wp2_bind.
    apply wp2_write_csv; [exact Ht|by eapply views_length|].
    intros fs1 fs2 Ht'. apply wp2_alloc; [exact Ht'|exact Hos|].
    intros l Ht''. apply (HQ l _ _ os1 os2 Ht''); simpl; apply lookup_insert_eq.
Qed.

Lemma views_lookup {A V} (view : A -> V) (l1 l2 : list A) (i : nat) :
  view <$> l1 = view <$> l2 -> view <$> l1 !! i = view <$> l2 !! i.
Proof. intros H. by rewrite <- !list_lookup_fmap, H. Qed.

Lemma imap_pair_alike (os1 os2 : list (Order.t F)) :
  orders_view b os1 = orders_view b os2 ->
  Forall2 (fun io1 io2 : nat * Order.t F =>
             io1.1 = io2.1 /\ order_view b io1.2 = order_view b io2.2)
    (imap (fun i o => (i, o)) os1) (imap (fun i o => (i, o)) os2).
Proof.
  intros Hos. apply Forall2_same_length_lookup. split.
  - rewrite !length_imap. by eapply views_length.
  - intros i [i1 o1] [i2 o2]. rewrite !list_lookup_imap.
    pose proof (views_lookup (order_view b) os1 os2 i Hos) as Hi.
    destruct (os1 !! i) as [x1|], (os2 !! i) as [x2|]; try discriminate.
    simpl. intros [= <- <-] [= <- <-]. split; [reflexivity|].
    apply (inj Some), Hi.
Qed.

Lemma generate_order_items_alike (cfg : Gen.Config) (l : nat)
    (ps1 ps2 : list (Product.t F)) (w1 w2 : World)
    (Q : list (OrderItem.t F) -> World -> list (OrderItem.t F) -> World -> Prop) :
  alike b w1 w2 ->
  product_view b <$> ps1 = product_view b <$> ps2 ->
  (forall items t1 t2, alike b t1 t2 -> Q items t1 items t2) ->
  wp2 (Gen.generate_order_items cfg l ps1) (Gen.generate_order_items cfg l ps2)
    w1 w2 Q.
Proof.
  intros Hw Hps HQ. unfold Gen.generate_order_items.
  apply wp2_bind, wp2_deref; [exact Hw|]. intros os1 os2 _ _ Hos.
  assert (Hzero : Gen.zero_totals os1 = Gen.zero_totals os2).
  { unfold Gen.zero_totals.
    rewrite <- !(foldl_fmap (fun m k => <[k := fzero]> m) _ _ Order.order_id).
    f_equal. apply (f_equal (fmap Order.order_id)) in Hos.
    rewrite <- !list_fmap_compose in Hos. exact Hos. }
  rewrite Hzero. apply wp2_bind.
  apply (wp2_for_each_same (fun acc1 t1 acc2 t2 => acc1 = acc2 /\ alike b t1 t2)).
  - done.
  - intros x acc t1 ? t2 [<- Ht].
    apply wp2_bind, (wp2_random_choice (order_view b)); [assumption|exact Hos|].
    intros o1 o2 r Ho Hw1.
    apply (f_equal Order.order_id) in Ho. simpl in Ho.
    apply wp2_bind, (wp2_random_choice (product_view b)); [assumption|exact Hps|].
    intros p1 p2 r' Hp Hw2.
    assert (Hpid : Product.product_id p1 = Product.product_id p2)
      by (apply (f_equal Product.product_id) in Hp; exact Hp).
    assert (Hprice : Product.price p1 = Product.price p2)
      by (apply (f_equal Product.price) in Hp; exact Hp).
    rewrite Ho, Hpid, Hprice.
    apply wp2_bind, wp2_py; [assumption|]. intros quantity ? Hw3. cbv beta.
    apply wp2_bind, wp2_py; [assumption|]. intros price_variation ? Hw4. cbv beta.
    apply wp2_bind, wp2_py; [assumption|]. intros u ? Hw5. cbv beta.
    apply wp2_bind.
    apply (wp2_mono _ _ _ _
             (fun d1 s1 d2 s2 => d1 = d2 /\ alike b s1 s2)).
    { destruct (flt u (flit 2 1)).
      - apply wp2_bind, wp2_py; [assumption|]. intros v ? Hw6. by apply wp2_ret.
      - by apply wp2_ret. }
    intros discount s1 ? s2 [<- Hs].
    destruct (Gen.acc_totals acc !! Order.order_id o2) as [t|]; [|exact I].
    apply wp2_ret. done.
  - intros acc t1 ? t2 [<- Ht]. cbv zeta. apply wp2_bind.
    apply wp2_write_csv; [exact Ht|reflexivity|]. intros fs1 fs2 Ht'.
    apply wp2_bind.
    apply (wp2_for_each
             (fun io1 io2 : nat * Order.t F =>
                io1.1 = io2.1 /\ order_view b io1.2 = order_view b io2.2)
             (fun _ _ s1 _ _ s2 => alike b s1 s2)).
    + by apply imap_pair_alike.
    + exact Ht'.
    + intros _ [i1 o1] [] s1 _ [i o2] [] s2 [Hi Ho] Hs. simpl in Hi, Ho. subst i1.
      apply (f_equal Order.order_id) in Ho. simpl in Ho. simpl. rewrite Ho.
      destruct (Gen.acc_totals acc !! Order.order_id o2) as [t|]; [|exact I].
      apply (wp2_update_at l i _ (Order.set_total_amount (round_nd t 2)));
        [exact Hs|reflexivity|]. auto.
    + intros [] s1 [] s2 Hs.
      apply wp2_bind, wp2_deref; [exact Hs|]. intros os1' os2' _ _ Hos'.
      apply wp2_bind, wp2_write_csv; [exact Hs|by eapply views_length|].
      intros fs1' fs2' Hs'. apply wp2_ret. by apply HQ.
Qed.

Lemma enumerate_alike (start : Z) (os1 os2 : list (Order.t F)) :
  orders_view b os1 = orders_view b os2 ->
  Forall2 (fun po1 po2 : Z * Order.t F =>
             po1.1 = po2.1 /\ order_view b po1.2 = order_view b po2.2)
    (enumerate start os1) (enumerate start os2).
Proof.
  intros Hos. unfold orders_view in Hos.
  apply list_eq_Forall2 in Hos. apply (proj1 (Forall2_fmap _ _ _ _ _)) in Hos.
  revert start. induction Hos as [|o1 o2 l1 l2 Ho _ IH]; intros start.
  - constructor.
  - unfold enumerate in *. cbn [length].
    rewrite !Nat2Z.inj_succ.
    rewrite (seqZ_cons start (Z.succ (Z.of_nat (length l1)))) by lia.
    rewrite (seqZ_cons start (Z.succ (Z.of_nat (length l2)))) by lia. simpl.
    constructor; [done|].
    replace (Z.pred (Z.succ (Z.of_nat (length l1)))) with (Z.of_nat (length l1))
      by lia.
    replace (Z.pred (Z.succ (Z.of_nat (length l2)))) with (Z.of_nat (length l2))
      by lia.
    apply IH.
Qed.

Lemma generate_payments_alike (l : nat) (w1 w2 : World)
    (Q : list (Payment.t F) -> World -> list (Payment.t F) -> World -> Prop) :
  alike b w1 w2 ->
  (forall ps1 t1 ps2 t2 os1 os2,
     alike b t1 t2 ->
     Gen.heap t1 !! l = Some os1 -> Gen.heap t2 !! l = Some os2 ->
     zip_with (payment_view b) os1 ps1 = zip_with (payment_view b) os2 ps2 ->
     Q ps1 t1 ps2 t2) ->
  wp2 (Gen.generate_payments l) (Gen.generate_payments l) w1 w2 Q.
Proof.
  intros Hw HQ. unfold Gen.generate_payments.
  apply wp2_bind, wp2_deref; [exact Hw|]. intros os1 os2 Hl1 Hl2 Hos.
  apply wp2_bind.
  apply (wp2_for_each
           (fun po1 po2 : Z * Order.t F =>
              po1.1 = po2.1 /\ order_view b po1.2 = order_view b po2.2)
           (fun pre1 ps1 s1 pre2 ps2 s2 =>
              alike b s1 s2 /\
              Gen.heap s1 = Gen.heap w1 /\ Gen.heap s2 = Gen.heap w2 /\
              length ps1 = length pre1 /\ length ps2 = length pre2 /\
              zip_with (payment_view b) pre1.*2 ps1
              = zip_with (payment_view b) pre2.*2 ps2)).
  - by apply enumerate_alike.
  - done.
  - intros pre1 [i1 o1] ps1 s1 pre2 [i o2] ps2 s2 [Hi Ho]
      (Hs & Hh1 & Hh2 & Hn1 & Hn2 & Hps).
    simpl in Hi, Ho. subst i1. cbn [fst snd].
    assert (Hid : Order.order_id o1 = Order.order_id o2)
      by (apply (f_equal Order.order_id) in Ho; exact Ho).
    assert (Htot : Order.total_amount o1 = Order.total_amount o2)
      by (apply (f_equal Order.total_amount) in Ho; exact Ho).
    apply wp2_bind, wp2_py; [assumption|]. intros m ? Hs1. cbv beta.
    apply wp2_bind, wp2_random_choices0; [assumption|]. intros status ? Hs2.
    apply wp2_bind, wp2_py; [assumption|]. intros u ? Hs3. cbv beta.
    apply wp2_bind, (wp2_random_choice (fun s : string => s)); [assumption|done|].
    intros method ? ? <- Hs4.
    apply wp2_bind, wp2_fk; [assumption|]. intros uuid1 uuid2 ? ? Huuid Hs5.
    apply wp2_ret. split; [exact Hs5|]. simpl.
    split; [exact Hh1|]. split; [exact Hh2|].
    rewrite !length_app, Hn1, Hn2. split; [reflexivity|]. split; [reflexivity|].
    rewrite !fmap_app.
    rewrite !zip_with_app by (by rewrite length_fmap).
    rewrite Hps. f_equal. simpl. unfold payment_view. simpl.
    rewrite !payment_date_minutes, Hid, Htot.
    do 2 f_equal; [lia|]. apply keep_eq. intros Hb. by rewrite (Huuid Hb).
  - intros ps1 s1 ps2 s2 (Hs & Hh1 & Hh2 & Hn1 & Hn2 & Hps).
    assert (Hsnd : forall os : list (Order.t F), (enumerate 1 os).*2 = os).
    { intros os. unfold enumerate. apply snd_zip. rewrite length_seqZ. lia. }
    rewrite !Hsnd in Hps.
    apply wp2_bind, wp2_write_csv; [exact Hs| |].
    { rewrite Hn1, Hn2. unfold enumerate. rewrite !length_zip_with, !length_seqZ.
      rewrite (views_length (order_view b) os1 os2 Hos). reflexivity. }
    intros fs1 fs2 Hs'. apply wp2_ret.
    apply (HQ _ _ _ _ os1 os2 Hs'); simpl; [by rewrite Hh1|by rewrite Hh2|exact Hps].
Qed.

Lemma main_alike (cfg : Gen.Config) (w1 w2 : World)
    (Q : Gen.Dataset -> World -> Gen.Dataset -> World -> Prop) :
  alike b w1 w2 ->
  (forall d1 t1 d2 t2, clock_free b d1 = clock_free b d2 -> Q d1 t1 d2 t2) ->
  wp2 (Gen.main cfg) (Gen.main cfg) w1 w2 Q.
Proof.
  intros Hw HQ. unfold Gen.main.
  apply wp2_bind, generate_customers_alike; [exact Hw|]. intros cs1 t1 cs2 t2 Hcs Ht.
  apply wp2_bind, generate_products_alike; [exact Ht|]. intros ps1 u1 ps2 u2 Hps Hu.
  apply wp2_bind, (generate_orders_alike cfg cs1 cs2); [exact Hu|exact Hcs|].
  intros l v1 v2 _ _ Hv _ _.
  apply wp2_bind, (generate_order_items_alike cfg l ps1 ps2); [exact Hv|exact Hps|].
  intros items x1 x2 Hx.
  apply wp2_bind, generate_payments_alike; [exact Hx|].
  intros pays1 y1 pays2 y2 os1 os2 Hy Hl1 Hl2 Hpays.
  apply wp2_bind, wp2_deref; [exact Hy|]. intros os1' os2' Hl1' Hl2' Hos.
  rewrite Hl1 in Hl1'. rewrite Hl2 in Hl2'.
  injection Hl1' as <-. injection Hl2' as <-.
  apply wp2_ret, HQ. unfold clock_free. simpl.
  unfold orders_view. by rewrite Hcs, Hps, Hos, Hpays.
Qed.

(** Two runs side by side: from any two interpreters, whatever the state of
    their generators and whatever their clocks, as long as the lists they
    hold look alike. *)
Lemma run_alike (w1 w2 : World)
    (Q : Gen.Dataset -> World -> Gen.Dataset -> World -> Prop) :
  orders_view b <$> Gen.heap w1 = orders_view b <$> Gen.heap w2 ->
  (forall d1 t1 d2 t2, clock_free b d1 = clock_free b d2 -> Q d1 t1 d2 t2) ->
  wp2 Gen.run Gen.run w1 w2 Q.
Proof.
  intros Hheap HQ. unfold Gen.run, Gen.module_init.
  apply wp2_bind, wp2_bind, wp2_modify, wp2_bind, wp2_modify.
  assert (Hw : alike b (Gen.with_py (seed 42) (Gen.with_fk (seed 42) w1))
                       (Gen.with_py (seed 42) (Gen.with_fk (seed 42) w2)))
    by (by split).
  repeat wp2_draw. apply wp2_ret. by apply main_alike.
Qed.

End SideBySide.

(** * Determinism of the generator *)

Section ClockIndependence.
Context {F R : Type} `{!PyFloat F} `{!PyRandom R F} `{!Faker R}.
Context `{!PyFloatLaws F} `{!PyRandomLaws R F}.

Local Abbreviation World := (@Gen.World F R).

Lemma undated_rows {A} (keys : list string) (values : A -> list (cell F))
    (view : A -> A) (rows : list A) :
  (forall x, undate_cell <$> values x = undate_cell <$> values (view x)) ->
  undated (csv_of keys values rows) = undated (csv_of keys values (view <$> rows)).
Proof.
  intros Hview. unfold undated, csv_of. rewrite !fmap_cons. f_equal.
  rewrite <- !list_fmap_compose. apply list_fmap_ext. intros _ x _. apply Hview.
Qed.

Lemma undated_payments (os : list (Order.t F)) (ps : list (Payment.t F)) :
  length ps = length os ->
  undated (csv_of payment_keys payment_values ps)
  = undated (csv_of payment_keys payment_values
               (zip_with (payment_view true) os ps)).
Proof.
  intros Hlen. unfold undated, csv_of. rewrite !fmap_cons. f_equal.
  revert os Hlen. induction ps as [|p ps IH]; intros [|o os] Hlen;
    try discriminate Hlen; [reflexivity|].
  simpl. f_equal. apply IH. by injection Hlen.
Qed.

(** Runs with the same clock-free view write the same files, date cells
    apart. *)
Lemma undated_files (d d' : Gen.Dataset) (fs : gmap string (csv F)) :
  length (Gen.payments d) = length (Gen.orders d) ->
  length (Gen.payments d') = length (Gen.orders d') ->
  clock_free true d = clock_free true d' ->
  undated <$> files_of d fs = undated <$> files_of d' fs.
Proof.
  intros Hn Hn' Hd. unfold files_of. rewrite !fmap_insert.
  rewrite (undated_payments (Gen.orders d) (Gen.payments d) Hn).
  rewrite (undated_payments (Gen.orders d') (Gen.payments d') Hn').
  rewrite (undated_rows order_keys order_values (order_view true) (Gen.orders d)).
  2: { intros o. destruct o as [? ? ? ? ? [?|] [?|] ?]; reflexivity. }
  rewrite (undated_rows order_keys order_values (order_view true) (Gen.orders d')).
  2: { intros o. destruct o as [? ? ? ? ? [?|] [?|] ?]; reflexivity. }
  rewrite (undated_rows product_keys product_values (product_view true)
             (Gen.products d)) by reflexivity.
  rewrite (undated_rows product_keys product_values (product_view true)
             (Gen.products d')) by reflexivity.
  rewrite (undated_rows customer_keys customer_values (customer_view true)
             (Gen.customers d)) by reflexivity.
  rewrite (undated_rows customer_keys customer_values (customer_view true)
             (Gen.customers d')) by reflexivity.
  pose proof (f_equal Gen.customers Hd) as Hc.
  pose proof (f_equal Gen.products Hd) as Hp.
  pose proof (f_equal Gen.orders Hd) as Ho.
  pose proof (f_equal Gen.order_items Hd) as Hi.
  pose proof (f_equal Gen.payments Hd) as Hpay.
  simpl in Hc, Hp, Ho, Hi, Hpay. unfold orders_view in Ho.
  by rewrite Hc, Hp, Ho, Hi, Hpay.
Qed.

Lemma clock_free_counts (c : bool) (d d' : Gen.Dataset) :
  generated d -> generated d' ->
  clock_free c d = clock_free c d' ->
  length (Gen.customers d) = length (Gen.customers d') /\
  length (Gen.products d) = length (Gen.products d') /\
  length (Gen.orders d) = length (Gen.orders d') /\
  length (Gen.order_items d) = length (Gen.order_items d') /\
  length (Gen.payments d) = length (Gen.payments d').
Proof.
  intros Hg Hg' Hd.
  pose proof (f_equal Gen.customers Hd) as Hc.
  pose proof (f_equal Gen.products Hd) as Hp.
  pose proof (f_equal Gen.orders Hd) as Ho.
  pose proof (f_equal Gen.order_items Hd) as Hi.
  simpl in Hc, Hp, Ho, Hi. unfold orders_view in Ho.
  pose proof (views_length _ _ _ Ho) as Hon.
  split; [by eapply views_length|]. split; [by eapply views_length|].
  split; [exact Hon|]. split; [by rewrite Hi|].
  rewrite <- (Forall2_length _ _ _ (gen_payments d Hg)).
  rewrite <- (Forall2_length _ _ _ (gen_payments d' Hg')). exact Hon.
Qed.

(** C4, as far as it holds.  Two runs in fresh interpreters, whatever state
    their generators were started in:
    - with clocks that give the same readings they return the same records
      and write the same files;
    - with any two clocks they return as many records of each kind, the same
      order items and the same [order_items.csv], and records that agree in
      everything drawn from [random]: only dates drawn against the clock and
      values drawn from Faker can differ, while shipping, delivery and
      payment dates keep their distance from the order date;
    - and when a date draw leaves Faker's generator in a state that does not
      depend on the clock, the values drawn from Faker agree too, and the
      five files are the same, date cells apart. *)
Theorem run_deterministic_given_clock (e1 e2 e1' e2' : R)
    (clk clk' : nat -> Z) :
  Gen.run (Gen.process_start e1 e2 clk) = Gen.run (Gen.process_start e1' e2' clk) /\
  exists d d' w w',
    Gen.run (Gen.process_start e1 e2 clk) = (Ok d, w) /\
    Gen.run (Gen.process_start e1' e2' clk') = (Ok d', w') /\
    (length (Gen.customers d) = length (Gen.customers d') /\
     length (Gen.products d) = length (Gen.products d') /\
     length (Gen.orders d) = length (Gen.orders d') /\
     length (Gen.order_items d) = length (Gen.order_items d') /\
     length (Gen.payments d) = length (Gen.payments d')) /\
    clock_free false d = clock_free false d' /\
    Gen.files w !! Gen.path_join Gen.DATA_DIR "order_items.csv"
    = Gen.files w' !! Gen.path_join Gen.DATA_DIR "order_items.csv" /\
    (date_draw_steady ->
     clock_free true d = clock_free true d' /\
     undated <$> Gen.files w = undated <$> Gen.files w').
Proof.
  split.
  { unfold Gen.run, bind at 1 2.
    rewrite (module_init_reseeds e1 e2 clk), (module_init_reseeds e1' e2' clk).
    reflexivity. }
  destruct (run_returns_more (Gen.process_start e1 e2 clk))
    as (d & w & Hrun & Hg & Hm).
  destruct (run_returns_more (Gen.process_start e1' e2' clk'))
    as (d' & w' & Hrun' & Hg' & Hm').
  exists d, d', w, w'. split; [exact Hrun|]. split; [exact Hrun'|].
  assert (Hfree : forall c : bool, (c = true -> date_draw_steady) ->
            clock_free c d = clock_free c d').
  { intros c Hc.
    apply (wp2_elim Gen.run Gen.run
             (Gen.process_start e1 e2 clk) (Gen.process_start e1' e2' clk')
             w w' d d' (fun d1 _ d2 _ => clock_free c d1 = clock_free c d2));
      [|exact Hrun|exact Hrun'].
    apply (run_alike c Hc); [reflexivity|auto]. }
  assert (Hfalse : clock_free false d = clock_free false d')
    by (apply Hfree; discriminate).
  split; [exact (clock_free_counts false d d' Hg Hg' Hfalse)|].
  split; [exact Hfalse|]. split.
  - rewrite (more_files _ _ _ Hm), (more_files _ _ _ Hm'). unfold files_of.
    rewrite !(lookup_insert_ne _ (Gen.path_join Gen.DATA_DIR "payments.csv")) by done.
    rewrite !(lookup_insert_ne _ (Gen.path_join Gen.DATA_DIR "orders.csv")) by done.
    rewrite !lookup_insert_eq.
    by rewrite (f_equal Gen.order_items Hfalse : Gen.order_items d = Gen.order_items d').
  - intros Hsteady. pose proof (Hfree true (fun _ => Hsteady)) as Htrue.
    split; [exact Htrue|].
    rewrite (more_files _ _ _ Hm), (more_files _ _ _ Hm').
    apply undated_files; [| |exact Htrue].
    + symmetry. apply (Forall2_length _ _ _ (gen_payments d Hg)).
    + symmetry. apply (Forall2_length _ _ _ (gen_payments d' Hg')).
Qed.

End ClockIndependence.

(** * Further properties of the loader *)

Section ReaderProps.

Lemma dict_set_fresh {K V} `{EqDecision K} (d : list (K * V)) (k : K) (v : V) :
  k ∉ d.*1 -> Loader.dict_set d k v = d ++ [(k, v)].
Proof.
  induction d as [|[k' v'] d IH]; intros Hk; [reflexivity|].
  rewrite fmap_cons in Hk. apply not_elem_of_cons in Hk as [Hne Hk].
  simpl in *. rewrite decide_False by congruence. by rewrite IH.
Qed.

Lemma zip_fill (fieldnames row : list string) (d : list (option string * pyval)) :
  NoDup (d.*1 ++ (Some <$> fieldnames)) ->
  foldl (fun d kv => Loader.dict_set d (Some kv.1) (PStr kv.2)) d
    (zip fieldnames row)
  = d ++ zip (Some <$> take (length row) fieldnames)
           (PStr <$> take (length fieldnames) row).
Proof.
  revert row d. induction fieldnames as [|f fieldnames IH]; intros row d Hnd.
  - simpl. rewrite take_nil. simpl. by rewrite app_nil_r.
  - destruct row as [|x row]; [simpl; by rewrite app_nil_r|].
    simpl. rewrite dict_set_fresh.
    + rewrite IH.
      * by rewrite <- app_assoc.
      * rewrite fmap_app. simpl. rewrite <- app_assoc. exact Hnd.
    + apply NoDup_app in Hnd as (_ & Hdisj & _). intros Hin.
      apply (Hdisj _ Hin). by left.
Qed.

Lemma pad_fill (names : list string) (d : list (option string * pyval)) :
  NoDup (d.*1 ++ (Some <$> names)) ->
  foldl (fun d k => Loader.dict_set d (Some k) PNone) d names
  = d ++ zip (Some <$> names) (replicate (length names) PNone).
Proof.
  revert d. induction names as [|f names IH]; intros d Hnd.
  - simpl. by rewrite app_nil_r.
  - simpl. rewrite dict_set_fresh.
    + rewrite IH.
      * by rewrite <- app_assoc.
      * rewrite fmap_app. simpl. rewrite <- app_assoc. exact Hnd.
    + apply NoDup_app in Hnd as (_ & Hdisj & _). intros Hin.
      apply (Hdisj _ Hin). by left.
Qed.

Lemma Some_inj_NoDup (names : list string) :
  NoDup names -> NoDup (Some <$> names).
Proof. apply NoDup_fmap_2. intros ? ? [=]. done. Qed.

Lemma row_dict_short (fieldnames row : list string) :
  NoDup fieldnames ->
  (length row <= length fieldnames)%nat ->
  (Loader.row_dict fieldnames row).*1 = Some <$> fieldnames /\
  (Loader.row_dict fieldnames row).*2 =
    (PStr <$> row) ++ replicate (length fieldnames - length row) PNone.
Proof.
  intros Hnd Hlen. unfold Loader.row_dict.
  assert (Hlt : (length fieldnames <? length row)%nat = false)
    by (apply Nat.ltb_ge; exact Hlen).
  rewrite Hlt.
  rewrite (zip_fill fieldnames row []).
  2:{ simpl. by apply Some_inj_NoDup. }
  simpl. rewrite (take_ge row) by exact Hlen.
  rewrite pad_fill.
  2:{ rewrite fst_zip by (rewrite !length_fmap, length_take; lia).
      rewrite <- fmap_app, take_drop. by apply Some_inj_NoDup. }
  rewrite !fmap_app.
  rewrite fst_zip by (rewrite !length_fmap, length_take; lia).
  rewrite snd_zip by (rewrite !length_fmap, length_take; lia).
  rewrite fst_zip by (rewrite length_fmap, length_replicate; lia).
  rewrite snd_zip by (rewrite length_fmap, length_replicate; lia).
  rewrite <- fmap_app, take_drop, length_drop. done.
Qed.

(** X10: under a header without repeated names, a line with no more fields
    than the header is read into one value per header name, in header
    order: its fields as text, then [None] for each name it has no field
    for. *)
Theorem row_dict_pads_short_lines (fieldnames row : list string) :
  NoDup fieldnames ->
  (length row <= length fieldnames)%nat ->
  (Loader.row_dict fieldnames row).*1 = Some <$> fieldnames /\
  (Loader.row_dict fieldnames row).*2 =
    (PStr <$> row) ++ replicate (length fieldnames - length row) PNone.
Proof. apply row_dict_short. Qed.

(** X11: under a header without repeated names, a line with more fields
    than the header is read into one value more than there are names: the
    surplus fields come last, gathered in a single list, so the [INSERT]
    gets one binding more than it has placeholders. *)
Theorem row_dict_gathers_surplus (fieldnames row : list string) :
  NoDup fieldnames ->
  (length fieldnames < length row)%nat ->
  (Loader.row_dict fieldnames row).*2 =
    (PStr <$> take (length fieldnames) row)
      ++ [PList (drop (length fieldnames) row)] /\
  length (Loader.row_dict fieldnames row).*2 = S (length fieldnames).
Proof.
  intros Hnd Hlen. unfold Loader.row_dict.
  assert (Hlt : (length fieldnames <? length row)%nat = true)
    by (apply Nat.ltb_lt; exact Hlen).
  rewrite Hlt.
  rewrite (zip_fill fieldnames row []).
  2:{ simpl. by apply Some_inj_NoDup. }
  simpl. rewrite (take_ge fieldnames) by lia.
  rewrite dict_set_fresh.
  2:{ rewrite fst_zip by (rewrite !length_fmap, length_take; lia).
      intros Hin. apply list_elem_of_fmap in Hin as (? & [=] & _). }
  rewrite fmap_app.
  rewrite snd_zip by (rewrite !length_fmap, length_take; lia).
  split; [reflexivity|].
  rewrite length_app, length_fmap, length_take. simpl. lia.
Qed.

(** X12: for a file whose header has no repeated name and whose data lines
    all have as many fields as the header, the bindings of each [INSERT]
    are the fields of its line in order, an empty field bound as [None]. *)
Theorem batch_of_well_formed_file (columns : list string) (lines : Loader.csvtext) :
  NoDup columns ->
  Forall (fun row => length row = length columns) (Loader.data_lines lines) ->
  batch columns lines
  = (fun row : list string =>
       (fun x : string => if decide (x = "") then PNone else PStr x) <$> row)
      <$> Loader.data_lines lines.
Proof.
  intros Hnd Hall. unfold batch. apply Forall_fmap_ext.
  eapply Forall_impl; [exact Hall|]. intros row Hrow. simpl in *.
  destruct (row_dict_short columns row Hnd ltac:(lia)) as [_ Hv].
  rewrite Hv, Hrow, Nat.sub_diag. simpl. rewrite app_nil_r.
  rewrite <- list_fmap_compose. reflexivity.
Qed.

End ReaderProps.

Section LoaderMore.
Context {DB : Type} `{!SqlEngine DB}.

Local Abbreviation World := (@Loader.World DB).
Local Abbreviation Conn := (@Loader.Conn DB).

(** X13: a file that is there but has no line at all, not even a header,
    takes the catch-all branch: the load reports an unexpected error for the
    table, returns 0 and leaves everything else as it was. *)
Theorem headerless_file_is_an_unexpected_error (table file : string)
    (w : World) (c : Conn) :
  idle w c ->
  Loader.csv_files w !! Gen.path_join Loader.DATA_DIR file = Some [] ->
  Loader.load_csv_to_table table file w =
  (Ok 0, Loader.with_log (Loader.log w ++ [Loader.UnexpectedErrorLoading table]) w).
Proof.
  intros Hidle Hcsv. by apply (load_csv_no_header table file w c []).
Qed.

(** One table load with the count it returns read off its closing line. *)
Lemma load_csv_counted (table file : string) (w : World) (c : Conn) :
  idle w c ->
  exists n w' c' e,
    Loader.load_csv_to_table table file w = (Ok n, w') /\
    idle w' c' /\
    Loader.log w' = Loader.log w ++ [e] /\
    reports table file e /\
    n = rows_reported e /\
    Loader.csv_files w' = Loader.csv_files w.
Proof.
  intros Hidle.
  destruct (Loader.csv_files w !! Gen.path_join Loader.DATA_DIR file)
    as [lines|] eqn:Hcsv.
  - destruct (head lines) as [columns|] eqn:Hhead.
    + rewrite (load_csv_result table file w c lines columns Hidle Hcsv Hhead).
      destruct (insert_all _ _ _ _ _) as [db'|].
      * eexists _, _, _, _. split; [reflexivity|].
        split; [|split; [reflexivity|split; [|split; reflexivity]]].
        -- repeat split.
        -- right. left. eauto.
      * eexists _, _, c, _. split; [reflexivity|].
        split; [exact Hidle|]. split; [reflexivity|].
        split; [|split; reflexivity]. right. right. by left.
    + rewrite (load_csv_no_header table file w c lines Hidle Hcsv Hhead).
      eexists _, _, c, _. split; [reflexivity|].
      split; [exact Hidle|]. split; [reflexivity|].
      split; [|split; reflexivity]. right. right. by right.
  - rewrite (load_csv_missing table file w Hcsv).
    eexists _, _, c, _. split; [reflexivity|].
    split; [exact Hidle|]. split; [reflexivity|].
    split; [|split; reflexivity]. by left.
Qed.

(** X14: started on an idle connection, a table load always returns: it
    never raises, leaves the connection idle (nothing pending, the file
    holding what the connection sees), adds exactly one line to the console,
    and returns the row count that line announces, 0 for every line that
    is not a success. *)
Theorem table_load_always_returns (table file : string) (w : World) (c : Conn) :
  idle w c ->
  exists n w' c' e,
    Loader.load_csv_to_table table file w = (Ok n, w') /\
    idle w' c' /\
    Loader.log w' = Loader.log w ++ [e] /\
    reports table file e /\
    n = rows_reported e.
Proof.
  intros Hidle.
  destruct (load_csv_counted table file w c Hidle)
    as (n & w' & c' & e & H1 & H2 & H3 & H4 & H5 & _).
  exists n, w', c', e. done.
Qed.

Lemma foldr_add_init (xs : list Z) (z : Z) :
  foldr Z.add z xs = foldr Z.add 0 xs + z.
Proof. induction xs as [|x xs IH]; simpl; lia. Qed.

(** X15: the total that the load loop hands to [main] is the sum of the row
    counts of the five closing lines it adds to the console, one per table
    in load order; tables that were skipped or rolled back count for 0. *)
Theorem total_loaded_is_sum_of_reports (w : World) (c : Conn) :
  idle w c ->
  exists total w' new,
    Loader.load_all_tables w = (Ok total, w') /\
    Loader.log w' = Loader.log w ++ new /\
    Forall2 (fun t e => exists file, (t, file) ∈ Loader.CSV_FILES /\ reports t file e)
      Loader.load_order new /\
    total = foldr Z.add 0 (rows_reported <$> new).
Proof.
  intros Hidle.
  cut (wp Loader.load_all_tables w
         (fun total w' => exists new,
            Loader.log w' = Loader.log w ++ new /\
            Forall2 (fun t e => exists file,
                       (t, file) ∈ Loader.CSV_FILES /\ reports t file e)
              Loader.load_order new /\
            total = foldr Z.add 0 (rows_reported <$> new))).
  { intros Hwp. apply wp_elim in Hwp as (total & w' & Hrun & new & H1 & H2 & H3).
    exists total, w', new. done. }
  unfold Loader.load_all_tables.
  apply (wp_for_each
           (fun pre (acc : Z) (s : World) =>
              (exists c', idle s c') /\
              exists new,
                Loader.log s = Loader.log w ++ new /\
                Forall2 (fun t e => exists file,
                           (t, file) ∈ Loader.CSV_FILES /\ reports t file e)
                  pre new /\
                acc = foldr Z.add 0 (rows_reported <$> new))).
  - split; [eauto|]. exists []. rewrite app_nil_r. repeat split. constructor.
  - intros pre x post acc s Hsplit [[c' Hc'] (new & Hlog & Hall & Hacc)].
    assert (Hx : x ∈ Loader.load_order).
    { rewrite Hsplit. apply elem_of_app. right. by left. }
    assert (Hfile : exists i file,
               (x, file) ∈ Loader.CSV_FILES /\
               list_find (fun kv : string * string => kv.1 = x) Loader.CSV_FILES
               = Some (i, (x, file))).
    { unfold Loader.load_order in Hx.
      repeat (apply elem_of_cons in Hx as [->|Hx]);
        [..|by apply elem_of_nil in Hx];
        eexists _, _; (split; [|vm_compute; reflexivity]);
        unfold Loader.CSV_FILES; repeat constructor. }
    destruct Hfile as (i & file & Hin & Hfind).
    rewrite Hfind. apply wp_bind, wp_ret.
    destruct (load_csv_counted x file s c' Hc')
      as (n & s' & c'' & e & Hload & Hidle' & Hlog' & Hrep & Hn & _).
    apply wp_bind. eapply wp_intro; [exact Hload|]. apply wp_ret.
    split; [eauto|]. exists (new ++ [e]).
    split; [by rewrite Hlog', Hlog, <- app_assoc|].
    split.
    + apply Forall2_app; [exact Hall|]. constructor; [|constructor]. eauto.
    + rewrite fmap_app, foldr_app. simpl. rewrite Hacc, Hn.
      rewrite (foldr_add_init _ (rows_reported e + 0)). lia.
  - intros acc s' [_ H]. exact H.
Qed.

Lemma guarded_closes (m : M World unit) (w : World) (r : outcome unit)
    (w' : World) :
  Loader.try_finally
    (Loader.try_except m (fun _ => Loader.print Loader.ErrorDuringEtl))
    (bind get (fun w : World =>
       if bool_decide (is_Some (Loader.conn w))
       then bind Loader.close (fun _ => Loader.print Loader.ConnectionClosed)
       else ret tt)) w
  = (r, w') ->
  Loader.conn w' = None.
Proof.
  unfold Loader.try_finally, Loader.try_except.
  destruct (m w) as [[[]|e] w1].
  - destruct (closing_returns w1) as [l Hl]. rewrite Hl. by intros [= _ <-].
  - unfold Loader.print at 1. unfold modify.
    destruct (closing_returns
                (Loader.with_log (Loader.log w1 ++ [Loader.ErrorDuringEtl]) w1))
      as [l Hl].
    rewrite Hl. by intros [= _ <-].
Qed.

Lemma create_connection_raises (w : World) (e : exn) (w' : World) :
  Loader.create_connection w = (Raise e, w') -> w' = w /\ e = OSError.
Proof.
  unfold Loader.create_connection, Loader.try_except, bind, get, modify,
    Loader.print, Loader.the_conn, raise, ret.
  destruct (bool_decide (is_Some (Loader.db_file w)));
    destruct (Loader.db_removable w); destruct (Loader.db_openable w);
    simpl; intros [= <- <-]; done.
Qed.

Lemma create_connection_refused (w w' : World) :
  Loader.create_connection w = (Ok false, w') ->
  Loader.conn w' = Loader.conn w /\ Loader.db_file w' = None.
Proof.
  unfold Loader.create_connection, Loader.try_except, bind, get, modify,
    Loader.print, Loader.the_conn, raise, ret.
  case_bool_decide as Hdb;
    destruct (Loader.db_removable w); destruct (Loader.db_openable w);
    simpl; intros [= <-]; simpl; split; try done.
  all: destruct (Loader.db_file w); [destruct Hdb; eauto | done].
Qed.

(** X16: no connection outlives [main]: started without one, the run of
    [main] ends without one on every path, whether the load went through,
    a step inside raised, or no connection could be made. *)
Theorem main_leaves_no_connection (w : World) (r : outcome unit) (w' : World) :
  Loader.conn w = None ->
  Loader.main w = (r, w') ->
  Loader.conn w' = None.
Proof.
  intros Hnone. unfold Loader.main. unfold bind at 1.
  destruct (Loader.create_connection w) as [[b|e] w1] eqn:Hcreate.
  - destruct b; simpl.
    + apply guarded_closes.
    + apply create_connection_refused in Hcreate as [Hc _].
      unfold bind, Loader.print, modify, ret. intros [= _ <-]. simpl.
      by rewrite Hc.
  - apply create_connection_raises in Hcreate as [-> _]. by intros [= _ <-].
Qed.

(** X17: when the database cannot be opened, [main] still returns
    normally, but only after the existing database file has been removed:
    the prior store is gone, no new one exists, and the last line of the
    console says that the connection failed. *)
Theorem unopenable_database_is_still_removed (w : World) :
  Loader.db_removable w = true ->
  Loader.db_openable w = false ->
  exists w', Loader.main w = (Ok tt, w') /\
             Loader.db_file w' = None /\
             Loader.conn w' = Loader.conn w /\
             last (Loader.log w') = Some Loader.FailedToCreateConnection.
Proof.
  intros Hrm Hop.
  unfold Loader.main, Loader.create_connection, Loader.try_except, bind, get,
    modify, Loader.print, Loader.the_conn, raise, ret.
  rewrite Hrm, Hop.
  case_bool_decide as Hdb; simpl; eexists; (split; [reflexivity|]); simpl.
  - repeat split. by rewrite last_snoc.
  - repeat split; [|by rewrite last_snoc].
    destruct (Loader.db_file w); [destruct Hdb; eauto | done].
Qed.

(** X18: when the existing database file cannot be removed, [main] raises
    [OSError] with nothing changed, step 2 turns that into [False], and a
    pipeline that loads (generation skipped) exits with code 1. *)
Theorem unremovable_database_fails_the_pipeline (w : World) :
  is_Some (Loader.db_file w) ->
  Loader.db_removable w = false ->
  Loader.main w = (Raise OSError, w) /\
  Pipeline.step_2_load_database w = (Ok false, w) /\
  forall (QueryResult : Type) (step_1 : M World bool)
         (step_3 : M World (option QueryResult))
         (step_4 : QueryResult -> M World bool) (skip_query : bool),
    Pipeline.main step_1 step_3 step_4 (Pipeline.mkArgs true false skip_query) w
    = (1, w).
Proof.
  intros Hdb Hrm.
  assert (Hmain : Loader.main w = (Raise OSError, w)).
  { unfold Loader.main. apply bind_raise.
    unfold Loader.create_connection, Loader.try_except, bind, get, modify,
      Loader.print, Loader.the_conn, raise, ret.
    rewrite bool_decide_eq_true_2 by exact Hdb. rewrite Hrm. reflexivity. }
  assert (Hstep : Pipeline.step_2_load_database w = (Ok false, w)).
  { unfold Pipeline.step_2_load_database, Loader.try_except.
    rewrite (bind_raise _ _ _ _ _ Hmain). reflexivity. }
  split; [exact Hmain|]. split; [exact Hstep|].
  intros Q s1 s3 s4 sq. unfold Pipeline.main, Pipeline.run_pipeline. simpl.
  rewrite (bind_ok (ret true) _ w w true eq_refl). simpl.
  rewrite (bind_ok _ _ _ _ _ Hstep). reflexivity.
Qed.

(** X19: the whole load is blind to what the database file held before:
    whatever two stores a removable file may hold, [main] returns the same
    result and leaves the same files, connection and console. *)
Theorem load_is_blind_to_prior_store (w : World) (d1 d2 : DB) :
  Loader.db_removable w = true ->
  Loader.main (Loader.with_db_file (Some d1) w)
  = Loader.main (Loader.with_db_file (Some d2) w).
Proof. apply main_ignores_prior_store. Qed.

End LoaderMore.

(** * Further properties of the orchestration *)

Section PipelineMore.
Context {DB : Type} `{!SqlEngine DB} {QueryResult : Type}.

Local Abbreviation World := (@Loader.World DB).

Variable step_1 : M World bool.
Variable step_3 : M World (option QueryResult).
Variable step_4 : QueryResult -> M World bool.

(** X20: when data generation is not skipped and fails, the pipeline stops
    there: no later step runs, the world is as step 1 left it, and the exit
    code is 1, whatever the other flags. *)
Theorem failed_generation_stops_the_pipeline (args : Pipeline.Args)
    (w w1 : World) :
  Pipeline.skip_data args = false ->
  step_1 w = (Ok false, w1) ->
  Pipeline.main step_1 step_3 step_4 args w = (1, w1).
Proof.
  intros Hskip Hstep. unfold Pipeline.main, Pipeline.run_pipeline.
  rewrite Hskip. simpl. rewrite (bind_ok _ _ _ _ _ Hstep). reflexivity.
Qed.

Lemma gate_inv {S} (m : M S bool) (k : M S bool) (s w' : S) :
  bind m (fun ok => if negb ok then ret false else k) s = (Ok true, w') <->
  exists s1, m s = (Ok true, s1) /\ k s1 = (Ok true, w').
Proof.
  unfold bind, ret. destruct (m s) as [[[|]|e] s1]; simpl; split.
  - eauto.
  - by intros (? & [= <-] & ?).
  - discriminate.
  - by intros (? & [=] & _).
  - discriminate.
  - by intros (? & [=] & _).
Qed.

Lemma skippable_inv {S} (skip : bool) (m : M S bool) (s s1 : S) :
  (if negb skip then m else ret true) s = (Ok true, s1) <->
  (if skip then s1 = s else m s = (Ok true, s1)).
Proof.
  destruct skip; simpl; [|done]. unfold ret. split; [by intros [= <-]|by intros ->].
Qed.

Lemma exit_code_zero (args : Pipeline.Args) (w w' : World) :
  Pipeline.main step_1 step_3 step_4 args w = (0, w') <->
  Pipeline.run_pipeline step_1 step_3 step_4 args w = (Ok true, w').
Proof.
  unfold Pipeline.main.
  destruct (Pipeline.run_pipeline step_1 step_3 step_4 args w) as [[[|]|e] w1];
    split; intros [= <-]; reflexivity.
Qed.

(** X21: the exit code is 0 exactly when every step that is not skipped
    returns success, each started where the one before stopped; the export
    runs on the result of the query. *)
Theorem exit_code_zero_iff_all_steps_succeed (args : Pipeline.Args)
    (w w' : World) :
  Pipeline.main step_1 step_3 step_4 args w = (0, w') <->
  exists w1 w2,
    (if Pipeline.skip_data args then w1 = w else step_1 w = (Ok true, w1)) /\
    (if Pipeline.skip_load args then w2 = w1
     else Pipeline.step_2_load_database w1 = (Ok true, w2)) /\
    (if Pipeline.skip_query args then w' = w2
     else exists r w3, step_3 w2 = (Ok (Some r), w3) /\
                       step_4 r w3 = (Ok true, w')).
Proof.
  rewrite exit_code_zero. unfold Pipeline.run_pipeline.
  assert (Hq : forall w2,
            (if negb (Pipeline.skip_query args)
             then bind step_3 (fun query_result =>
                    match query_result with
                    | Some r =>
                        bind (step_4 r) (fun ok4 =>
                          if negb ok4 then ret false else ret true)
                    | None => ret false
                    end)
             else ret true) w2 = (Ok true, w') <->
            (if Pipeline.skip_query args then w' = w2
             else exists r w3, step_3 w2 = (Ok (Some r), w3) /\
                               step_4 r w3 = (Ok true, w'))).
  { intros w2. destruct (Pipeline.skip_query args); simpl.
    - unfold ret. split; [by intros [= <-]|by intros ->].
    - unfold bind, ret. split.
      + destruct (step_3 w2) as [[[r|]|e] w3]; simpl; try discriminate.
        destruct (step_4 r w3) as [[[|]|e] w4] eqn:H4; simpl; try discriminate.
        intros [= <-]. eauto.
      + intros (r & w3 & -> & H4). simpl. rewrite H4. reflexivity. }
  split.
  - intros H. apply gate_inv in H as (w1 & H1 & H).
    apply gate_inv in H as (w2 & H2 & H3). exists w1, w2.
    apply skippable_inv in H1. apply skippable_inv in H2. apply Hq in H3. done.
  - intros (w1 & w2 & H1 & H2 & H3).
    apply gate_inv. exists w1. split; [by apply skippable_inv|].
    apply gate_inv. exists w2. split; [by apply skippable_inv|]. by apply Hq.
Qed.

End PipelineMore.

(** ** The further properties on concrete inputs *)

Module MoreRuns.
Import Ref RefMore RefLaws.

Lemma csv_files_hold_the_records_witness :
  exists d w', Gen.run sample_world = (Ok d, w') /\
    Gen.files w' = files_of d (Gen.files sample_world) /\
    Gen.files w' !! Gen.path_join Gen.DATA_DIR "orders.csv"
      = Some (csv_of order_keys order_values (Gen.orders d)) /\
    forall name,
      name ∉ (Gen.path_join Gen.DATA_DIR <$> Step1.csv_files) ->
      Gen.files w' !! name = Gen.files sample_world !! name.
Proof. exact (csv_files_hold_the_records sample_world). Defined.

Lemma order_items_are_priced_witness :
  exists d w', Gen.run sample_world = (Ok d, w') /\
    (exists n, 150 <= n <= 300 /\
       OrderItem.order_item_id <$> Gen.order_items d = range 1 (n + 1)) /\
    Forall (item_priced (Gen.products d)) (Gen.order_items d).
Proof. exact (order_items_are_priced sample_world). Defined.

Lemma payments_follow_their_orders_witness :
  exists d w', Gen.run sample_world = (Ok d, w') /\
    Payment.payment_id <$> Gen.payments d
      = range 1 (Z.of_nat (length (Gen.orders d)) + 1) /\
    Forall2 payment_ok (Gen.orders d) (Gen.payments d).
Proof. exact (payments_follow_their_orders sample_world). Defined.

Lemma enumerated_fields_in_range_witness :
  exists d w', Gen.run sample_world = (Ok d, w') /\
    Forall customer_ok (Gen.customers d) /\
    Forall product_ok (Gen.products d) /\
    Forall (fun o => Order.status o ∈ Gen.order_statuses) (Gen.orders d).
Proof. exact (enumerated_fields_in_range sample_world). Defined.

Lemma record_counts_witness :
  exists d w', Gen.run sample_world = (Ok d, w') /\
    100 <= Z.of_nat (length (Gen.customers d)) <= 300 /\
    100 <= Z.of_nat (length (Gen.products d)) <= 300 /\
    100 <= Z.of_nat (length (Gen.orders d)) <= 300 /\
    150 <= Z.of_nat (length (Gen.order_items d)) <= 300 /\
    length (Gen.payments d) = length (Gen.orders d) /\
    Product.product_id <$> Gen.products d
      = range 1 (Z.of_nat (length (Gen.products d)) + 1) /\
    Order.order_id <$> Gen.orders d
      = range 1 (Z.of_nat (length (Gen.orders d)) + 1).
Proof. exact (record_counts sample_world). Defined.

Lemma step_1_always_succeeds_witness :
  exists w', Step1.step_1_generate_data sample_world = (Ok true, w').
Proof. exact (step_1_always_succeeds sample_world). Defined.

Lemma generate_orders_needs_customers_witness :
  exists w',
    Gen.generate_orders (Gen.mkConfig 100 100 100 150) [] sample_world
    = (Raise IndexError, w') /\ w' = sample_world.
Proof.
  destruct (generate_orders_needs_customers (Gen.mkConfig 100 100 100 150)
              sample_world) as (w' & Hrun & _ & Hsame).
  exists w'. split; [exact Hrun|]. apply Hsame. simpl. lia.
Defined.

Lemma generate_order_items_needs_products_witness :
  exists w',
    Gen.generate_order_items (Gen.mkConfig 100 100 100 150) 0 []
      world_with_one_order = (Raise IndexError, w') /\
    Gen.heap w' = Gen.heap world_with_one_order.
Proof.
  apply (generate_order_items_needs_products _ 0 [lone_order]).
  reflexivity.
Defined.

Lemma generate_payments_needs_orders_witness :
  Gen.generate_payments 0 world_without_orders
  = (Raise IndexError,
     Gen.with_files
       (<[Gen.path_join Gen.DATA_DIR "payments.csv" := []]>
          (Gen.files world_without_orders)) world_without_orders).
Proof. apply generate_payments_needs_orders. reflexivity. Defined.

Lemma row_dict_pads_short_lines_witness :
  (Loader.row_dict ["order_id"; "status"; "shipped_date"] ["7"; "Pending"]).*2
  = [PStr "7"; PStr "Pending"; PNone].
Proof.
  apply (row_dict_pads_short_lines ["order_id"; "status"; "shipped_date"]
           ["7"; "Pending"]).
  - apply (bool_decide_unpack _). vm_compute. exact I.
  - simpl. lia.
Defined.

Lemma row_dict_gathers_surplus_witness :
  (Loader.row_dict ["order_id"; "status"] ["7"; "Pending"; "x"; "y"]).*2
  = [PStr "7"; PStr "Pending"; PList ["x"; "y"]].
Proof.
  apply (row_dict_gathers_surplus ["order_id"; "status"]
           ["7"; "Pending"; "x"; "y"]).
  - apply (bool_decide_unpack _). vm_compute. exact I.
  - simpl. lia.
Defined.

Lemma batch_of_well_formed_file_witness :
  batch ["order_id"; "status"; "shipped_date"]
    [["order_id"; "status"; "shipped_date"]; ["7"; "Pending"; ""]]
  = [[PStr "7"; PStr "Pending"; PNone]].
Proof.
  apply (batch_of_well_formed_file ["order_id"; "status"; "shipped_date"]
           [["order_id"; "status"; "shipped_date"]; ["7"; "Pending"; ""]]).
  - apply (bool_decide_unpack _). vm_compute. exact I.
  - repeat constructor.
Defined.

Lemma before_empty_orders_idle : idle before_empty_orders before_orders_conn.
Proof. split; [|split]; vm_compute; reflexivity. Qed.

Lemma before_orders_idle : idle before_orders before_orders_conn.
Proof. split; [|split]; vm_compute; reflexivity. Qed.

Lemma headerless_file_is_an_unexpected_error_witness :
  Loader.load_csv_to_table "orders" "orders.csv" before_empty_orders =
  (Ok 0,
   Loader.with_log
     (Loader.log before_empty_orders ++ [Loader.UnexpectedErrorLoading "orders"])
     before_empty_orders).
Proof.
  apply (headerless_file_is_an_unexpected_error "orders" "orders.csv"
           before_empty_orders before_orders_conn).
  - exact before_empty_orders_idle.
  - vm_compute. reflexivity.
Defined.

Lemma table_load_always_returns_witness :
  exists n w' c' e,
    Loader.load_csv_to_table "orders" "orders.csv" before_orders = (Ok n, w') /\
    idle w' c' /\
    Loader.log w' = Loader.log before_orders ++ [e] /\
    reports "orders" "orders.csv" e /\
    n = rows_reported e.
Proof.
  exact (table_load_always_returns "orders" "orders.csv" before_orders
           before_orders_conn before_orders_idle).
Defined.

Lemma total_loaded_is_sum_of_reports_witness :
  exists total w' new,
    Loader.load_all_tables before_orders = (Ok total, w') /\
    Loader.log w' = Loader.log before_orders ++ new /\
    Forall2 (fun t e => exists file, (t, file) ∈ Loader.CSV_FILES /\ reports t file e)
      Loader.load_order new /\
    total = foldr Z.add 0 (rows_reported <$> new).
Proof.
  exact (total_loaded_is_sum_of_reports before_orders before_orders_conn
           before_orders_idle).
Defined.

Lemma main_leaves_no_connection_witness :
  Loader.conn (Loader.main sample_disk).2 = None.
Proof.
  apply (main_leaves_no_connection sample_disk (Loader.main sample_disk).1).
  - reflexivity.
  - apply surjective_pairing.
Defined.

Lemma unopenable_database_is_still_removed_witness :
  is_Some (Loader.db_file unopenable_disk) /\
  exists w', Loader.main unopenable_disk = (Ok tt, w') /\
             Loader.db_file w' = None /\
             Loader.conn w' = Loader.conn unopenable_disk /\
             last (Loader.log w') = Some Loader.FailedToCreateConnection.
Proof.
  split.
  - vm_compute. eauto.
  - apply unopenable_database_is_still_removed; reflexivity.
Defined.

Lemma unremovable_database_fails_the_pipeline_witness :
  Loader.main locked_disk = (Raise OSError, locked_disk) /\
  exit_code load_only locked_disk = 1.
Proof.
  destruct (unremovable_database_fails_the_pipeline locked_disk)
    as (Hmain & _ & Hexit).
  - vm_compute. eauto.
  - reflexivity.
  - split; [exact Hmain|]. unfold exit_code, load_only. by rewrite Hexit.
Defined.

Lemma load_is_blind_to_prior_store_witness :
  Loader.main (Loader.with_db_file (Some empty_db) sample_disk)
  = Loader.main (Loader.with_db_file (Loader.db_file before_orders) sample_disk).
Proof.
  assert (Hdb : Loader.db_file before_orders
                = Some (Loader.work before_orders_conn))
    by (vm_compute; reflexivity).
  rewrite Hdb. apply load_is_blind_to_prior_store. reflexivity.
Defined.

Lemma failed_generation_stops_the_pipeline_witness :
  Pipeline.main failing_step query_step export_step
    (Pipeline.mkArgs false false false) sample_disk
  = (1, Loader.with_log [Loader.ErrorDuringEtl] sample_disk).
Proof.
  apply failed_generation_stops_the_pipeline; reflexivity.
Defined.

Lemma exit_code_zero_iff_all_steps_succeed_witness :
  Pipeline.main passing_step query_step export_step
    (Pipeline.mkArgs false true false) sample_disk
  = (0, sample_disk).
Proof.
  apply exit_code_zero_iff_all_steps_succeed.
  exists sample_disk, sample_disk. simpl.
  split; [reflexivity|]. split; [reflexivity|].
  exists tt, sample_disk. split; reflexivity.
Defined.

Lemma pool_faker_steady : date_draw_steady (R := Z).
Proof. intros start_date end_date t t' r. reflexivity. Qed.

Lemma run_deterministic_given_clock_witness :
  Gen.run (Gen.process_start 1 2 (clock_from 1767225600))
  = Gen.run (Gen.process_start 3 4 (clock_from 1767225600)) /\
  exists d d' w w',
    Gen.run (Gen.process_start 1 2 (clock_from 1767225600)) = (Ok d, w) /\
    Gen.run (Gen.process_start 3 4 (clock_from 1830297600)) = (Ok d', w') /\
    length (Gen.customers d) = length (Gen.customers d') /\
    Gen.order_items d = Gen.order_items d' /\
    Gen.files w !! "data/order_items.csv" = Gen.files w' !! "data/order_items.csv" /\
    clock_free true d = clock_free true d' /\
    undated <$> Gen.files w = undated <$> Gen.files w'.
Proof.
  destruct (run_deterministic_given_clock (F:=fixed) 1 2 3 4
              (clock_from 1767225600) (clock_from 1830297600))
    as (Hsame & d & d' & w & w' & Hrun & Hrun' & Hcount & Hfree & Hitems & Hall).
  split; [exact Hsame|]. exists d, d', w, w'.
  split; [exact Hrun|]. split; [exact Hrun'|].
  split; [exact (proj1 Hcount)|].
  split; [exact (f_equal Gen.order_items Hfree)|].
  split; [exact Hitems|]. exact (Hall pool_faker_steady).
Defined.

End MoreRuns.
